(** * Budget prediction service: feature engineering and decision policy

    A shallow embedding of [ai-service/app.py] (class
    [AdvancedBudgetPredictor]): [engineer_features], [_calculate_trend],
    [get_peer_recommendations], [predict_with_ml], [_classify_trend] and
    [_statistical_fallback_prediction].

    Numbers.  Integer cents are [Z].  Two places where the machine
    representation decides the result are modelled as the code has them:
    [float(n)] on an integer rounds to the nearest double, ties to even
    ([Py.float]), and [Series.sum()] of an integer column wraps at 64
    bits ([Py.int64_sum]).  Arithmetic on the resulting doubles is
    computed on exact rationals ([Q]).  Square roots are not rational, so
    the three standard deviations the source stores are kept as their
    squares (the variances) and documented at the field.  The
    trigonometric encodings of month and quarter are functions of the
    [month] and [quarter] fields alone and are not part of the record.

    Data frames are lists of row records, in frame order.  Dates are day
    numbers ([Z]); only their order is used by the source. *)

From Stdlib Require Import ZArith QArith Qabs String List Bool Lia Lqa.
From Stdlib Require Import DecimalString Permutation Sorted.
Import ListNotations.
Open Scope Q_scope.

(* ------------------------------------------------------------------ *)
(** ** Python and numpy primitives *)

Module Py.

(** Exceptions that may escape an expression of the modelled code. *)
Inductive exn : Type :=
| ZeroDivisionError
| IndexError
| TypeError
| KeyError.

(** The result of running fallible code. *)
Inductive outcome (A : Type) : Type :=
| Ok (a : A)
| Raised (e : exn).
Arguments Ok {A} a.
Arguments Raised {A} e.

Definition bind {A B} (m : outcome A) (k : A -> outcome B) : outcome B :=
  match m with
  | Ok a => k a
  | Raised e => Raised e
  end.

(** A loop that appends one result per element: the first exception
    ends it. *)
Fixpoint collect {A} (l : list (outcome A)) : outcome (list A) :=
  match l with
  | [] => Ok []
  | m :: rest =>
      bind m (fun a => bind (collect rest) (fun r => Ok (a :: r)))
  end.

Definition Qltb (x y : Q) : bool := negb (Qle_bool y x).

(** [max(a, b)]: the second argument wins only when strictly larger. *)
Definition max (a b : Q) : Q := if Qltb a b then b else a.

(** [min(a, b)]: the second argument wins only when strictly smaller. *)
Definition min (a b : Q) : Q := if Qltb b a then b else a.

(** [int(x)] on a float: truncation toward zero. *)
Definition int (x : Q) : Z := Z.quot (Qnum x) (Zpos (Qden x)).

(** [a / b] on Python floats raises on a zero divisor. *)
Definition div (a b : Q) : outcome Q :=
  if Qeq_bool b 0 then Raised ZeroDivisionError else Ok (a / b).

(** An integer read as an exact rational: a row count, an index of
    [np.arange], a [numeric] of the database. *)
Definition exact (z : Z) : Q := inject_Z z.

(** Spacing of the doubles around [a >= 0]: 1 up to 2^53, then doubling
    with every further bit. *)
Definition grid (a : Z) : Z := (2 ^ Z.max 0 (Z.log2 a - 52))%Z.

(** The multiple of [g] nearest to [a >= 0]; a tie goes to the even
    multiple. *)
Definition nearest_even (g a : Z) : Z :=
  let q := (a / g)%Z in
  let r := (a mod g)%Z in
  if (2 * r <? g)%Z then (q * g)%Z
  else if (g <? 2 * r)%Z then ((q + 1) * g)%Z
  else if Z.even q then (q * g)%Z
  else ((q + 1) * g)%Z.

(** The double nearest to an integer (53 significant bits, round half
    to even); every 64-bit integer is far inside the range of doubles. *)
Definition to_double (z : Z) : Z :=
  (Z.sgn z * nearest_even (grid (Z.abs z)) (Z.abs z))%Z.

(** [float(n)] on an integer, also where an integer meets a float in
    arithmetic. *)
Definition float (z : Z) : Q := inject_Z (to_double z).

(** A 64-bit signed integer after overflow. *)
Definition int64 (z : Z) : Z := ((z + 2 ^ 63) mod 2 ^ 64 - 2 ^ 63)%Z.

(** [Series.sum()] of an [int64] column: the additions wrap. *)
Definition int64_sum (l : list Z) : Z := int64 (fold_right Z.add 0%Z l).

Definition len {A} (l : list A) : Z := Z.of_nat (length l).

Fixpoint sum (l : list Q) : Q :=
  match l with
  | [] => 0
  | x :: r => x + sum r
  end.

(** [np.mean] / [Series.mean]; every call site of the source guards
    against the empty list. *)
Definition mean (l : list Q) : Q := sum l / exact (len l).

(** Square of [Series.std()] (sample deviation, ddof = 1); [None] is
    the NaN pandas returns for fewer than two values. *)
Definition std_sq (l : list Q) : option Q :=
  if (len l <? 2)%Z then None
  else
    let m := mean l in
    Some (sum (map (fun x => (x - m) * (x - m)) l) / (exact (len l) - 1)).

(** [np.std] of exactly two values (population deviation): the square
    root of ((a-m)^2 + (b-m)^2)/2 with m = (a+b)/2 is |a-b|/2. *)
Definition np_std2 (a b : Q) : Q := Qabs (a - b) / 2.

(** [np.arange(n)]: the indices 0 .. n-1. *)
Definition arange (n : nat) : list Q :=
  map (fun i => exact (Z.of_nat i)) (seq 0 n).

(** Slope returned by [scipy.stats.linregress(x, values)]. *)
Definition linregress_slope (x values : list Q) : Q :=
  let xm := mean x in
  let ym := mean values in
  sum (map (fun p => (fst p - xm) * (snd p - ym)) (combine x values))
  / sum (map (fun xi => (xi - xm) * (xi - xm)) x).

(** [Series.tail(n)]. *)
Definition tail {A} (n : nat) (l : list A) : list A :=
  skipn (length l - n) l.

(** [Series.unique()]: distinct values in order of first appearance. *)
Fixpoint unique (l : list Z) : list Z :=
  match l with
  | [] => []
  | x :: r => x :: filter (fun y => negb (y =? x)%Z) (unique r)
  end.

(** [Series.min()] and [Series.max()] of a non-empty integer column. *)
Definition zmin (d : Z) (l : list Z) : Z :=
  match l with
  | [] => d
  | x :: r => fold_left Z.min r x
  end.

Definition zmax (d : Z) (l : list Z) : Z :=
  match l with
  | [] => d
  | x :: r => fold_left Z.max r x
  end.

(** [DataFrame.sort_values(key)], ascending, as a stable insertion
    sort: rows with equal keys keep their frame order (pandas promises
    no particular order for ties). *)
Fixpoint insert_by {A} (key : A -> Z) (x : A) (l : list A) : list A :=
  match l with
  | [] => [x]
  | y :: r => if (key x <=? key y)%Z then x :: y :: r
              else y :: insert_by key x r
  end.

Definition sort_values {A} (key : A -> Z) (l : list A) : list A :=
  fold_right (insert_by key) [] l.


(** [str(n)] / f-string rendering of an integer. *)
Definition str (n : Z) : string := NilZero.string_of_int (Z.to_int n).

End Py.

Notation "x <- m ;; k" := (Py.bind m (fun x => k))
  (at level 61, m at next level, right associativity).

(* ------------------------------------------------------------------ *)
(** ** Rows of the three data frames *)

Record BudgetRow : Type := mkBudgetRow {
  b_category_id : Z;
  b_category_name : string;
  b_period_start : Z;
  b_period_end : Z;
  b_planned_cents : Z;
  b_month : Z;
  b_quarter : Z;
  b_year : Z
}.

Record SpendingRow : Type := mkSpendingRow {
  s_category_id : Z;
  s_spent_cents : Z;
  s_txn_date : Z
}.

Record AccountRow : Type := mkAccountRow {
  a_category_id : Z;
  a_transaction_count : Z
}.

(** One row of the engineered feature frame (the [features] dict). *)
Record Features : Type := mkFeatures {
  category_id : Z;
  category_name : string;
  target_amount : Q;
  month : Z;
  quarter : Z;
  year : Z;
  historical_mean : Q;
  (** square of the source's [historical_std]; [None] is NaN *)
  historical_std_sq : option Q;
  historical_min : Q;
  historical_max : Q;
  historical_trend : Q;
  historical_count : Z;
  historical_spent_mean : Q;
  historical_spent_count : Z;
  historical_combined_mean : Q;
  recent_mean : Q;
  recent_trend : Q;
  actual_spent : Q;
  spending_frequency : Q;
  avg_transaction_size : Q;
  (** square of the source's [spending_volatility] *)
  spending_volatility_sq : Q;
  budget_accuracy : Q;
  account_diversity : Q;
  primary_account_usage : Q
}.

(* ------------------------------------------------------------------ *)
(** ** Feature engineering *)

Module FeatureEngineer.

Definition _calculate_trend (values : list Q) : Q :=
  if (Py.len values <? 2)%Z then 0
  else Py.linregress_slope (Py.arange (length values)) values.

Definition planned (rows : list BudgetRow) : list Q :=
  map (fun b => Py.float (b_planned_cents b)) rows.

Definition spent (rows : list SpendingRow) : list Q :=
  map (fun s => Py.float (s_spent_cents s)) rows.

(** [category_budgets[category_budgets['period_start'] < period_start]] *)
Definition historical_budgets (category_budgets : list BudgetRow)
    (period_start : Z) : list BudgetRow :=
  filter (fun b => (b_period_start b <? period_start)%Z) category_budgets.

(** Spending rows with [start <= txn_date <= end]. *)
Definition period_spent (category_spending : list SpendingRow)
    (start end_ : Z) : list SpendingRow :=
  filter (fun s => (start <=? s_txn_date s)%Z && (s_txn_date s <=? end_)%Z)
         category_spending.

(** [float(rows['spent_cents'].sum())]: the integer column is summed at
    64 bits, then converted. *)
Definition spent_sum (rows : list SpendingRow) : Q :=
  Py.float (Py.int64_sum (map s_spent_cents rows)).

(** One entry per past period that has at least one transaction. *)
Definition historical_spent_values (category_spending : list SpendingRow)
    (hist : list BudgetRow) : list Q :=
  flat_map
    (fun past_row =>
       let ps := period_spent category_spending
                   (b_period_start past_row) (b_period_end past_row) in
       match ps with
       | [] => []
       | _ => [spent_sum ps]
       end)
    hist.

(** The accuracy score of one period. *)
Definition accuracy_of (category_spending : list SpendingRow)
    (planned_amount actual : Q) : Q :=
  match category_spending with
  | [] => 0.5
  | _ =>
      let total_category_spending := spent_sum category_spending in
      if Py.Qltb 0 actual then
        1 - Qabs (planned_amount - actual) / Py.max planned_amount actual
      else if Py.Qltb 0 total_category_spending then 0.7
      else 0.5
  end.

(** The feature dict the inner loop builds for one budget row when
    [category_spending] has its columns.  [category_budgets] is already
    sorted by [period_start]. *)
Definition feature_row (category_budgets : list BudgetRow)
    (category_spending : list SpendingRow)
    (category_accounts : list AccountRow)
    (budget_row : BudgetRow) : Features :=
  let own := Py.float (b_planned_cents budget_row) in
  let hist := historical_budgets category_budgets
                (b_period_start budget_row) in
  let hvals := planned hist in
  let spent_values := historical_spent_values category_spending hist in
  let h_mean := match hist with [] => own | _ => Py.mean hvals end in
  let h_spent_mean :=
    match hist, spent_values with
    | _ :: _, _ :: _ => Py.mean spent_values
    | _, _ => 0
    end in
  let h_spent_count :=
    match hist with [] => 0%Z | _ => Py.len spent_values end in
  let recent := Py.tail 3 hist in
  let period_spending :=
    period_spent category_spending
      (b_period_start budget_row) (b_period_end budget_row) in
  let actual :=
    match period_spending with
    | [] => 0
    | _ => spent_sum period_spending
    end in
  {| category_id := b_category_id budget_row;
     category_name := b_category_name budget_row;
     target_amount := own;
     month := b_month budget_row;
     quarter := b_quarter budget_row;
     year := b_year budget_row;
     historical_mean := h_mean;
     historical_std_sq :=
       match hist with [] => Some 0 | _ => Py.std_sq hvals end;
     historical_min :=
       match hist with
       | [] => own
       | _ => Py.float (Py.zmin 0 (map b_planned_cents hist))
       end;
     historical_max :=
       match hist with
       | [] => own
       | _ => Py.float (Py.zmax 0 (map b_planned_cents hist))
       end;
     historical_trend :=
       match hist with [] => 0 | _ => _calculate_trend hvals end;
     historical_count := Py.len hist;
     historical_spent_mean := h_spent_mean;
     historical_spent_count := h_spent_count;
     historical_combined_mean :=
       match hist with
       | [] => own
       | _ => if (0 <? h_spent_count)%Z
              then 0.7 * h_spent_mean + 0.3 * h_mean
              else h_mean
       end;
     recent_mean :=
       match hist with
       | [] => own
       | _ => if (0 <? Py.len recent)%Z then Py.mean (planned recent)
              else h_mean
       end;
     recent_trend :=
       match hist with
       | [] => 0
       | _ => if (1 <? Py.len recent)%Z
              then _calculate_trend (planned recent) else 0
       end;
     actual_spent := actual;
     spending_frequency := Py.float (Py.len period_spending);
     avg_transaction_size :=
       match period_spending with
       | [] => 0
       | _ => Py.mean (spent period_spending)
       end;
     spending_volatility_sq :=
       match Py.std_sq (spent period_spending) with
       | Some v => v
       | None => 0
       end;
     budget_accuracy := accuracy_of category_spending own actual;
     account_diversity :=
       match category_accounts with
       | [] => 1
       | _ => Py.float (Py.len category_accounts)
       end;
     primary_account_usage :=
       match category_accounts with
       | [] => 1
       | _ => Py.float
                (Py.zmax 0 (map a_transaction_count category_accounts))
       end |}.

Definition of_category {A} (cat : A -> Z) (c : Z) (rows : list A) : list A :=
  filter (fun r => (cat r =? c)%Z) rows.

(** [category_spending]: the category's rows of [spending_df]; for an
    empty [spending_df] the source takes [pd.DataFrame()], a frame
    without columns, which is [None] here. *)
Definition select_spending (spending_df : list SpendingRow) (c : Z)
    : option (list SpendingRow) :=
  match spending_df with
  | [] => None
  | _ => Some (of_category s_category_id c spending_df)
  end.

(** Body of the inner loop.  On the frame without columns the look-back
    loop raises at its first [category_spending['txn_date']], that is,
    for every row that has an earlier period; all other uses of the
    frame are behind [category_spending.empty], which holds for it. *)
Definition row_features (category_budgets : list BudgetRow)
    (category_spending : option (list SpendingRow))
    (category_accounts : list AccountRow)
    (budget_row : BudgetRow) : Py.outcome Features :=
  match category_spending with
  | Some rows =>
      Py.Ok (feature_row category_budgets rows category_accounts budget_row)
  | None =>
      match historical_budgets category_budgets
              (b_period_start budget_row) with
      | [] =>
          Py.Ok (feature_row category_budgets [] category_accounts
                   budget_row)
      | _ :: _ => Py.Raised Py.KeyError
      end
  end.

(** Feature rows of one category, in period order. *)
Definition category_features (budgets_df : list BudgetRow)
    (spending_df : list SpendingRow) (accounts_df : list AccountRow)
    (c : Z) : Py.outcome (list Features) :=
  let category_budgets :=
    Py.sort_values b_period_start (of_category b_category_id c budgets_df) in
  let category_spending := select_spending spending_df c in
  let category_accounts := of_category a_category_id c accounts_df in
  Py.collect
    (map (row_features category_budgets category_spending category_accounts)
         category_budgets).

Definition engineer_features (budgets_df : list BudgetRow)
    (spending_df : list SpendingRow) (accounts_df : list AccountRow)
    : Py.outcome (list Features) :=
  match budgets_df with
  | [] => Py.Ok []
  | _ =>
      blocks <-
        Py.collect
          (map (category_features budgets_df spending_df accounts_df)
               (Py.unique (map b_category_id budgets_df))) ;;
      Py.Ok (concat blocks)
  end.

(** The rows [category_features] and [engineer_features] return when no
    row raises (see [engineer_features_ok] below). *)
Definition category_rows (budgets_df : list BudgetRow)
    (spending_df : list SpendingRow) (accounts_df : list AccountRow)
    (c : Z) : list Features :=
  let category_budgets :=
    Py.sort_values b_period_start (of_category b_category_id c budgets_df) in
  let category_spending := of_category s_category_id c spending_df in
  let category_accounts := of_category a_category_id c accounts_df in
  map (feature_row category_budgets category_spending category_accounts)
      category_budgets.

Definition feature_rows (budgets_df : list BudgetRow)
    (spending_df : list SpendingRow) (accounts_df : list AccountRow)
    : list Features :=
  flat_map (category_rows budgets_df spending_df accounts_df)
           (Py.unique (map b_category_id budgets_df)).

(** Some budget row has an earlier period of its own category. *)
Definition has_history (budgets_df : list BudgetRow) : bool :=
  existsb
    (fun r =>
       existsb
         (fun r' =>
            (b_category_id r' =? b_category_id r)%Z
            && (b_period_start r' <? b_period_start r)%Z)
         budgets_df)
    budgets_df.

(** The fields of a feature row that the source derives from the
    strictly earlier periods of the category. *)
Definition history_fields (f : Features) :=
  (historical_mean f, historical_std_sq f, historical_min f,
   historical_max f, historical_trend f, historical_count f,
   historical_spent_mean f, historical_spent_count f,
   historical_combined_mean f, recent_mean f, recent_trend f).

End FeatureEngineer.

(* ------------------------------------------------------------------ *)
(** ** Peer recommendation resolver *)

Module Peer.

(** [user_clusters[user_id]]: the cluster of a user and the ranked
    peers the clusterer stored for it. *)
Record ClusterInfo : Type := mkClusterInfo {
  cluster_id : Z;
  similarity_peers : list Z
}.

(** The [user_clusters] dict, keyed by user id. *)
Definition UserClusters : Type := list (Z * ClusterInfo).

Fixpoint lookup (user_id : Z) (user_clusters : UserClusters)
    : option ClusterInfo :=
  match user_clusters with
  | [] => None
  | (k, v) :: r => if (k =? user_id)%Z then Some v else lookup user_id r
  end.

(** [user_id in user_clusters] *)
Definition member (user_id : Z) (user_clusters : UserClusters) : bool :=
  match lookup user_id user_clusters with
  | Some _ => true
  | None => false
  end.

(** One row of the [peer_budgets] common table expression: a budget
    item of a peer for the target category inside the window, joined
    with that month's spending. *)
Record PeerBudgetRow : Type := mkPeerBudgetRow {
  planned_cents : Z;
  pb_actual_spent : Z;
  budget_variance : Z
}.

(** The database as the resolver sees it: the rows of [peer_budgets]
    for one peer, a category and a window, or [None] when connecting or
    executing raises. *)
Definition PeerBudgets : Type :=
  Z -> Z -> Z -> option (list PeerBudgetRow).

(** How the caller holds the category id it passes: a Python [int]
    (the insights endpoint, after [tolist()]) or a [numpy.int64] (the
    loop of [predict_with_ml], over [unique()]). *)
Inductive CategoryParam : Type :=
| PyInt (c : Z)
| NumpyInt64 (c : Z).

(** [cursor.execute(query, [months, similar_users_str, category, months])].
    The driver cannot adapt a [numpy.int64] parameter.  The peer ids
    are joined with commas and bound as one string to [user_id IN (%s)]:
    the database reads that string as an integer for a single peer and
    rejects it for more.  Either failure raises inside the [try]. *)
Definition execute (db : PeerBudgets) (similar_users : list Z)
    (target_category_id : CategoryParam) (historical_months : Z)
    : option (list PeerBudgetRow) :=
  match target_category_id, similar_users with
  | PyInt c, [peer] => db peer c historical_months
  | _, _ => None
  end.

(** The single row the aggregate [SELECT] returns; SQL NULL is [None]. *)
Record Aggregate : Type := mkAggregate {
  r_avg_peer_budget : option Q;
  r_avg_peer_spending : option Q;
  r_avg_variance : option Q;
  r_peer_samples : Z;
  (** square of [STDDEV(planned_cents)] *)
  r_budget_std_sq : option Q;
  r_min_budget : option Z;
  r_max_budget : option Z
}.

(** [SELECT AVG(..), .., COUNT( * ), .. FROM peer_budgets
     WHERE planned_cents > 0] *)
Definition select_aggregate (peer_budgets : list PeerBudgetRow)
    : Aggregate :=
  let rows := filter (fun r => (0 <? planned_cents r)%Z) peer_budgets in
  match rows with
  | [] => mkAggregate None None None 0 None None None
  | _ =>
      let col f := map (fun r => Py.exact (f r)) rows in
      mkAggregate
        (Some (Py.mean (col planned_cents)))
        (Some (Py.mean (col pb_actual_spent)))
        (Some (Py.mean (col budget_variance)))
        (Py.len rows)
        (Py.std_sq (col planned_cents))
        (Some (Py.zmin 0 (map planned_cents rows)))
        (Some (Py.zmax 0 (map planned_cents rows)))
  end.

(** The populated dict the resolver returns. *)
Record PeerData : Type := mkPeerData {
  avg_peer_budget : Q;
  avg_peer_spending : Q;
  avg_variance : Q;
  peer_samples : Z;
  budget_std_sq : Q;
  min_budget : option Z;
  max_budget : option Z;
  peer_count : Z
}.

(** [x or 0] *)
Definition or0 (x : option Q) : Q :=
  match x with
  | Some v => v
  | None => 0
  end.

(** Truth value of [result[0]]: neither NULL nor zero. *)
Definition truthy (x : option Q) : bool :=
  match x with
  | Some v => negb (Qeq_bool v 0)
  | None => false
  end.

(** [None] is the empty dict. *)
Definition get_peer_recommendations (db : PeerBudgets) (user_id : Z)
    (target_category_id : CategoryParam) (user_clusters : UserClusters)
    (historical_months : Z) : option PeerData :=
  match lookup user_id user_clusters with
  | None => None
  | Some info =>
      let similar_users := similarity_peers info in
      match similar_users with
      | [] => None
      | _ =>
          match execute db similar_users target_category_id
                  historical_months with
          | None => None
          | Some peer_budgets =>
              let result := select_aggregate peer_budgets in
              if truthy (r_avg_peer_budget result) then
                Some {| avg_peer_budget := or0 (r_avg_peer_budget result);
                        avg_peer_spending :=
                          or0 (r_avg_peer_spending result);
                        avg_variance := or0 (r_avg_variance result);
                        peer_samples := r_peer_samples result;
                        budget_std_sq := or0 (r_budget_std_sq result);
                        min_budget := r_min_budget result;
                        max_budget := r_max_budget result;
                        peer_count := Py.len similar_users |}
              else None
          end
      end
  end.

End Peer.

(* ------------------------------------------------------------------ *)
(** ** Prediction decision policy *)

Module Policy.

(** The dataclass [MLBudgetPrediction].  The four descriptive fields
    ([feature_importance], [spending_cluster], [seasonal_pattern],
    [reasoning]) are produced by the clustering and text helpers and
    take no part in the decision; they are left out. *)
Record MLBudgetPrediction : Type := mkPrediction {
  p_category_id : Z;
  p_category_name : string;
  predicted_amount_cents : Z;
  confidence_score : Q;
  historical_avg_cents : Z;
  historical_spending_avg_cents : Z;
  trend_direction : string;
  ml_model_used : string
}.

(** A fitted regressor applied to the prediction features of the
    latest row and the target month and year: [None] when [predict]
    raises or returns a non-finite value. *)
Definition Regressor : Type := Features -> Z -> Z -> option Q.

(** The [models] dict: at most the two fitted regressors. *)
Record Models : Type := mkModels {
  linear : option Regressor;
  forest : option Regressor
}.

Definition no_models : Models := mkModels None None.

(** [build_ml_models]: nothing below five feature rows; otherwise
    whatever fitting (the parameter [fit]) produced. *)
Definition build_ml_models (fit : list Features -> Models)
    (features_df : list Features) : Models :=
  if (Py.len features_df <? 5)%Z then no_models else fit features_df.

(** Values of [predictions_dict], in dict order: the outputs that are
    finite and non-negative. *)
Definition predictions_of (models : Models) (latest_data : Features)
    (target_month target_year : Z) : list Q :=
  let run (m : option Regressor) : list Q :=
    match m with
    | None => []
    | Some model =>
        match model latest_data target_month target_year with
        | Some pred => if Qle_bool 0 pred then [pred] else []
        | None => []
        end
    end in
  run (linear models) ++ run (forest models).

(** [np.std] of the values of [predictions_dict], which holds at most
    two entries. *)
Definition np_std (values : list Q) : Q :=
  match values with
  | [a; b] => Py.np_std2 a b
  | _ => 0
  end.

Definition _classify_trend (trend_slope : Q) : string :=
  if Py.Qltb 100 trend_slope then "increasing"%string
  else if Py.Qltb trend_slope (-100) then "decreasing"%string
  else "stable"%string.

Definition _statistical_fallback_prediction (category_data : list Features)
    (target_month : Z) : Q :=
  match category_data with
  | [] => 0
  | _ => Py.mean (map target_amount category_data)
  end.

(** The three per-category variables the branches assign; [None] is
    Python's [None]. *)
Record Vars : Type := mkVars {
  predicted_amount : option Q;
  model_used : option string;
  confidence : option Q
}.

Definition assign (amount : Q) (label : string) (conf : Q) : Vars :=
  mkVars (Some amount) (Some label) (Some conf).

Definition base_confidence_of (data_points : Z) : Q :=
  Py.min 0.9 (0.3 + Py.float data_points * 0.08).

Definition accuracy_factor_of (accuracy : Q) : Q :=
  if Py.Qltb 0.7 accuracy then 1.2
  else if Py.Qltb accuracy 0.3 then 0.8
  else 1.0.

(** [model_agreement] after the ensemble block. *)
Definition model_agreement_of (predictions : list Q) : Q :=
  match predictions with
  | [] => 0.7
  | _ =>
      if (1 <? Py.len predictions)%Z then
        let pred_std := np_std predictions in
        let pred_mean := Py.mean predictions in
        if Py.Qltb 0 pred_mean
        then Py.max 0.3 (1.0 - pred_std / pred_mean)
        else 0.5
      else 0.7
  end.

Definition ml_predicted_amount_of (historical_avg : Q)
    (predictions : list Q) : Q :=
  match predictions with
  | [] => historical_avg
  | _ => Py.mean predictions
  end.

Definition ml_change_of (historical_avg : Q) (predictions : list Q) : Q :=
  match predictions with
  | [] => 0
  | _ => Qabs (ml_predicted_amount_of historical_avg predictions
               - historical_avg)
  end.

Definition nonempty {A} (l : list A) : bool :=
  match l with
  | [] => false
  | _ => true
  end.

(** The peer branch (fourth arm of the chain), on rationals; the
    averages of [peer_data] are the database's numerics.  The loop of
    [predict_with_ml] always enters it with an empty [peer_data] (see
    [Peer.execute]). *)
Definition peer_branch (historical_avg : Q) (peer_data : option Peer.PeerData)
    : Vars :=
  match peer_data with
  | Some pd =>
      if (3 <=? Peer.peer_samples pd)%Z then
        let peer_budget := Peer.avg_peer_budget pd in
        let samples := Py.float (Peer.peer_samples pd) in
        let peer_confidence := Py.min 0.8 (0.4 + samples * 0.05) in
        if Py.Qltb 0 historical_avg then
          let peer_weight := Py.min 0.6 (samples / 10) in
          assign (historical_avg * (1 - peer_weight)
                  + peer_budget * peer_weight)
                 ("Peer-Informed Prediction ("
                  ++ Py.str (Peer.peer_count pd) ++ " similar users)")
                 peer_confidence
        else
          assign peer_budget
                 ("Peer-Based Recommendation ("
                  ++ Py.str (Peer.peer_count pd) ++ " similar users)")
                 peer_confidence
      else mkVars None None None
  | None => mkVars None None None
  end.

(** The peer arm's guard [peer_data and peer_samples >= 3] fails. *)
Definition insufficient (peer_data : option Peer.PeerData) : Prop :=
  match peer_data with
  | None => True
  | Some pd => (Peer.peer_samples pd < 3)%Z
  end.

(** The [if]/[elif] chain of [predict_with_ml] for one category.
    [peer_data] is only consulted in the peer arm. *)
Definition branch_chain (category_data : list Features)
    (latest_data : Features) (predictions : list Q)
    (in_cluster : bool) (peer_data : option Peer.PeerData)
    (target_month : Z) : Py.outcome Vars :=
  let budget_historical_avg := historical_mean latest_data in
  let spending_historical_avg := historical_spent_mean latest_data in
  let historical_avg := budget_historical_avg in
  let ml_predicted_amount :=
    ml_predicted_amount_of historical_avg predictions in
  let model_agreement := model_agreement_of predictions in
  let max_reasonable_change := historical_avg * 0.5 in
  let ml_change := ml_change_of historical_avg predictions in
  let data_points := Py.len category_data in
  let accuracy := budget_accuracy latest_data in
  let base_confidence := base_confidence_of data_points in
  let accuracy_factor := accuracy_factor_of accuracy in
  if (data_points <? 3)%Z then
    Py.Ok (assign historical_avg
             ("Historical Average (only " ++ Py.str data_points
              ++ " data points)")
             (base_confidence * 0.6))
  else if Py.Qltb accuracy 0.2 then
    Py.Ok (assign historical_avg
             "Historical Average (very low accuracy)"
             (base_confidence * accuracy_factor * 0.7))
  else
    accurate <-
      (if nonempty predictions && Py.Qltb 0 spending_historical_avg then
         ratio <- Py.div spending_historical_avg budget_historical_avg ;;
         Py.Ok (Py.Qltb (Qabs (ratio - 1.0)) 0.02)
       else Py.Ok false) ;;
    if accurate : bool then
      Py.Ok (assign
               (Py.max budget_historical_avg
                       (spending_historical_avg * 1.02))
               "Accurate Budgeter (spending  budget)"
               (base_confidence * accuracy_factor * model_agreement * 0.92))
    else if (data_points <? 5)%Z && in_cluster then
      Py.Ok (peer_branch historical_avg peer_data)
    else if nonempty predictions && Qeq_bool accuracy 0.5 then
      if Py.Qltb max_reasonable_change ml_change then
        Py.Ok (assign (historical_avg * 0.9 + ml_predicted_amount * 0.1)
                 "Conservative Historical (ML too extreme, neutral accuracy)"
                 (base_confidence * model_agreement * 0.7))
      else
        Py.Ok (assign (historical_avg * 0.8 + ml_predicted_amount * 0.2)
                 "Conservative Ensemble (neutral accuracy)"
                 (base_confidence * model_agreement * 0.85))
    else if nonempty predictions && Py.Qltb 0.5 accuracy then
      let conf := base_confidence * accuracy_factor * model_agreement
                  * 0.85 in
      if Py.Qltb 0 spending_historical_avg
         && Py.Qltb (budget_historical_avg * 1.05) spending_historical_avg
      then
        let suggested_base :=
          Py.max budget_historical_avg (spending_historical_avg * 0.95) in
        Py.Ok (assign (suggested_base * 0.7 + ml_predicted_amount * 0.3)
                 "Spending-Informed Ensemble (spending > budget)" conf)
      else if Py.Qltb max_reasonable_change ml_change then
        Py.Ok (assign (historical_avg * 0.95 + ml_predicted_amount * 0.05)
                 "Conservative Historical (ML too extreme)" conf)
      else
        Py.Ok (assign (historical_avg * 0.6 + ml_predicted_amount * 0.4)
                 "Confident Ensemble (good accuracy)" conf)
    else if nonempty predictions
            && Py.Qltb ml_change (historical_avg * 0.02) then
      Py.Ok (assign historical_avg
               "Historical Average (stable pattern)"
               (base_confidence * accuracy_factor * model_agreement * 0.95))
    else if nonempty predictions then
      let conf := base_confidence * accuracy_factor * model_agreement
                  * 0.9 in
      if Py.Qltb 0 spending_historical_avg then
        spending_vs_budget_ratio <-
          Py.div spending_historical_avg budget_historical_avg ;;
        if Py.Qltb 1.05 spending_vs_budget_ratio then
          Py.Ok (assign
                   (Py.min ml_predicted_amount
                           (spending_historical_avg * 1.1))
                   "Spending-Aware Ensemble (tend to overspend)" conf)
        else if Py.Qltb spending_vs_budget_ratio 0.95 then
          Py.Ok (assign
                   (budget_historical_avg * 0.7 + ml_predicted_amount * 0.3)
                   "Conservative Ensemble (good at budgeting)" conf)
        else
          Py.Ok (assign
                   (spending_historical_avg * 0.8
                    + ml_predicted_amount * 0.2)
                   "Balanced Ensemble (reasonable budgeter)" conf)
      else
        Py.Ok (assign
                 (budget_historical_avg * 0.85 + ml_predicted_amount * 0.15)
                 "Conservative Ensemble (no spending history)" conf)
    else
      Py.Ok (assign
               (_statistical_fallback_prediction category_data target_month)
               "Historical Average"
               (base_confidence * 0.7)).

(** The safety check after the chain. *)
Definition safety_check (historical_avg base_confidence : Q) (v : Vars)
    : Vars :=
  match predicted_amount v, model_used v with
  | Some _, Some _ => v
  | _, _ => assign historical_avg "Fallback Historical Average"
                   (base_confidence * 0.6)
  end.

(** [confidence = max(0.1, min(0.95, confidence))] *)
Definition clamp (c : Q) : Q := Py.max 0.1 (Py.min 0.95 c).

(** The decision for one category: amount, label and final confidence. *)
Record Decision : Type := mkDecision {
  d_amount : Q;
  d_label : string;
  d_confidence : Q
}.

Definition decide (category_data : list Features)
    (latest_data : Features) (predictions : list Q)
    (in_cluster : bool) (peer_data : option Peer.PeerData)
    (target_month : Z) : Py.outcome Decision :=
  v <- branch_chain category_data latest_data predictions in_cluster
         peer_data target_month ;;
  let v' := safety_check (historical_mean latest_data)
              (base_confidence_of (Py.len category_data)) v in
  match predicted_amount v', model_used v', confidence v' with
  | Some a, Some l, Some c => Py.Ok (mkDecision a l (clamp c))
  | _, _, _ => Py.Raised Py.TypeError
  end.

(** What the request handler obtains from its collaborators: the three
    fetched frames, model fitting, the user clusters and the peer
    budget rows. *)
Record World : Type := mkWorld {
  budgets_df : list BudgetRow;
  spending_df : list SpendingRow;
  accounts_df : list AccountRow;
  fit : list Features -> Models;
  user_clusters : Peer.UserClusters;
  peer_db : Peer.PeerBudgets
}.

(** Body of the loop over categories. *)
Definition predict_category (w : World) (models : Models)
    (features_df : list Features)
    (user_id target_month target_year : Z) (c : Z)
    : Py.outcome MLBudgetPrediction :=
  let category_data :=
    filter (fun f => (category_id f =? c)%Z) features_df in
  match rev category_data with
  | [] => Py.Raised Py.IndexError
  | latest_data :: _ =>
      let predictions :=
        predictions_of models latest_data target_month target_year in
      let in_cluster := Peer.member user_id (user_clusters w) in
      let peer_data :=
        Peer.get_peer_recommendations (peer_db w) user_id
          (Peer.NumpyInt64 c) (user_clusters w) 6 in
      d <- decide category_data latest_data predictions in_cluster
             peer_data target_month ;;
      Py.Ok {| p_category_id := c;
               p_category_name := category_name latest_data;
               predicted_amount_cents := Py.int (d_amount d);
               confidence_score := d_confidence d;
               historical_avg_cents :=
                 Py.int (historical_mean latest_data);
               historical_spending_avg_cents :=
                 Py.int (historical_spent_mean latest_data);
               trend_direction :=
                 _classify_trend (historical_trend latest_data);
               ml_model_used := d_label d |}
  end.

Fixpoint predict_loop (step : Z -> Py.outcome MLBudgetPrediction)
    (category_ids : list Z) : Py.outcome (list MLBudgetPrediction) :=
  match category_ids with
  | [] => Py.Ok []
  | c :: rest =>
      p <- step c ;;
      ps <- predict_loop step rest ;;
      Py.Ok (p :: ps)
  end.

(** [predictions.sort(key=confidence_score, reverse=True)]: stable,
    descending. *)
Fixpoint insert_desc (p : MLBudgetPrediction)
    (l : list MLBudgetPrediction) : list MLBudgetPrediction :=
  match l with
  | [] => [p]
  | q :: r =>
      if Qle_bool (confidence_score q) (confidence_score p)
      then p :: q :: r
      else q :: insert_desc p r
  end.

Definition sort_by_confidence (l : list MLBudgetPrediction)
    : list MLBudgetPrediction :=
  fold_right insert_desc [] l.

(** The loop of [predict_with_ml] before the outer [except]. *)
Definition predict_all (w : World) (user_id target_month target_year : Z)
    : Py.outcome (list MLBudgetPrediction) :=
  features_df <-
    FeatureEngineer.engineer_features (budgets_df w) (spending_df w)
      (accounts_df w) ;;
  let models := build_ml_models (fit w) features_df in
  predict_loop
    (predict_category w models features_df user_id target_month target_year)
    (Py.unique (map category_id features_df)).

(** [predict_with_ml]: any exception inside the [try] is logged and
    the empty list is returned. *)
Definition predict_with_ml (w : World) (user_id target_month target_year : Z)
    : list MLBudgetPrediction :=
  match predict_all w user_id target_month target_year with
  | Py.Ok predictions => sort_by_confidence predictions
  | Py.Raised _ => []
  end.

End Policy.

(* ------------------------------------------------------------------ *)
(** ** Concrete request snapshots used by the examples below *)

Module Snapshots.

Import Policy.

Definition budget (c : Z) (name : string) (start end_ planned_ : Z)
    : BudgetRow :=
  mkBudgetRow c name start end_ planned_ 1 1 2025.

(** A fitting stage whose only model always answers 12000 cents. *)
Definition fit_linear_12000 (_ : list Features) : Models :=
  mkModels (Some (fun _ _ _ => Some 12000)) None.

(** User 1 is clustered with peers 2 and 3. *)
Definition clusters_user1 : Peer.UserClusters :=
  [(1%Z, Peer.mkClusterInfo 0 [2%Z; 3%Z])].

(** User 1 is clustered with the single peer 2. *)
Definition clusters_single_peer : Peer.UserClusters :=
  [(1%Z, Peer.mkClusterInfo 0 [2%Z])].

(** No peer has a budget for any category. *)
Definition no_peer_rows : Peer.PeerBudgets := fun _ _ _ => Some [].

(** Category 7 has three periods planned at 10000 cents; category 8
    has two periods. *)
Definition rent_and_food : list BudgetRow :=
  [ budget 7 "Rent" 0 29 10000;
    budget 7 "Rent" 30 59 10000;
    budget 7 "Rent" 60 89 10000;
    budget 8 "Food" 0 29 4000;
    budget 8 "Food" 30 59 6000 ].

(** One purchase in category 8, inside its first period. *)
Definition one_food_purchase : list SpendingRow :=
  [ mkSpendingRow 8 3500 10 ].

Definition world_peer_gap : World :=
  mkWorld rent_and_food one_food_purchase [] fit_linear_12000 clusters_user1
          no_peer_rows.

(** The same snapshot for a user that belongs to no cluster. *)
Definition world_unclustered : World :=
  mkWorld rent_and_food one_food_purchase [] fit_linear_12000 []
          no_peer_rows.

(** Category 7: four periods planned at 10000 cents; 9980 cents were
    spent in each of the first three and 10000 in the last. *)
Definition accurate_budgets : list BudgetRow :=
  [ budget 7 "Rent" 0 29 10000;
    budget 7 "Rent" 30 59 10000;
    budget 7 "Rent" 60 89 10000;
    budget 7 "Rent" 90 119 10000;
    budget 8 "Food" 0 29 4000 ].

Definition accurate_spending : list SpendingRow :=
  [ mkSpendingRow 7 9980 10;
    mkSpendingRow 7 9980 40;
    mkSpendingRow 7 9980 70;
    mkSpendingRow 7 10000 100 ].

Definition world_accurate : World :=
  mkWorld accurate_budgets accurate_spending [] fit_linear_12000 []
          no_peer_rows.



(** Category 9 was planned at zero in its first two periods although
    money was spent in them; category 8 is unremarkable. *)
Definition zero_plan_budgets : list BudgetRow :=
  [ budget 8 "Food" 0 29 4000;
    budget 8 "Food" 30 59 6000;
    budget 9 "Gifts" 0 29 0;
    budget 9 "Gifts" 30 59 0;
    budget 9 "Gifts" 60 89 5000 ].

Definition zero_plan_spending : list SpendingRow :=
  [ mkSpendingRow 9 2500 10;
    mkSpendingRow 9 2500 40 ].

Definition world_zero_plan : World :=
  mkWorld zero_plan_budgets zero_plan_spending [] fit_linear_12000 []
          no_peer_rows.




(** Two runs over category 7 that agree on everything dated before
    day 30 and differ in the period starting that day and afterwards. *)
Definition lookback_budgets_a : list BudgetRow :=
  [ budget 7 "Rent" 0 29 10000;
    budget 7 "Rent" 30 59 12000;
    budget 7 "Rent" 60 89 9000 ].

Definition lookback_budgets_b : list BudgetRow :=
  [ budget 7 "Rent" 0 29 10000;
    budget 7 "Rent" 30 59 15000;
    budget 7 "Rent" 60 89 5000 ].

Definition lookback_spending_a : list SpendingRow :=
  [ mkSpendingRow 7 4000 10;
    mkSpendingRow 7 100 40 ].

Definition lookback_spending_b : list SpendingRow :=
  [ mkSpendingRow 7 4000 10;
    mkSpendingRow 7 7777 45;
    mkSpendingRow 7 55 70 ].

(** One category with a single period, planned at 2^53 + 1 cents. *)
Definition world_large_plan : World :=
  mkWorld [ budget 5 "Loan" 0 29 9007199254740993 ] [] []
          fit_linear_12000 [] no_peer_rows.

(** The feature vector of a budget row within a run. *)
Definition vector_of (b : list BudgetRow) (s : list SpendingRow)
    (r : BudgetRow) : Features :=
  FeatureEngineer.feature_row
    (Py.sort_values b_period_start
       (FeatureEngineer.of_category b_category_id (b_category_id r) b))
    (FeatureEngineer.of_category s_category_id (b_category_id r) s)
    [] r.

End Snapshots.

(* ------------------------------------------------------------------ *)
(** ** Python dicts with their insertion order *)

Module Dict.

(** A dict as the list of its items, in insertion order. *)
Definition t (V : Type) : Type := list (Z * V).

(** [d.get(k)] *)
Fixpoint get {V} (k : Z) (d : t V) : option V :=
  match d with
  | [] => None
  | (k', v) :: r => if (k' =? k)%Z then Some v else get k r
  end.

(** [d[k] = v]: an existing key keeps its place and takes the new
    value, a new key goes last. *)
Fixpoint set {V} (k : Z) (v : V) (d : t V) : t V :=
  match d with
  | [] => [(k, v)]
  | (k', v') :: r =>
      if (k' =? k)%Z then (k', v) :: r else (k', v') :: set k v r
  end.

Definition keys {V} (d : t V) : list Z := map fst d.

End Dict.

(* ------------------------------------------------------------------ *)
(** ** Category behaviour clusters *)

Module Behavior.

(** Min-max scaling followed by [KMeans(n_clusters).fit_predict] on the
    four behaviour columns of the feature frame: one cluster index per
    row, or [None] when scaling or fitting raises. *)
Definition KMeans : Type := Z -> list Features -> option (list Z).

(** [cluster_mapping.get(cluster_id, "Balanced")] *)
Definition cluster_mapping (cluster_id : Z) : string :=
  if (cluster_id =? 0)%Z then "Conservative"
  else if (cluster_id =? 1)%Z then "Balanced"
  else if (cluster_id =? 2)%Z then "Volatile"
  else "Balanced".

(** [clusters[idx] if idx < len(clusters) else 0] *)
Definition cluster_at (clusters : list Z) (idx : nat) : Z :=
  nth idx clusters 0%Z.

(** The loop over [features_df.iterrows()], from row index [idx] on. *)
Fixpoint assign_rows (clusters : list Z) (idx : nat) (rows : list Features)
    (category_clusters : Dict.t string) : Dict.t string :=
  match rows with
  | [] => category_clusters
  | row :: rest =>
      assign_rows clusters (S idx) rest
        (Dict.set (category_id row)
           (cluster_mapping (cluster_at clusters idx)) category_clusters)
  end.

Definition classify_spending_behavior (kmeans : KMeans)
    (features_df : list Features) : Dict.t string :=
  if (Py.len features_df <? 3)%Z then []
  else
    match kmeans (Z.min 3 (Py.len features_df)) features_df with
    | None => []
    | Some clusters => assign_rows clusters 0 features_df []
    end.

End Behavior.

(* ------------------------------------------------------------------ *)
(** ** Seasonal patterns *)

Module Seasonal.

(** [scipy.signal.find_peaks(x, height=h)[0]]: the zero-based indices
    of the peaks of [x] that reach [h]. *)
Definition FindPeaks : Type := list Q -> Q -> list Z.

(** [category_data.groupby('month')['target_amount'].mean()]: one mean
    per month present, by ascending month. *)
Definition monthly_amounts (category_data : list Features) : Dict.t Q :=
  map (fun m =>
         (m, Py.mean (map target_amount
                        (filter (fun f => (month f =? m)%Z) category_data))))
      (Py.sort_values (fun m => m) (Py.unique (map month category_data))).

(** [monthly_amounts.reindex(range(1, 13), fill_value=fill).values] *)
Definition reindex (monthly : Dict.t Q) (fill : Q) : list Q :=
  map (fun m => match Dict.get m monthly with
                | Some v => v
                | None => fill
                end)
      (map Z.of_nat (seq 1 12)).

(** [cv > 0.3] for [cv = std / mean if mean > 0 else 0], on the square
    of the deviation: with a positive mean, std / mean > 0.3 exactly
    when std^2 > 0.09 * mean^2. *)
Definition cv_above_threshold (values : list Q) : bool :=
  let m := Py.mean values in
  Py.Qltb 0 m
  && match Py.std_sq values with
     | Some v => Py.Qltb (0.09 * m * m) v
     | None => false
     end.

Definition is_in (months : list Z) (m : Z) : bool :=
  existsb (fun x => (x =? m)%Z) months.

(** The label of one category. *)
Definition pattern_of (find_peaks : FindPeaks) (category_data : list Features)
    : string :=
  if (Py.len category_data <? 4)%Z then "Insufficient data"
  else
    let monthly := monthly_amounts category_data in
    if (3 <=? Py.len monthly)%Z then
      let values := map snd monthly in
      if cv_above_threshold values then
        let peaks := find_peaks (reindex monthly (Py.mean values))
                       (Py.mean values) in
        match peaks with
        | [] => "Stable"
        | _ =>
            let peak_months := map (fun i => (i + 1)%Z) peaks in
            if existsb (is_in [11; 12; 1]%Z) peak_months
            then "Holiday seasonal"
            else if existsb (is_in [6; 7; 8]%Z) peak_months
            then "Summer seasonal"
            else "Irregular seasonal"
        end
      else "Stable"
    else "Limited data".

Definition detect_seasonal_patterns (find_peaks : FindPeaks)
    (features_df : list Features) : Dict.t string :=
  map (fun c =>
         (c, pattern_of find_peaks
               (filter (fun f => (category_id f =? c)%Z) features_df)))
      (Py.unique (map category_id features_df)).

End Seasonal.

(* ------------------------------------------------------------------ *)
(** ** User clustering *)

Module UserClusterer.

(** One row of [user_features], the per-user frame after the group-by
    aggregation and [fillna(0)]; the index is the user id.  Only the
    columns read after the aggregation are kept. *)
Record UserFeatures : Type := mkUserFeatures {
  user_id : Z;
  spending_volatility : Q;
  avg_budget : Q;
  account_age_months : Q;
  unique_categories : Q;
  total_expenses : Q;
  total_income : Q;
  active_months : Q
}.

Definition expense_to_income_ratio (u : UserFeatures) : Q :=
  if Py.Qltb 0 (total_income u) then total_expenses u / total_income u
  else 1.0.

Definition avg_monthly_spending (u : UserFeatures) : Q :=
  if Py.Qltb 0 (active_months u) then total_expenses u / active_months u
  else 0.

Definition budget_adherence (u : UserFeatures) : Q :=
  if Py.Qltb 0 (avg_budget u)
  then 1 - Qabs (total_expenses u - avg_budget u) / avg_budget u
  else 0.5.

(** The six [clustering_features] of a user, in column order. *)
Definition feature_data (u : UserFeatures) : list Q :=
  [ avg_monthly_spending u; expense_to_income_ratio u; budget_adherence u;
    spending_volatility u; unique_categories u; account_age_months u ].

(** Standard scaling followed by [KMeans(n_clusters).fit_predict]: one
    cluster index per user, or [None] when scaling or fitting raises. *)
Definition KMeans : Type := Z -> list (list Q) -> option (list Z).

(** [min(n_clusters, max(2, n_users // 2))] *)
Definition effective_clusters (n_clusters n_users : Z) : Z :=
  Z.min n_clusters (Z.max 2 (n_users / 2)).

(** [clusters[cluster_id]['user_ids']]: the users given that index. *)
Definition user_ids_of (labelled : list (Z * Z)) (cluster : Z) : list Z :=
  map fst (filter (fun ul => (snd ul =? cluster)%Z) labelled).

(** [[uid for uid in user_ids if uid != user_id][:10]] *)
Definition similarity_peers (labelled : list (Z * Z)) (user cluster : Z)
    : list Z :=
  firstn 10 (filter (fun uid => negb (uid =? user)%Z)
                    (user_ids_of labelled cluster)).

(** [cluster_users]; the empty list is the empty dict.  Assigning a
    label column of the wrong length, or looking up a cluster index
    outside [range(effective_clusters)], raises inside the [try] and
    gives the empty dict as well. *)
Definition cluster_users (kmeans : KMeans) (user_features : list UserFeatures)
    (n_clusters : Z) : Peer.UserClusters :=
  let n_users := Py.len user_features in
  if (n_users <? 2)%Z then []
  else
    let k := effective_clusters n_clusters n_users in
    match kmeans k (map feature_data user_features) with
    | None => []
    | Some labels =>
        if negb (length labels =? length user_features)%nat then []
        else
          let labelled := combine (map user_id user_features) labels in
          if forallb (fun ul => (0 <=? snd ul)%Z && (snd ul <? k)%Z) labelled
          then
            map (fun ul =>
                   (fst ul,
                    Peer.mkClusterInfo (snd ul)
                      (similarity_peers labelled (fst ul) (snd ul))))
                labelled
          else []
    end.

End UserClusterer.

(* ------------------------------------------------------------------ *)
(** * Properties *)

(** ** Comparisons and clamping *)

Lemma Qltb_true (x y : Q) : Py.Qltb x y = true <-> x < y.
Proof.
  unfold Py.Qltb. rewrite negb_true_iff.
  destruct (Qle_bool y x) eqn:E.
  - apply Qle_bool_iff in E. split; [discriminate | intro H; exfalso; lra].
  - split; [intros _ | reflexivity].
    apply Qnot_le_lt. intro H. apply Qle_bool_iff in H. congruence.
Qed.

Lemma Qltb_false (x y : Q) : Py.Qltb x y = false <-> y <= x.
Proof.
  unfold Py.Qltb. rewrite negb_false_iff. apply Qle_bool_iff.
Qed.

Ltac qcases :=
  repeat match goal with
  | |- context [Py.Qltb ?a ?b] =>
      let E := fresh "E" in
      destruct (Py.Qltb a b) eqn:E;
      [apply Qltb_true in E | apply Qltb_false in E]
  end.

Lemma max_spec (a b : Q) :
  (a < b /\ Py.max a b = b) \/ (b <= a /\ Py.max a b = a).
Proof. unfold Py.max. qcases; auto. Qed.

Lemma min_spec (a b : Q) :
  (b < a /\ Py.min a b = b) \/ (a <= b /\ Py.min a b = a).
Proof. unfold Py.min. qcases; auto. Qed.

Lemma clamp_bounds (c : Q) : 0.1 <= Policy.clamp c <= 0.95.
Proof.
  unfold Policy.clamp.
  destruct (min_spec 0.95 c) as [[H1 ->] | [H1 ->]];
    [destruct (max_spec 0.1 c) as [[H2 ->] | [H2 ->]]
    | destruct (max_spec 0.1 0.95) as [[H2 ->] | [H2 ->]]]; lra.
Qed.

Lemma clamp_id (c : Q) : 0.1 <= c <= 0.95 -> Policy.clamp c == c.
Proof.
  intros [Hl Hu]. unfold Policy.clamp.
  destruct (min_spec 0.95 c) as [[H1 ->] | [H1 ->]].
  - destruct (max_spec 0.1 c) as [[H2 ->] | [H2 ->]]; lra.
  - destruct (max_spec 0.1 0.95) as [[H2 ->] | [H2 ->]]; lra.
Qed.

(** ** Conversion of integers to doubles *)

Lemma grid_pos (a : Z) : (0 < Py.grid a)%Z.
Proof. unfold Py.grid. apply Z.pow_pos_nonneg; lia. Qed.

Lemma nearest_even_bounds (g a : Z) :
  (0 < g)%Z ->
  (a / g * g <= Py.nearest_even g a <= (a / g + 1) * g)%Z.
Proof.
  intros Hg. unfold Py.nearest_even.
  destruct (2 * (a mod g) <? g)%Z; [lia |].
  destruct (g <? 2 * (a mod g))%Z; [lia |].
  destruct (Z.even (a / g)); lia.
Qed.

Lemma nearest_even_multiple (g a : Z) :
  (0 < g)%Z -> (a mod g = 0)%Z -> Py.nearest_even g a = a.
Proof.
  intros Hg Hr. unfold Py.nearest_even. rewrite Hr.
  replace (2 * 0 <? g)%Z with true by (symmetry; apply Z.ltb_lt; lia).
  pose proof (Z.div_mod a g). lia.
Qed.

Lemma nearest_even_mono (g a b : Z) :
  (0 < g)%Z -> (a <= b)%Z ->
  (Py.nearest_even g a <= Py.nearest_even g b)%Z.
Proof.
  intros Hg Hab.
  assert (Hq : (a / g <= b / g)%Z) by (apply Z.div_le_mono; lia).
  destruct (Z.eq_dec (a / g) (b / g)) as [E | N].
  - assert (Hr : (a mod g <= b mod g)%Z).
    { pose proof (Z.div_mod a g). pose proof (Z.div_mod b g). nia. }
    unfold Py.nearest_even. rewrite E.
    destruct (2 * (a mod g) <? g)%Z eqn:A1;
      destruct (2 * (b mod g) <? g)%Z eqn:B1;
      destruct (g <? 2 * (a mod g))%Z eqn:A2;
      destruct (g <? 2 * (b mod g))%Z eqn:B2;
      destruct (Z.even (b / g)); lia.
  - pose proof (nearest_even_bounds g a Hg).
    pose proof (nearest_even_bounds g b Hg). nia.
Qed.

Lemma grid_small (a : Z) : (0 <= a < 2 ^ 53)%Z -> Py.grid a = 1%Z.
Proof.
  intros [H0 H1]. unfold Py.grid.
  assert (Z.log2 a <= 52)%Z.
  { destruct (Z.eq_dec a 0) as [-> | N]; [simpl; lia |].
    assert (Z.log2 a < 53)%Z by (apply Z.log2_lt_pow2; lia). lia. }
  now rewrite Z.max_l by lia.
Qed.

Lemma to_double_exact (z : Z) :
  (Z.abs z <= 2 ^ 53)%Z -> Py.to_double z = z.
Proof.
  intros H. unfold Py.to_double.
  assert (E : Py.nearest_even (Py.grid (Z.abs z)) (Z.abs z) = Z.abs z).
  { apply nearest_even_multiple; [apply grid_pos |].
    destruct (Z.eq_dec (Z.abs z) (2 ^ 53)) as [-> | N].
    - reflexivity.
    - rewrite grid_small by lia. apply Z.mod_1_r. }
  rewrite E. lia.
Qed.

Lemma to_double_opp (z : Z) : Py.to_double (- z) = (- Py.to_double z)%Z.
Proof. unfold Py.to_double. rewrite Z.sgn_opp, Z.abs_opp. lia. Qed.

Lemma to_double_of_nonneg (z : Z) :
  (0 <= z)%Z -> Py.to_double z = Py.nearest_even (Py.grid z) z.
Proof.
  intros H. unfold Py.to_double. rewrite Z.abs_eq by lia.
  destruct (Z.eq_dec z 0) as [-> | N]; [reflexivity |].
  rewrite Z.sgn_pos by lia. lia.
Qed.

Lemma grid_le (a : Z) : (0 < a)%Z -> (Py.grid a <= a)%Z.
Proof.
  intros H. unfold Py.grid.
  pose proof (Z.log2_nonneg a).
  apply Z.le_trans with (2 ^ Z.log2 a)%Z.
  - apply Z.pow_le_mono_r; lia.
  - now apply Z.log2_spec.
Qed.

Lemma to_double_nonneg (z : Z) : (0 <= z)%Z -> (0 <= Py.to_double z)%Z.
Proof.
  intros H. rewrite to_double_of_nonneg by assumption.
  pose proof (grid_pos z) as Hg.
  pose proof (nearest_even_bounds (Py.grid z) z Hg).
  assert (0 <= z / Py.grid z)%Z by (apply Z.div_pos; lia). nia.
Qed.

Lemma to_double_pos (z : Z) : (0 < z)%Z -> (0 < Py.to_double z)%Z.
Proof.
  intros H. rewrite to_double_of_nonneg by lia.
  pose proof (grid_pos z) as Hg. pose proof (grid_le z H) as Hl.
  pose proof (nearest_even_bounds (Py.grid z) z Hg).
  assert (1 <= z / Py.grid z)%Z
    by (apply Z.div_le_lower_bound; lia). nia.
Qed.

(** Both neighbours of [a] among the doubles lie between the powers of
    two that enclose [a]. *)
Lemma to_double_between (a : Z) :
  (0 < a)%Z ->
  (2 ^ Z.log2 a <= Py.to_double a <= 2 ^ (Z.log2 a + 1))%Z.
Proof.
  intros H. rewrite to_double_of_nonneg by lia.
  pose proof (Z.log2_nonneg a) as Hl.
  destruct (Z.log2_spec a H) as [Hlo Hhi].
  rewrite <- Z.add_1_r in Hhi.
  set (e := Z.max 0 (Z.log2 a - 52)).
  assert (He : (0 <= e <= Z.log2 a)%Z) by (unfold e; lia).
  assert (Hg : Py.grid a = (2 ^ e)%Z) by reflexivity.
  assert (Hgp : (0 < 2 ^ e)%Z) by (apply Z.pow_pos_nonneg; lia).
  assert (E1 : (2 ^ Z.log2 a = 2 ^ (Z.log2 a - e) * 2 ^ e)%Z).
  { rewrite <- Z.pow_add_r by lia. f_equal. lia. }
  assert (E2 : (2 ^ (Z.log2 a + 1) = 2 ^ (Z.log2 a + 1 - e) * 2 ^ e)%Z).
  { rewrite <- Z.pow_add_r by lia. f_equal. lia. }
  pose proof (nearest_even_bounds (2 ^ e) a Hgp) as [Hb1 Hb2].
  rewrite Hg. split.
  - apply Z.le_trans with (a / 2 ^ e * 2 ^ e)%Z; [| exact Hb1].
    rewrite E1. apply Z.mul_le_mono_nonneg_r; [lia |].
    apply Z.div_le_lower_bound; lia.
  - apply Z.le_trans with ((a / 2 ^ e + 1) * 2 ^ e)%Z; [exact Hb2 |].
    rewrite E2. apply Z.mul_le_mono_nonneg_r; [lia |].
    assert (a / 2 ^ e < 2 ^ (Z.log2 a + 1 - e))%Z
      by (apply Z.div_lt_upper_bound; lia).
    lia.
Qed.

Lemma to_double_mono_nonneg (a b : Z) :
  (0 <= a <= b)%Z -> (Py.to_double a <= Py.to_double b)%Z.
Proof.
  intros [Ha Hab].
  destruct (Z.eq_dec a 0) as [-> | Na].
  - rewrite (to_double_exact 0) by (simpl; lia).
    apply to_double_nonneg; lia.
  - assert (Hl : (Z.log2 a <= Z.log2 b)%Z) by (apply Z.log2_le_mono; lia).
    destruct (Z.eq_dec (Z.max 0 (Z.log2 a - 52)) (Z.max 0 (Z.log2 b - 52)))
      as [E | N].
    + rewrite !to_double_of_nonneg by lia.
      unfold Py.grid. rewrite E.
      apply nearest_even_mono; [apply Z.pow_pos_nonneg; lia | lia].
    + assert (Z.log2 a + 1 <= Z.log2 b)%Z by lia.
      pose proof (to_double_between a ltac:(lia)) as [_ H1].
      pose proof (to_double_between b ltac:(lia)) as [H2 _].
      assert (2 ^ (Z.log2 a + 1) <= 2 ^ Z.log2 b)%Z
        by (apply Z.pow_le_mono_r; lia).
      lia.
Qed.

Lemma to_double_mono (a b : Z) :
  (a <= b)%Z -> (Py.to_double a <= Py.to_double b)%Z.
Proof.
  intros H.
  destruct (Z.le_gt_cases 0 a) as [Ha | Ha].
  - apply to_double_mono_nonneg; lia.
  - destruct (Z.le_gt_cases 0 b) as [Hb | Hb].
    + pose proof (to_double_nonneg b Hb).
      pose proof (to_double_pos (- a) ltac:(lia)) as Hp.
      rewrite to_double_opp in Hp. lia.
    + pose proof (to_double_mono_nonneg (- b) (- a) ltac:(lia)) as Hm.
      rewrite !to_double_opp in Hm. lia.
Qed.

Lemma float_exact (z : Z) :
  (Z.abs z <= 2 ^ 53)%Z -> Py.float z = inject_Z z.
Proof. intros H. unfold Py.float. now rewrite to_double_exact. Qed.

Lemma float_mono (a b : Z) : (a <= b)%Z -> Py.float a <= Py.float b.
Proof.
  intros H. unfold Py.float. rewrite <- Zle_Qle. now apply to_double_mono.
Qed.

Lemma float_nonneg (z : Z) : (0 <= z)%Z -> 0 <= Py.float z.
Proof.
  intros H. unfold Py.float. rewrite <- (Zle_Qle 0).
  now apply to_double_nonneg.
Qed.

Lemma float_pos (z : Z) : (0 < z)%Z -> 0 < Py.float z.
Proof.
  intros H. unfold Py.float. rewrite <- (Zlt_Qlt 0).
  now apply to_double_pos.
Qed.

Lemma float_ge (c z : Z) :
  (Z.abs c <= 2 ^ 53)%Z -> (c <= z)%Z -> inject_Z c <= Py.float z.
Proof.
  intros Hc H. rewrite <- (float_exact c Hc). now apply float_mono.
Qed.

Lemma int_inject (z : Z) : Py.int (inject_Z z) = z.
Proof. unfold Py.int. simpl. apply Z.quot_1_r. Qed.

Lemma int_float (z : Z) : Py.int (Py.float z) = Py.to_double z.
Proof. unfold Py.float. apply int_inject. Qed.

(** ** Sums of 64-bit integers *)

Lemma int64_small (z : Z) :
  (- 2 ^ 63 <= z < 2 ^ 63)%Z -> Py.int64 z = z.
Proof.
  intros H. unfold Py.int64. rewrite Z.mod_small; lia.
Qed.

Lemma fold_add_nonneg (l : list Z) :
  Forall (fun z => (0 <= z)%Z) l -> (0 <= fold_right Z.add 0 l)%Z.
Proof. induction 1; simpl; lia. Qed.

Lemma int64_sum_exact (l : list Z) :
  Forall (fun z => (0 <= z)%Z) l ->
  (fold_right Z.add 0 l < 2 ^ 63)%Z ->
  Py.int64_sum l = fold_right Z.add 0%Z l.
Proof.
  intros Hl Hs. unfold Py.int64_sum. apply int64_small.
  pose proof (fold_add_nonneg l Hl). lia.
Qed.

(** ** Frames, sorting and distinct values *)

Lemma insert_by_perm {A} (key : A -> Z) (x : A) l :
  Permutation (x :: l) (Py.insert_by key x l).
Proof.
  induction l as [| y r IH]; simpl.
  - apply Permutation_refl.
  - destruct (key x <=? key y)%Z.
    + apply Permutation_refl.
    + eapply perm_trans; [apply perm_swap | now apply perm_skip].
Qed.

Lemma sort_values_perm {A} (key : A -> Z) l :
  Permutation l (Py.sort_values key l).
Proof.
  induction l as [| x r IH]; simpl.
  - apply perm_nil.
  - eapply perm_trans; [apply perm_skip, IH | apply insert_by_perm].
Qed.

Lemma filter_all {A} (p : A -> bool) l :
  (forall x, In x l -> p x = true) -> filter p l = l.
Proof.
  induction l as [| y r IH]; simpl; intros H; [reflexivity |].
  rewrite (H y (or_introl eq_refl)). f_equal. apply IH. auto.
Qed.

Lemma filter_none {A} (p : A -> bool) l :
  (forall x, In x l -> p x = false) -> filter p l = [].
Proof.
  induction l as [| y r IH]; simpl; intros H; [reflexivity |].
  rewrite (H y (or_introl eq_refl)). apply IH. auto.
Qed.

Lemma unique_in (x : Z) l : In x (Py.unique l) <-> In x l.
Proof.
  induction l as [| y r IH]; simpl; [tauto |].
  rewrite filter_In, IH, negb_true_iff, Z.eqb_neq.
  destruct (Z.eq_dec y x); intuition congruence.
Qed.

Lemma unique_nodup l : NoDup (Py.unique l).
Proof.
  induction l as [| y r IH]; simpl; constructor.
  - rewrite filter_In, Z.eqb_refl. intros [_ H]. discriminate.
  - now apply NoDup_filter.
Qed.

(** ** When feature engineering raises *)

Lemma collect_ok {A B} (f : A -> Py.outcome B) (g : A -> B) l :
  (forall x, In x l -> f x = Py.Ok (g x)) ->
  Py.collect (map f l) = Py.Ok (map g l).
Proof.
  induction l as [| x r IH]; simpl; intros H; [reflexivity |].
  rewrite (H x (or_introl eq_refl)). simpl.
  rewrite IH by auto. reflexivity.
Qed.

Lemma collect_raised {A B} (f : A -> Py.outcome B) e l :
  (exists x, In x l /\ f x = Py.Raised e) ->
  (forall x e', In x l -> f x = Py.Raised e' -> e' = e) ->
  Py.collect (map f l) = Py.Raised e.
Proof.
  induction l as [| y r IH]; simpl; intros (x & Hin & Hx) Hall; [easy |].
  destruct (f y) as [v | e'] eqn:Ey; simpl.
  - destruct Hin as [-> | Hin]; [congruence |].
    rewrite IH; [reflexivity | now exists x |].
    intros z e'' Hz. apply Hall. now right.
  - f_equal. apply (Hall y); auto.
Qed.

Lemma collect_raised_inv {A B} (f : A -> Py.outcome B) e l :
  Py.collect (map f l) = Py.Raised e ->
  exists x, In x l /\ f x = Py.Raised e.
Proof.
  induction l as [| y r IH]; simpl; intros H; [discriminate |].
  destruct (f y) as [v | e'] eqn:Ey; simpl in H.
  - destruct (Py.collect (map f r)) as [vs | e'']; simpl in H;
      [discriminate |].
    injection H as <-. destruct (IH eq_refl) as (x & Hx & Hfx).
    exists x. split; [now right | assumption].
  - injection H as <-. exists y. split; [now left | assumption].
Qed.

Lemma in_category_budgets (b : list BudgetRow) (c : Z) (r : BudgetRow) :
  In r (Py.sort_values b_period_start
          (FeatureEngineer.of_category b_category_id c b))
  <-> In r b /\ b_category_id r = c.
Proof.
  split.
  - intros H.
    apply (Permutation_in _ (Permutation_sym (sort_values_perm _ _))) in H.
    apply filter_In in H. now rewrite Z.eqb_eq in H.
  - intros [H E].
    apply (Permutation_in _ (sort_values_perm _ _)).
    apply filter_In. now rewrite Z.eqb_eq.
Qed.

Lemma has_history_spec (b : list BudgetRow) :
  FeatureEngineer.has_history b = true <->
  exists r r', In r b /\ In r' b /\ b_category_id r' = b_category_id r /\
               (b_period_start r' < b_period_start r)%Z.
Proof.
  unfold FeatureEngineer.has_history. rewrite existsb_exists. split.
  - intros (r & Hr & H). apply existsb_exists in H.
    destruct H as (r' & Hr' & H). apply andb_true_iff in H.
    destruct H as [H1 H2]. apply Z.eqb_eq in H1. apply Z.ltb_lt in H2.
    now exists r, r'.
  - intros (r & r' & Hr & Hr' & H1 & H2). exists r. split; [assumption |].
    apply existsb_exists. exists r'. split; [assumption |].
    apply andb_true_iff. now rewrite Z.eqb_eq, Z.ltb_lt.
Qed.

(** [engineer_features] raises exactly on an empty spending frame when
    some budget row has an earlier period of its category; otherwise it
    returns the rows of [feature_rows]. *)
Lemma engineer_features_spec b s a :
  FeatureEngineer.engineer_features b s a =
  match s with
  | [] => if FeatureEngineer.has_history b then Py.Raised Py.KeyError
          else Py.Ok (FeatureEngineer.feature_rows b [] a)
  | _ => Py.Ok (FeatureEngineer.feature_rows b s a)
  end.
Proof.
  assert (Hflat : forall s',
            (forall c, In c (Py.unique (map b_category_id b)) ->
               FeatureEngineer.category_features b s' a c
               = Py.Ok (FeatureEngineer.category_rows b s' a c)) ->
            FeatureEngineer.engineer_features b s' a
            = Py.Ok (FeatureEngineer.feature_rows b s' a)).
  { intros s' H. unfold FeatureEngineer.engineer_features,
      FeatureEngineer.feature_rows.
    destruct b as [| r0 b0]; [reflexivity |].
    rewrite (collect_ok _ _ _ H). simpl Py.bind.
    now rewrite flat_map_concat_map. }
  destruct s as [| s0 sr].
  - destruct (FeatureEngineer.has_history b) eqn:Eh.
    + apply has_history_spec in Eh.
      destruct Eh as (r & r' & Hr & Hr' & Hc & Hlt).
      unfold FeatureEngineer.engineer_features.
      destruct b as [| r0 b0]; [destruct Hr |].
      set (bs := r0 :: b0) in *.
      assert (Hraise : forall c x e,
                FeatureEngineer.row_features
                  (Py.sort_values b_period_start
                     (FeatureEngineer.of_category b_category_id c bs))
                  (FeatureEngineer.select_spending [] c)
                  (FeatureEngineer.of_category a_category_id c a) x
                = Py.Raised e -> e = Py.KeyError).
      { intros c x e. unfold FeatureEngineer.row_features, FeatureEngineer.select_spending.
        destruct (FeatureEngineer.historical_budgets _ _); congruence. }
      assert (Hcat : forall c e,
                FeatureEngineer.category_features bs [] a c = Py.Raised e ->
                e = Py.KeyError).
      { intros c e H. unfold FeatureEngineer.category_features in H.
        apply collect_raised_inv in H. destruct H as (x & _ & Hx).
        eapply Hraise, Hx. }
      rewrite (collect_raised _ Py.KeyError); [reflexivity | |].
      * exists (b_category_id r). split; [apply unique_in, in_map, Hr |].
        unfold FeatureEngineer.category_features.
        apply collect_raised.
        -- exists r. split; [now apply in_category_budgets |].
           unfold FeatureEngineer.row_features, FeatureEngineer.select_spending.
           destruct (FeatureEngineer.historical_budgets _ _) as [| h hs] eqn:E;
             [| reflexivity].
           exfalso.
           assert (Hin : In r' (FeatureEngineer.historical_budgets
                      (Py.sort_values b_period_start
                         (FeatureEngineer.of_category b_category_id
                            (b_category_id r) bs))
                      (b_period_start r))).
           { apply filter_In. split; [now apply in_category_budgets |].
             now apply Z.ltb_lt. }
           rewrite E in Hin. destruct Hin.
        -- intros x e' _. apply Hraise.
      * intros c e' _. apply Hcat.
    + apply Hflat. intros c _.
      unfold FeatureEngineer.category_features, FeatureEngineer.category_rows.
      apply collect_ok. intros r Hr.
      unfold FeatureEngineer.row_features, FeatureEngineer.select_spending,
        FeatureEngineer.historical_budgets.
      rewrite filter_none; [reflexivity |].
      intros r' Hr'. apply Z.ltb_ge.
      destruct (Z.lt_ge_cases (b_period_start r') (b_period_start r))
        as [Hlt | Hge]; [| assumption].
      exfalso. apply in_category_budgets in Hr. apply in_category_budgets in Hr'.
      assert (FeatureEngineer.has_history b = true); [| congruence].
      apply has_history_spec. exists r, r'. intuition congruence.
  - apply Hflat. intros c _.
    unfold FeatureEngineer.category_features, FeatureEngineer.category_rows.
    now apply collect_ok.
Qed.

Lemma engineer_features_ok b s a feats :
  FeatureEngineer.engineer_features b s a = Py.Ok feats ->
  feats = FeatureEngineer.feature_rows b s a.
Proof.
  rewrite engineer_features_spec.
  destruct s; [destruct (FeatureEngineer.has_history b) |]; congruence.
Qed.

Lemma engineer_features_with_spending b s a :
  s <> [] ->
  FeatureEngineer.engineer_features b s a
  = Py.Ok (FeatureEngineer.feature_rows b s a).
Proof.
  intros H. rewrite engineer_features_spec. now destruct s.
Qed.

(** ** The loop over categories and the final sort *)

Lemma insert_desc_perm (p : Policy.MLBudgetPrediction) l :
  Permutation (p :: l) (Policy.insert_desc p l).
Proof.
  induction l as [| q r IH]; simpl.
  - apply Permutation_refl.
  - destruct (Qle_bool _ _).
    + apply Permutation_refl.
    + eapply perm_trans; [apply perm_swap |].
      now apply perm_skip.
Qed.

Lemma sort_by_confidence_perm l :
  Permutation l (Policy.sort_by_confidence l).
Proof.
  induction l as [| p r IH]; simpl.
  - apply perm_nil.
  - eapply perm_trans; [apply perm_skip, IH | apply insert_desc_perm].
Qed.

Lemma predict_loop_ok step cats ps :
  Policy.predict_loop step cats = Py.Ok ps ->
  Forall2 (fun c p => step c = Py.Ok p) cats ps.
Proof.
  revert ps. induction cats as [| c r IH]; simpl; intros ps H.
  - injection H as <-. constructor.
  - destruct (step c) as [p |] eqn:Ec; simpl in H; [| discriminate].
    destruct (Policy.predict_loop step r) as [qs |] eqn:Er; simpl in H;
      [| discriminate].
    injection H as <-. constructor; auto.
Qed.

Lemma predict_loop_raised step cats e :
  Policy.predict_loop step cats = Py.Raised e ->
  exists c, In c cats /\ step c = Py.Raised e.
Proof.
  induction cats as [| c r IH]; simpl; intros H; [discriminate |].
  destruct (step c) as [p |] eqn:Ec; simpl in H.
  - destruct (Policy.predict_loop step r) as [qs |] eqn:Er; simpl in H;
      [discriminate |].
    injection H as <-. destruct (IH eq_refl) as (c' & Hin & Hc').
    exists c'. split; [now right | assumption].
  - injection H as <-. exists c. split; [now left | assumption].
Qed.

Lemma predict_loop_all_ok step cats :
  (forall c, In c cats -> exists p, step c = Py.Ok p) ->
  exists ps, Policy.predict_loop step cats = Py.Ok ps.
Proof.
  induction cats as [| c r IH]; simpl; intros H.
  - now exists [].
  - destruct (H c (or_introl eq_refl)) as [p ->].
    destruct IH as [ps ->]; [intros; apply H; now right |].
    simpl. now eexists.
Qed.

Lemma Forall2_in_r {A B} (R : A -> B -> Prop) l1 l2 b :
  Forall2 R l1 l2 -> In b l2 -> exists a, In a l1 /\ R a b.
Proof.
  induction 1 as [| x y l l' Hxy _ IH]; simpl; intros Hin; [easy |].
  destruct Hin as [<- | Hin].
  - exists x; auto.
  - destruct (IH Hin) as (a & Ha & Hr). exists a; auto.
Qed.

(** Every returned prediction was produced by the loop body for one of
    the categories of the feature frame. *)
Lemma predict_with_ml_in w u tm ty p :
  In p (Policy.predict_with_ml w u tm ty) ->
  exists features_df c,
    FeatureEngineer.engineer_features (Policy.budgets_df w)
      (Policy.spending_df w) (Policy.accounts_df w) = Py.Ok features_df /\
    In c (Py.unique (map category_id features_df)) /\
    Policy.predict_category w
      (Policy.build_ml_models (Policy.fit w) features_df)
      features_df u tm ty c = Py.Ok p.
Proof.
  intros Hin. unfold Policy.predict_with_ml, Policy.predict_all in Hin.
  destruct (FeatureEngineer.engineer_features _ _ _) as [feats |] eqn:Ef;
    simpl in Hin; [| destruct Hin].
  destruct (Policy.predict_loop _ _) as [ps |] eqn:E; [| destruct Hin].
  apply predict_loop_ok in E.
  apply (Permutation_in _ (Permutation_sym (sort_by_confidence_perm ps)))
    in Hin.
  destruct (Forall2_in_r _ _ _ _ E Hin) as (c & Hc & Hp).
  now exists feats, c.
Qed.

Lemma decide_confidence cd latest preds ic pd tm d :
  Policy.decide cd latest preds ic pd tm = Py.Ok d ->
  0.1 <= Policy.d_confidence d <= 0.95.
Proof.
  unfold Policy.decide. destruct (Policy.branch_chain _ _ _ _ _ _) as [v |];
    simpl; [| discriminate].
  destruct (Policy.predicted_amount _); [| discriminate].
  destruct (Policy.model_used _); [| discriminate].
  destruct (Policy.confidence _); [| discriminate].
  intros H. injection H as <-. simpl. apply clamp_bounds.
Qed.

Lemma predict_category_decision w models feats u tm ty c p :
  Policy.predict_category w models feats u tm ty c = Py.Ok p ->
  exists latest rest d,
    rev (filter (fun f => (category_id f =? c)%Z) feats) = latest :: rest /\
    Policy.decide (filter (fun f => (category_id f =? c)%Z) feats) latest
      (Policy.predictions_of models latest tm ty)
      (Peer.member u (Policy.user_clusters w))
      (Peer.get_peer_recommendations (Policy.peer_db w) u
         (Peer.NumpyInt64 c) (Policy.user_clusters w) 6) tm = Py.Ok d /\
    p = {| Policy.p_category_id := c;
           Policy.p_category_name := category_name latest;
           Policy.predicted_amount_cents := Py.int (Policy.d_amount d);
           Policy.confidence_score := Policy.d_confidence d;
           Policy.historical_avg_cents := Py.int (historical_mean latest);
           Policy.historical_spending_avg_cents :=
             Py.int (historical_spent_mean latest);
           Policy.trend_direction :=
             Policy._classify_trend (historical_trend latest);
           Policy.ml_model_used := Policy.d_label d |}.
Proof.
  unfold Policy.predict_category.
  destruct (rev _) as [| latest rest] eqn:Er; [discriminate |].
  destruct (Policy.decide _ _ _ _ _ _) as [d |] eqn:Ed; simpl;
    [| discriminate].
  intros H. injection H as <-. now exists latest, rest, d.
Qed.

(** C3.  Every prediction returned by [predict_with_ml] carries a
    confidence score in the closed interval [0.1, 0.95], whichever arm
    of the decision chain produced it. *)
Theorem confidence_always_clamped :
  forall (w : Policy.World) (user_id target_month target_year : Z),
    Forall (fun p => 0.1 <= Policy.confidence_score p <= 0.95)
           (Policy.predict_with_ml w user_id target_month target_year).
Proof.
  intros w u tm ty. apply Forall_forall. intros p Hin.
  destruct (predict_with_ml_in _ _ _ _ _ Hin) as (feats & c & _ & _ & Hc).
  destruct (predict_category_decision _ _ _ _ _ _ _ _ Hc)
    as (latest & rest & d & _ & Hd & ->).
  simpl. eapply decide_confidence, Hd.
Qed.

(** ** Trend classification *)

Lemma classify_trend_cases (slope : Q) :
  (Policy._classify_trend slope = "increasing"%string <-> 100 < slope) /\
  (Policy._classify_trend slope = "decreasing"%string <-> slope < -100) /\
  (Policy._classify_trend slope = "stable"%string <-> -100 <= slope <= 100).
Proof.
  unfold Policy._classify_trend.
  destruct (Py.Qltb 100 slope) eqn:E1;
    [apply Qltb_true in E1 | apply Qltb_false in E1].
  - repeat split; intros; try discriminate; try assumption; lra.
  - destruct (Py.Qltb slope (-100)) eqn:E2;
      [apply Qltb_true in E2 | apply Qltb_false in E2];
      repeat split; intros; try discriminate; try assumption;
      try reflexivity; lra.
Qed.

(** C10.  In every returned prediction the trend label is "increasing"
    exactly when the historical trend slope of the category's latest
    feature row exceeds 100 minor units per period, "decreasing" exactly
    when it is below -100, and "stable" otherwise, the two thresholds
    included. *)
Theorem trend_direction_thresholds :
  forall (w : Policy.World) (user_id target_month target_year : Z)
         (p : Policy.MLBudgetPrediction),
    In p (Policy.predict_with_ml w user_id target_month target_year) ->
    exists features_df latest rest,
      FeatureEngineer.engineer_features (Policy.budgets_df w)
        (Policy.spending_df w) (Policy.accounts_df w)
      = Py.Ok features_df /\
      rev (filter (fun f => (category_id f =? Policy.p_category_id p)%Z)
             features_df)
      = latest :: rest /\
      (Policy.trend_direction p = "increasing"%string
       <-> 100 < historical_trend latest) /\
      (Policy.trend_direction p = "decreasing"%string
       <-> historical_trend latest < -100) /\
      (Policy.trend_direction p = "stable"%string
       <-> -100 <= historical_trend latest <= 100).
Proof.
  intros w u tm ty p Hin.
  destruct (predict_with_ml_in _ _ _ _ _ Hin) as (feats & c & Hf & _ & Hc).
  destruct (predict_category_decision _ _ _ _ _ _ _ _ Hc)
    as (latest & rest & d & Hrev & _ & ->).
  exists feats, latest, rest. simpl. split; [exact Hf |].
  split; [exact Hrev |].
  apply classify_trend_cases.
Qed.

Lemma trend_direction_thresholds_witness :
  let p := {| Policy.p_category_id := 8;
              Policy.p_category_name := "Food";
              Policy.predicted_amount_cents := 4000;
              Policy.confidence_score := 2760 # 10000;
              Policy.historical_avg_cents := 4000;
              Policy.historical_spending_avg_cents := 3500;
              Policy.trend_direction := "stable";
              Policy.ml_model_used :=
                "Historical Average (only 2 data points)" |} in
  exists features_df latest rest,
    FeatureEngineer.engineer_features Snapshots.rent_and_food
      Snapshots.one_food_purchase [] = Py.Ok features_df /\
    rev (filter (fun f => (category_id f =? 8)%Z) features_df)
    = latest :: rest /\
    (Policy.trend_direction p = "increasing"%string
     <-> 100 < historical_trend latest) /\
    (Policy.trend_direction p = "decreasing"%string
     <-> historical_trend latest < -100) /\
    (Policy.trend_direction p = "stable"%string
     <-> -100 <= historical_trend latest <= 100).
Proof.
  intro p.
  apply (trend_direction_thresholds Snapshots.world_peer_gap 1 6 2025 p).
  vm_compute. right. left. reflexivity.
Defined.

(** ** Exceptions inside the category loop *)

(** C4 (as the code has it).  Feature engineering and the loop over
    categories run inside one [try] block.  When feature engineering
    raises, the request returns the empty list.  Otherwise either every
    category's processing succeeds, and then the returned list holds
    exactly one prediction per category (in confidence order); or some
    category raises, and then the whole request returns the empty list:
    no other category's prediction survives. *)
Theorem predict_with_ml_all_or_nothing :
  forall (w : Policy.World) (user_id target_month target_year : Z),
    match FeatureEngineer.engineer_features (Policy.budgets_df w)
            (Policy.spending_df w) (Policy.accounts_df w) with
    | Py.Raised _ =>
        Policy.predict_with_ml w user_id target_month target_year = []
    | Py.Ok features_df =>
        let step :=
          Policy.predict_category w
            (Policy.build_ml_models (Policy.fit w) features_df)
            features_df user_id target_month target_year in
        let cats := Py.unique (map category_id features_df) in
        (exists ps,
            Forall2 (fun c p => step c = Py.Ok p) cats ps /\
            Permutation ps
              (Policy.predict_with_ml w user_id target_month target_year))
        \/
        ((exists c e, In c cats /\ step c = Py.Raised e) /\
         Policy.predict_with_ml w user_id target_month target_year = [])
    end.
Proof.
  intros w u tm ty.
  destruct (FeatureEngineer.engineer_features _ _ _) as [features_df | e0]
    eqn:Ef.
  2: { unfold Policy.predict_with_ml, Policy.predict_all. now rewrite Ef. }
  intros step cats.
  unfold Policy.predict_with_ml, Policy.predict_all. rewrite Ef.
  change (Py.bind (Py.Ok features_df) ?k) with (k features_df).
  cbv beta zeta. fold step. fold cats.
  destruct (Policy.predict_loop step cats) as [ps | e] eqn:E.
  - left. exists ps. split.
    + now apply predict_loop_ok.
    + apply sort_by_confidence_perm.
  - right. split; [| reflexivity].
    destruct (predict_loop_raised _ _ _ E) as (c & Hin & Hc).
    now exists c, e.
Qed.

(** C4 fails as stated: feature engineering succeeds, category 9
    divides by its zero budget average, category 8 on its own is
    processed without error, and yet the request returns no prediction
    at all. *)
Lemma one_bad_category_aborts_request :
  let w := Snapshots.world_zero_plan in
  exists features_df,
    FeatureEngineer.engineer_features (Policy.budgets_df w)
      (Policy.spending_df w) (Policy.accounts_df w) = Py.Ok features_df /\
    let step :=
      Policy.predict_category w
        (Policy.build_ml_models (Policy.fit w) features_df)
        features_df 1 6 2025 in
    step 9%Z = Py.Raised Py.ZeroDivisionError /\
    (exists p, step 8%Z = Py.Ok p /\
               Policy.predicted_amount_cents p = 4000%Z) /\
    Policy.predict_with_ml w 1 6 2025 = [].
Proof.
  cbv zeta. eexists. split; [vm_compute; reflexivity |].
  split; [vm_compute; reflexivity |].
  split; [| vm_compute; reflexivity].
  eexists. split; vm_compute; reflexivity.
Qed.

(** ** The feature frame, category by category *)

Lemma category_features_cat b s a c f :
  In f (FeatureEngineer.category_rows b s a c) -> category_id f = c.
Proof.
  unfold FeatureEngineer.category_rows. rewrite in_map_iff.
  intros (r & <- & Hr). simpl.
  apply (Permutation_in _ (Permutation_sym (sort_values_perm _ _))) in Hr.
  unfold FeatureEngineer.of_category in Hr.
  apply filter_In in Hr. now apply Z.eqb_eq.
Qed.

Lemma filter_flat_map_select (g : Z -> list Features) (c : Z) cats :
  (forall c' f, In f (g c') -> category_id f = c') ->
  NoDup cats ->
  filter (fun f => (category_id f =? c)%Z) (flat_map g cats)
  = if in_dec Z.eq_dec c cats then g c else [].
Proof.
  intros Hg. induction 1 as [| x r Hx Hnd IH]; simpl; [reflexivity |].
  rewrite filter_app, IH.
  destruct (Z.eq_dec x c) as [-> | Hne].
  - rewrite filter_all
      by (intros f Hf; apply Z.eqb_eq; now apply Hg).
    destruct (in_dec Z.eq_dec c r); [contradiction | apply app_nil_r].
  - rewrite filter_none
      by (intros f Hf; apply Z.eqb_neq; rewrite (Hg _ _ Hf); exact Hne).
    simpl. destruct (in_dec Z.eq_dec c r); reflexivity.
Qed.

(** The rows [predict_with_ml] selects for a category are the rows the
    feature engineer built for it. *)
Lemma category_data_eq b s a c :
  filter (fun f => (category_id f =? c)%Z)
         (FeatureEngineer.feature_rows b s a)
  = FeatureEngineer.category_rows b s a c.
Proof.
  assert (Hempty : ~ In c (map b_category_id b) ->
                   FeatureEngineer.category_rows b s a c = []).
  { intros Hn. unfold FeatureEngineer.category_rows.
    replace (FeatureEngineer.of_category b_category_id c b) with
      (@nil BudgetRow); [reflexivity |].
    symmetry. apply filter_none. intros r Hr. apply Z.eqb_neq.
    intros Heq. apply Hn. rewrite <- Heq. now apply in_map. }
  unfold FeatureEngineer.feature_rows. destruct b as [| r0 b'].
  - rewrite Hempty by (simpl; tauto). reflexivity.
  - rewrite filter_flat_map_select.
    + destruct (in_dec _ _ _) as [Hin | Hn]; [reflexivity |].
      symmetry. apply Hempty. now rewrite unique_in in Hn.
    + intros c' f. apply category_features_cat.
    + apply unique_nodup.
Qed.

(** The latest row of a category is the feature row of its last budget
    period in period order. *)
Lemma latest_features b s a c earlier latest_row :
  Py.sort_values b_period_start
    (FeatureEngineer.of_category b_category_id c b) = earlier ++ [latest_row] ->
  exists rest,
    rev (FeatureEngineer.category_rows b s a c)
    = FeatureEngineer.feature_row (earlier ++ [latest_row])
        (FeatureEngineer.of_category s_category_id c s)
        (FeatureEngineer.of_category a_category_id c a) latest_row :: rest.
Proof.
  intros Hs. unfold FeatureEngineer.category_rows. rewrite Hs.
  rewrite map_app, rev_app_distr. simpl. now eexists.
Qed.

Lemma category_features_length b s a c :
  length (FeatureEngineer.category_rows b s a c)
  = length (Py.sort_values b_period_start
              (FeatureEngineer.of_category b_category_id c b)).
Proof. unfold FeatureEngineer.category_rows. apply length_map. Qed.

(** ** The insufficient-data arm *)

Lemma decide_insufficient cd latest preds ic pd tm :
  (Py.len cd < 3)%Z ->
  Policy.decide cd latest preds ic pd tm =
  Py.Ok {| Policy.d_amount := historical_mean latest;
           Policy.d_label :=
             ("Historical Average (only " ++ Py.str (Py.len cd)
              ++ " data points)")%string;
           Policy.d_confidence :=
             Policy.clamp (Policy.base_confidence_of (Py.len cd) * 0.6) |}.
Proof.
  intros H. unfold Policy.decide, Policy.branch_chain.
  rewrite (proj2 (Z.ltb_lt _ _) H). reflexivity.
Qed.

Lemma insufficient_confidence_unclamped (n : Z) :
  (0 <= n < 3)%Z ->
  Policy.clamp (Policy.base_confidence_of n * 0.6)
  == Policy.base_confidence_of n * 0.6.
Proof.
  intros H.
  assert (Hn : n = 0%Z \/ n = 1%Z \/ n = 2%Z) by lia.
  destruct Hn as [-> | [-> | ->]]; vm_compute; reflexivity.
Qed.

Lemma len_category_features b s a c rows :
  Py.sort_values b_period_start
    (FeatureEngineer.of_category b_category_id c b) = rows ->
  Py.len (FeatureEngineer.category_rows b s a c) = Py.len rows.
Proof.
  intros <-. unfold Py.len. now rewrite category_features_length.
Qed.

(** The loop body on a category with fewer than three budget periods. *)
Lemma insufficient_category_prediction :
  forall (w : Policy.World) (models : Policy.Models)
         (user_id target_month target_year c : Z)
         (earlier : list BudgetRow) (latest_row : BudgetRow),
    Py.sort_values b_period_start
      (FeatureEngineer.of_category b_category_id c (Policy.budgets_df w))
    = earlier ++ [latest_row] ->
    (length earlier < 2)%nat ->
    let hist :=
      FeatureEngineer.historical_budgets (earlier ++ [latest_row])
        (b_period_start latest_row) in
    let historical_average :=
      match hist with
      | [] => Py.float (b_planned_cents latest_row)
      | _ => Py.mean (FeatureEngineer.planned hist)
      end in
    let data_points := Py.len (earlier ++ [latest_row]) in
    exists p,
      Policy.predict_category w models
        (FeatureEngineer.feature_rows (Policy.budgets_df w)
           (Policy.spending_df w) (Policy.accounts_df w))
        user_id target_month target_year c = Py.Ok p /\
      Policy.predicted_amount_cents p = Py.int historical_average /\
      Policy.confidence_score p
      == Policy.base_confidence_of data_points * 0.6 /\
      Policy.ml_model_used p
      = ("Historical Average (only " ++ Py.str data_points
         ++ " data points)")%string.
Proof.
  intros w models u tm ty c earlier latest_row Hs Hlen hist avg dp.
  destruct (latest_features _ (Policy.spending_df w) (Policy.accounts_df w)
              _ _ _ Hs) as [rest Hrev].
  pose proof (len_category_features _ (Policy.spending_df w)
                (Policy.accounts_df w) _ _ Hs) as Hdp.
  fold dp in Hdp.
  assert (Hdp3 : (0 <= dp < 3)%Z).
  { unfold dp, Py.len. rewrite length_app. simpl. lia. }
  unfold Policy.predict_category.
  rewrite category_data_eq, Hrev, decide_insufficient by lia.
  rewrite Hdp. eexists. split; [reflexivity |]. cbn [Py.bind].
  cbn [Policy.predicted_amount_cents Policy.confidence_score
       Policy.ml_model_used Policy.d_amount Policy.d_label
       Policy.d_confidence].
  split; [| split; [now apply insufficient_confidence_unclamped
                   | reflexivity]].
  unfold FeatureEngineer.feature_row.
  cbn [historical_mean]. fold hist. subst avg.
  destruct hist; reflexivity.
Qed.

Lemma int_mean_single (z : Z) : Py.int (Py.mean [Py.float z]) = Py.to_double z.
Proof.
  unfold Py.mean, Py.float, Py.exact, Py.len, Py.int. simpl.
  rewrite Z.quot_1_r. lia.
Qed.

(** C6 (as the code has it).  A prediction returned for a category with
    fewer than three budget periods comes from the first arm: its
    amount is the historical budget average of the category's latest
    row, that is, the mean of the planned amounts of the strictly
    earlier periods only, truncated to integer cents.  With fewer than
    three periods this is the planned amount of the one period that
    starts strictly before the latest, or the latest period's own
    planned amount when none does (as doubles).  The final confidence is
    base_confidence * 0.6 (the clamp leaves it unchanged), and the label
    is the insufficient-data one. *)
Theorem insufficient_data_uses_historical_average :
  forall (w : Policy.World) (user_id target_month target_year : Z)
         (p : Policy.MLBudgetPrediction)
         (earlier : list BudgetRow) (latest_row : BudgetRow),
    In p (Policy.predict_with_ml w user_id target_month target_year) ->
    Py.sort_values b_period_start
      (FeatureEngineer.of_category b_category_id (Policy.p_category_id p)
         (Policy.budgets_df w))
    = earlier ++ [latest_row] ->
    (length earlier < 2)%nat ->
    let hist :=
      FeatureEngineer.historical_budgets (earlier ++ [latest_row])
        (b_period_start latest_row) in
    let historical_average :=
      match hist with
      | [] => Py.float (b_planned_cents latest_row)
      | _ => Py.mean (FeatureEngineer.planned hist)
      end in
    let reference_row :=
      match earlier with
      | [e] => if (b_period_start e <? b_period_start latest_row)%Z
               then e else latest_row
      | _ => latest_row
      end in
    let data_points := Py.len (earlier ++ [latest_row]) in
    Policy.predicted_amount_cents p = Py.int historical_average /\
    Policy.predicted_amount_cents p
    = Py.to_double (b_planned_cents reference_row) /\
    Policy.confidence_score p
    == Policy.base_confidence_of data_points * 0.6 /\
    Policy.confidence_score p
    == (if (data_points =? 1)%Z then 0.228 else 0.276) /\
    Policy.ml_model_used p
    = ("Historical Average (only " ++ Py.str data_points
       ++ " data points)")%string.
Proof.
  intros w u tm ty p earlier latest_row Hin Hs Hlen.
  destruct (predict_with_ml_in _ _ _ _ _ Hin) as (feats & c & Hf & _ & Hc).
  assert (Hpc : Policy.p_category_id p = c).
  { destruct (predict_category_decision _ _ _ _ _ _ _ _ Hc)
      as (? & ? & ? & _ & _ & ->). reflexivity. }
  rewrite Hpc in Hs.
  apply engineer_features_ok in Hf. subst feats.
  destruct (insufficient_category_prediction w
              (Policy.build_ml_models (Policy.fit w)
                 (FeatureEngineer.feature_rows (Policy.budgets_df w)
                    (Policy.spending_df w) (Policy.accounts_df w)))
              u tm ty c earlier latest_row Hs Hlen)
    as (q & Hq & Ha & Hconf & Hlabel).
  rewrite Hq in Hc. injection Hc as <-. cbv zeta.
  split; [exact Ha |].
  split; [| split; [exact Hconf | split; [| exact Hlabel]]].
  - rewrite Ha. clear - Hlen.
    assert (Hself : (b_period_start latest_row <? b_period_start latest_row)%Z
                    = false) by apply Z.ltb_irrefl.
    destruct earlier as [| e [| e' rest]]; [| | simpl in Hlen; lia].
    + unfold FeatureEngineer.historical_budgets. simpl. rewrite Hself.
      apply int_float.
    + unfold FeatureEngineer.historical_budgets. simpl. rewrite Hself.
      destruct (b_period_start e <? b_period_start latest_row)%Z.
      * apply int_mean_single.
      * apply int_float.
  - rewrite Hconf. clear - Hlen.
    destruct earlier as [| e [| e' rest]]; [| | simpl in Hlen; lia];
      vm_compute; reflexivity.
Qed.

Lemma insufficient_data_uses_historical_average_witness :
  let p := {| Policy.p_category_id := 8;
              Policy.p_category_name := "Food";
              Policy.predicted_amount_cents := 4000;
              Policy.confidence_score := 2760 # 10000;
              Policy.historical_avg_cents := 4000;
              Policy.historical_spending_avg_cents := 3500;
              Policy.trend_direction := "stable";
              Policy.ml_model_used :=
                "Historical Average (only 2 data points)" |} in
  In p (Policy.predict_with_ml Snapshots.world_peer_gap 1 6 2025) /\
  Policy.predicted_amount_cents p = 4000%Z /\
  Policy.confidence_score p == 0.276 /\
  Policy.ml_model_used p
  = "Historical Average (only 2 data points)"%string.
Proof.
  intro p.
  assert (Hin : In p (Policy.predict_with_ml Snapshots.world_peer_gap
                        1 6 2025)).
  { vm_compute. right. left. reflexivity. }
  split; [exact Hin |].
  destruct (insufficient_data_uses_historical_average
              Snapshots.world_peer_gap 1 6 2025 p
              [Snapshots.budget 8 "Food" 0 29 4000]
              (Snapshots.budget 8 "Food" 30 59 6000) Hin)
    as (Ha & _ & Hc & _ & Hl).
  - vm_compute. reflexivity.
  - simpl. lia.
  - split; [exact Ha |]. split; [| exact Hl].
    rewrite Hc. vm_compute. reflexivity.
Defined.

(** C6 fails as stated: category 8 was planned at 4000 and then at 6000
    cents, the plain average of its planned amounts is 5000, and the
    first arm predicts 4000, the mean of the one strictly earlier
    period. *)
Lemma two_period_prediction_is_not_plain_average :
  let w := Snapshots.world_peer_gap in
  exists p,
    In p (Policy.predict_with_ml w 1 6 2025) /\
    Policy.p_category_id p = 8%Z /\
    Policy.ml_model_used p
    = "Historical Average (only 2 data points)"%string /\
    Policy.predicted_amount_cents p = 4000%Z /\
    map b_planned_cents
      (FeatureEngineer.of_category b_category_id 8 (Policy.budgets_df w))
    = [4000%Z; 6000%Z] /\
    Py.mean (FeatureEngineer.planned
               (FeatureEngineer.of_category b_category_id 8
                  (Policy.budgets_df w))) == 5000.
Proof.
  cbv zeta.
  exists {| Policy.p_category_id := 8;
            Policy.p_category_name := "Food";
            Policy.predicted_amount_cents := 4000;
            Policy.confidence_score := 2760 # 10000;
            Policy.historical_avg_cents := 4000;
            Policy.historical_spending_avg_cents := 3500;
            Policy.trend_direction := "stable";
            Policy.ml_model_used :=
              "Historical Average (only 2 data points)" |}.
  split; [vm_compute; right; left; reflexivity |].
  repeat split; vm_compute; reflexivity.
Qed.

(** ** The first period of a category *)

Lemma row_features_in b s a c r :
  In r (FeatureEngineer.of_category b_category_id c b) ->
  In (FeatureEngineer.feature_row
        (Py.sort_values b_period_start
           (FeatureEngineer.of_category b_category_id c b))
        (FeatureEngineer.of_category s_category_id c s)
        (FeatureEngineer.of_category a_category_id c a) r)
     (FeatureEngineer.feature_rows b s a).
Proof.
  intros Hr.
  assert (H : In (FeatureEngineer.feature_row
        (Py.sort_values b_period_start
           (FeatureEngineer.of_category b_category_id c b))
        (FeatureEngineer.of_category s_category_id c s)
        (FeatureEngineer.of_category a_category_id c a) r)
        (FeatureEngineer.category_rows b s a c)).
  { unfold FeatureEngineer.category_rows. apply in_map.
    now apply (Permutation_in _ (sort_values_perm _ _)). }
  rewrite <- category_data_eq in H. now apply filter_In in H.
Qed.

(** C9 (as the code has it).  Whenever feature engineering returns a
    frame, the feature row of a budget period that has no strictly
    earlier period in its category is part of it and carries the
    first-budget defaults: the period's own planned amount, as a double,
    for the historical mean, minimum, maximum, recent mean and combined
    mean; zero deviation, trends and spending mean; a historical count
    of zero.  When that period is the category's only one, the decision
    policy takes the insufficient-data arm and predicts the double
    nearest to the period's planned amount, which is the planned amount
    itself up to 2^53 in magnitude. *)
Theorem first_period_defaults :
  forall (w : Policy.World) (c : Z) (r : BudgetRow)
         (features_df : list Features),
    let rows :=
      FeatureEngineer.of_category b_category_id c (Policy.budgets_df w) in
    let f :=
      FeatureEngineer.feature_row (Py.sort_values b_period_start rows)
        (FeatureEngineer.of_category s_category_id c (Policy.spending_df w))
        (FeatureEngineer.of_category a_category_id c (Policy.accounts_df w))
        r in
    let own := Py.float (b_planned_cents r) in
    FeatureEngineer.engineer_features (Policy.budgets_df w)
      (Policy.spending_df w) (Policy.accounts_df w) = Py.Ok features_df ->
    In r rows ->
    FeatureEngineer.historical_budgets (Py.sort_values b_period_start rows)
      (b_period_start r) = [] ->
    In f features_df /\
    (historical_mean f = own /\ historical_min f = own /\
     historical_max f = own /\ recent_mean f = own /\
     historical_combined_mean f = own) /\
    (historical_std_sq f = Some 0 /\ historical_trend f = 0 /\
     recent_trend f = 0 /\ historical_spent_mean f = 0 /\
     historical_count f = 0%Z) /\
    (rows = [r] ->
     forall (models : Policy.Models) (user_id target_month target_year : Z),
     exists p,
       Policy.predict_category w models features_df
         user_id target_month target_year c = Py.Ok p /\
       Policy.predicted_amount_cents p = Py.to_double (b_planned_cents r) /\
       ((Z.abs (b_planned_cents r) <= 2 ^ 53)%Z ->
        Policy.predicted_amount_cents p = b_planned_cents r) /\
       Policy.ml_model_used p
       = "Historical Average (only 1 data points)"%string).
Proof.
  intros w c r feats rows f own Hf Hin Hhist.
  apply engineer_features_ok in Hf. subst feats.
  split; [now apply row_features_in |].
  assert (Hmean : historical_mean f = own).
  { unfold f, FeatureEngineer.feature_row. cbn [historical_mean].
    now rewrite Hhist. }
  split; [| split].
  - split; [exact Hmean |].
    unfold f, FeatureEngineer.feature_row.
    cbn [historical_min historical_max recent_mean historical_combined_mean].
    rewrite Hhist. auto.
  - unfold f, FeatureEngineer.feature_row.
    cbn [historical_std_sq historical_trend recent_trend
         historical_spent_mean historical_count].
    rewrite Hhist. auto.
  - intros Hone models u tm ty.
    assert (Hs : Py.sort_values b_period_start rows = [] ++ [r])
      by (rewrite Hone; reflexivity).
    destruct (latest_features _ (Policy.spending_df w)
                (Policy.accounts_df w) _ _ _ Hs) as [rest Hrev].
    pose proof (len_category_features _ (Policy.spending_df w)
                  (Policy.accounts_df w) _ _ Hs) as Hdp.
    unfold Policy.predict_category.
    rewrite category_data_eq, Hrev, decide_insufficient
      by (rewrite Hdp; reflexivity).
    rewrite Hdp. eexists. split; [reflexivity |].
    cbn [Py.bind Policy.predicted_amount_cents Policy.ml_model_used
         Policy.d_amount Policy.d_label].
    assert (Ha : Py.int
                   (historical_mean
                      (FeatureEngineer.feature_row ([] ++ [r])
                         (FeatureEngineer.of_category s_category_id c
                            (Policy.spending_df w))
                         (FeatureEngineer.of_category a_category_id c
                            (Policy.accounts_df w)) r))
                 = Py.to_double (b_planned_cents r)).
    { fold rows. rewrite <- Hs. fold f. rewrite Hmean. apply int_float. }
    split; [exact Ha |]. split; [| reflexivity].
    intros Hb. rewrite Ha. now apply to_double_exact.
Qed.

Lemma first_period_defaults_witness :
  let r := Snapshots.budget 8 "Food" 0 29 4000 in
  let f :=
    FeatureEngineer.feature_row [r] [] [] r in
  exists features_df,
    FeatureEngineer.engineer_features Snapshots.accurate_budgets
      Snapshots.accurate_spending [] = Py.Ok features_df /\
    In f features_df /\
    historical_mean f = 4000 /\
    historical_count f = 0%Z /\
    exists p,
      Policy.predict_category Snapshots.world_accurate Policy.no_models
        features_df 1 6 2025 8 = Py.Ok p /\
      Policy.predicted_amount_cents p = 4000%Z.
Proof.
  intros r f.
  exists (FeatureEngineer.feature_rows Snapshots.accurate_budgets
            Snapshots.accurate_spending []).
  assert (Hf : FeatureEngineer.engineer_features Snapshots.accurate_budgets
                 Snapshots.accurate_spending []
               = Py.Ok (FeatureEngineer.feature_rows
                          Snapshots.accurate_budgets
                          Snapshots.accurate_spending []))
    by (vm_compute; reflexivity).
  split; [exact Hf |].
  destruct (first_period_defaults Snapshots.world_accurate 8 r _ Hf)
    as (Hin & (Hm & _) & (_ & _ & _ & _ & Hc) & Hone).
  - vm_compute. left. reflexivity.
  - vm_compute. reflexivity.
  - split; [exact Hin |]. split; [exact Hm |]. split; [exact Hc |].
    destruct (Hone eq_refl Policy.no_models 1%Z 6%Z 2025%Z)
      as (p & Hp & _ & Ha & _).
    exists p. split; [exact Hp |]. apply Ha. vm_compute. discriminate.
Defined.

(** C9 fails as stated on two inputs.  A single period planned at
    2^53 + 1 cents is predicted at 2^53 cents, the double nearest to
    it.  And with an empty spending frame and a category that has an
    earlier period, feature engineering raises, so that the first
    period of no category gets a feature row. *)
Lemma large_plan_is_rounded :
  let w := Snapshots.world_large_plan in
  FeatureEngineer.of_category b_category_id 5 (Policy.budgets_df w)
  = [Snapshots.budget 5 "Loan" 0 29 9007199254740993] /\
  (exists p,
     Policy.predict_with_ml w 1 6 2025 = [p] /\
     Policy.p_category_id p = 5%Z /\
     Policy.ml_model_used p
     = "Historical Average (only 1 data points)"%string /\
     Policy.predicted_amount_cents p = 9007199254740992%Z) /\
  FeatureEngineer.engineer_features Snapshots.rent_and_food [] []
  = Py.Raised Py.KeyError.
Proof.
  cbv zeta. split; [reflexivity |]. split; [| vm_compute; reflexivity].
  eexists. split; [vm_compute; reflexivity |].
  repeat split; reflexivity.
Qed.

(** ** The accurate-budgeter arm *)

Lemma base_confidence_lower (n : Z) :
  (3 <= n)%Z -> 0.54 <= Policy.base_confidence_of n.
Proof.
  intros H. unfold Policy.base_confidence_of.
  assert (Hq : 3 <= Py.float n) by (apply (float_ge 3); [simpl |]; lia).
  destruct (min_spec 0.9 (0.3 + Py.float n * 0.08)) as [[_ ->] | [_ ->]]; lra.
Qed.

Lemma base_confidence_upper (n : Z) : Policy.base_confidence_of n <= 0.9.
Proof.
  unfold Policy.base_confidence_of.
  destruct (min_spec 0.9 (0.3 + Py.float n * 0.08)) as [[? ->] | [? ->]]; lra.
Qed.







(** ** The peer arm *)

Lemma peer_branch_insufficient historical_avg peer_data :
  Policy.insufficient peer_data ->
  Policy.peer_branch historical_avg peer_data = Policy.mkVars None None None.
Proof.
  destruct peer_data as [pd |]; simpl; intros H; [| reflexivity].
  unfold Policy.peer_branch.
  now rewrite (proj2 (Z.leb_gt _ _) H).
Qed.

(** Once the peer arm is entered with insufficient peer data, no later
    arm of the chain is evaluated: the safety check after the chain
    supplies the budget average, whatever the model predictions are. *)
Lemma peer_gap_ends_in_safety_check cd latest preds pd tm :
  (3 <= Py.len cd < 5)%Z ->
  0.2 <= budget_accuracy latest ->
  (preds = [] \/ historical_spent_mean latest <= 0 \/
   (~ historical_mean latest == 0 /\
    0.02 <= Qabs (historical_spent_mean latest / historical_mean latest
                  - 1.0))) ->
  Policy.insufficient pd ->
  Policy.decide cd latest preds true pd tm =
  Py.Ok {| Policy.d_amount := historical_mean latest;
           Policy.d_label := "Fallback Historical Average";
           Policy.d_confidence :=
             Policy.clamp (Policy.base_confidence_of (Py.len cd) * 0.6) |}.
Proof.
  intros Hn Hacc Hnot Hpd.
  assert (E1 : (Py.len cd <? 3)%Z = false) by (apply Z.ltb_ge; lia).
  assert (E2 : Py.Qltb (budget_accuracy latest) 0.2 = false)
    by (now apply Qltb_false).
  assert (E3 : (Py.len cd <? 5)%Z = true) by (apply Z.ltb_lt; lia).
  unfold Policy.decide, Policy.branch_chain. cbv zeta.
  rewrite E1, E2, E3.
  assert (E4 :
    (if Policy.nonempty preds && Py.Qltb 0 (historical_spent_mean latest)
     then ratio <- Py.div (historical_spent_mean latest)
                     (historical_mean latest) ;;
          Py.Ok (Py.Qltb (Qabs (ratio - 1.0)) 0.02)
     else Py.Ok false) = Py.Ok false).
  { destruct Hnot as [-> | [Hs | [Hb Hr]]].
    - reflexivity.
    - rewrite (proj2 (Qltb_false _ _) Hs). now rewrite andb_false_r.
    - destruct (_ && _); [| reflexivity].
      unfold Py.div.
      destruct (Qeq_bool (historical_mean latest) 0) eqn:E;
        [apply Qeq_bool_eq in E; contradiction |].
      cbn [Py.bind]. now rewrite (proj2 (Qltb_false _ _) Hr). }
  rewrite E4. cbn [Py.bind andb].
  rewrite (peer_branch_insufficient _ _ Hpd). reflexivity.
Qed.

(** C1 (what the code does at the failing input).  User 1 is clustered
    and the resolver returns no peer data; category 7 has three periods,
    no transaction of its own (neutral accuracy) and a model prediction
    of 12000, while the spending frame holds one purchase of category 8.
    The peer arm is entered, leaves the variables unset, and the safety
    check returns the budget average under the fallback label.  The arm
    for neutral accuracy, which the same request reaches when the user
    is in no cluster, would have returned the 80/20 blend 10400. *)
Theorem peer_gap_skips_remaining_branches :
  map (fun p => (Policy.p_category_id p, Policy.predicted_amount_cents p,
                 Policy.ml_model_used p))
      (Policy.predict_with_ml Snapshots.world_peer_gap 1 6 2025)
  = [ (7%Z, 10000%Z, "Fallback Historical Average"%string);
      (8%Z, 4000%Z, "Historical Average (only 2 data points)"%string) ] /\
  map (fun p => (Policy.p_category_id p, Policy.predicted_amount_cents p,
                 Policy.ml_model_used p))
      (Policy.predict_with_ml Snapshots.world_unclustered 1 6 2025)
  = [ (7%Z, 10400%Z, "Conservative Ensemble (neutral accuracy)"%string);
      (8%Z, 4000%Z, "Historical Average (only 2 data points)"%string) ] /\
  Peer.get_peer_recommendations Snapshots.no_peer_rows 1
    (Peer.NumpyInt64 7) Snapshots.clusters_user1 6 = None.
Proof. repeat split; vm_compute; reflexivity. Qed.

(** ** Minimum support of peer recommendations *)

Lemma sum_pos (l : list Q) :
  l <> [] -> Forall (fun x => 0 < x) l -> 0 < Py.sum l.
Proof.
  intros Hne Hall. destruct l as [| x r]; [contradiction |].
  clear Hne. revert x Hall.
  induction r as [| y r IH]; intros x Hall; simpl.
  - inversion Hall; subst. lra.
  - inversion Hall as [| ? ? Hx Hr]; subst.
    specialize (IH y Hr). simpl in IH. lra.
Qed.

Lemma mean_pos (l : list Q) :
  l <> [] -> Forall (fun x => 0 < x) l -> 0 < Py.mean l.
Proof.
  intros Hne Hall. unfold Py.mean, Qdiv.
  apply Qmult_lt_0_compat; [now apply sum_pos |].
  apply Qinv_lt_0_compat. unfold Py.exact, Py.len.
  destruct l; [contradiction |].
  rewrite <- (Zlt_Qlt 0). simpl. lia.
Qed.

(** The query fails for the [numpy.int64] category id that the loop of
    [predict_with_ml] passes, and for a cohort of two or more peers. *)
Lemma resolver_numpy_id_is_empty db u c uc hm :
  Peer.get_peer_recommendations db u (Peer.NumpyInt64 c) uc hm = None.
Proof.
  unfold Peer.get_peer_recommendations.
  destruct (Peer.lookup u uc) as [info |]; [| reflexivity].
  now destruct (Peer.similarity_peers info).
Qed.

Lemma resolver_many_peers_is_empty db u c uc hm info p1 p2 ps :
  Peer.lookup u uc = Some info ->
  Peer.similarity_peers info = p1 :: p2 :: ps ->
  Peer.get_peer_recommendations db u c uc hm = None.
Proof.
  intros Hl Hp. unfold Peer.get_peer_recommendations.
  rewrite Hl, Hp. now destruct c.
Qed.




(** ** Budget accuracy *)

Lemma engineer_features_inv b s a f :
  In f (FeatureEngineer.feature_rows b s a) ->
  exists r,
    In r b /\
    f = FeatureEngineer.feature_row
          (Py.sort_values b_period_start
             (FeatureEngineer.of_category b_category_id (b_category_id r) b))
          (FeatureEngineer.of_category s_category_id (b_category_id r) s)
          (FeatureEngineer.of_category a_category_id (b_category_id r) a) r.
Proof.
  unfold FeatureEngineer.feature_rows. destruct b as [| r0 b'];
    [intros [] |].
  set (b := r0 :: b'). rewrite in_flat_map. intros (c & _ & Hf).
  unfold FeatureEngineer.category_rows in Hf. apply in_map_iff in Hf.
  destruct Hf as (r & <- & Hr).
  apply (Permutation_in _ (Permutation_sym (sort_values_perm _ _))) in Hr.
  unfold FeatureEngineer.of_category in Hr. apply filter_In in Hr.
  destruct Hr as [Hin Hc]. apply Z.eqb_eq in Hc. subst c.
  exists r. split; [exact Hin | reflexivity].
Qed.








(** ** Look-back of the history fields *)

Section SortFilter.

Context {A : Type} (key : A -> Z) (bound : Z).

Let before (x : A) : bool := (key x <? bound)%Z.
Let le_key (x y : A) : Prop := (key x <= key y)%Z.

Lemma insert_by_sorted x l :
  StronglySorted le_key l -> StronglySorted le_key (Py.insert_by key x l).
Proof.
  induction 1 as [| y r Hr IH Hy]; simpl.
  - repeat constructor.
  - destruct (key x <=? key y)%Z eqn:E.
    + apply Z.leb_le in E. constructor; [now constructor |].
      constructor; [exact E |].
      eapply Forall_impl; [| exact Hy]. unfold le_key. intros; lia.
    + apply Z.leb_gt in E. constructor; [exact IH |].
      apply (Permutation_Forall (insert_by_perm key x r)).
      constructor; [unfold le_key; lia | exact Hy].
Qed.

Lemma sort_values_sorted l : StronglySorted le_key (Py.sort_values key l).
Proof.
  induction l as [| x r IH]; simpl; [constructor |].
  now apply insert_by_sorted.
Qed.

Lemma filter_insert_by x l :
  StronglySorted le_key l ->
  filter before (Py.insert_by key x l)
  = if before x then Py.insert_by key x (filter before l)
    else filter before l.
Proof.
  induction 1 as [| y r Hr IH Hy]; simpl.
  - destruct (before x); reflexivity.
  - destruct (key x <=? key y)%Z eqn:E; simpl.
    + apply Z.leb_le in E.
      destruct (before x) eqn:Ex; destruct (before y) eqn:Ey; simpl;
        unfold before in Ex, Ey.
      * rewrite (proj2 (Z.leb_le _ _) E). reflexivity.
      * rewrite filter_none; [reflexivity |].
        intros z Hz. unfold before. apply Z.ltb_ge.
        apply Z.ltb_ge in Ey.
        pose proof (proj1 (Forall_forall _ _) Hy z Hz) as Hyz.
        unfold le_key in Hyz. lia.
      * apply Z.ltb_ge in Ex. apply Z.ltb_lt in Ey. lia.
      * reflexivity.
    + rewrite IH. apply Z.leb_gt in E.
      destruct (before x) eqn:Ex; destruct (before y) eqn:Ey; simpl;
        unfold before in Ex, Ey; try reflexivity.
      rewrite (proj2 (Z.leb_gt _ _) E). reflexivity.
Qed.

Lemma filter_sort_values l :
  filter before (Py.sort_values key l)
  = Py.sort_values key (filter before l).
Proof.
  induction l as [| x r IH]; simpl; [reflexivity |].
  rewrite filter_insert_by by apply sort_values_sorted.
  rewrite IH. destruct (before x); reflexivity.
Qed.

End SortFilter.

Lemma filter_filter_implied {A} (f g : A -> bool) l :
  (forall x, f x = true -> g x = true) ->
  filter f (filter g l) = filter f l.
Proof.
  intros H. induction l as [| x r IH]; simpl; [reflexivity |].
  destruct (g x) eqn:Eg; simpl.
  - now rewrite IH.
  - rewrite IH. destruct (f x) eqn:Ef; [| reflexivity].
    rewrite (H x Ef) in Eg. discriminate.
Qed.

Lemma sort_values_nil {A} (key : A -> Z) l :
  Py.sort_values key l = [] -> l = [].
Proof.
  intros H. apply Permutation_nil.
  rewrite <- H. apply Permutation_sym, sort_values_perm.
Qed.

(** Spending of an earlier period that ends before [bound] is found
    among the transactions dated before [bound]. *)
Lemma period_spent_before cs start end_ bound :
  (end_ < bound)%Z ->
  FeatureEngineer.period_spent cs start end_
  = FeatureEngineer.period_spent
      (filter (fun s => (s_txn_date s <? bound)%Z) cs) start end_.
Proof.
  intros H. unfold FeatureEngineer.period_spent. symmetry.
  apply filter_filter_implied. intros x Hx.
  apply andb_prop in Hx. destruct Hx as [_ Hx].
  apply Z.leb_le in Hx. apply Z.ltb_lt. lia.
Qed.

Lemma historical_spent_values_before cs hist bound :
  Forall (fun x => (b_period_end x < bound)%Z) hist ->
  FeatureEngineer.historical_spent_values cs hist
  = FeatureEngineer.historical_spent_values
      (filter (fun s => (s_txn_date s <? bound)%Z) cs) hist.
Proof.
  unfold FeatureEngineer.historical_spent_values.
  induction 1 as [| x r Hx _ IH]; simpl; [reflexivity |].
  rewrite IH. now rewrite <- (period_spent_before cs _ _ bound Hx).
Qed.

(** The history fields are determined by the strictly earlier rows, the
    spending found in their periods and, only when there is no earlier
    row, the row's own planned amount. *)
Lemma history_fields_determined cb cs ca r cb' cs' ca' r' :
  FeatureEngineer.historical_budgets cb (b_period_start r)
  = FeatureEngineer.historical_budgets cb' (b_period_start r') ->
  FeatureEngineer.historical_spent_values cs
    (FeatureEngineer.historical_budgets cb (b_period_start r))
  = FeatureEngineer.historical_spent_values cs'
      (FeatureEngineer.historical_budgets cb' (b_period_start r')) ->
  (FeatureEngineer.historical_budgets cb (b_period_start r) <> [] \/
   b_planned_cents r = b_planned_cents r') ->
  FeatureEngineer.history_fields (FeatureEngineer.feature_row cb cs ca r)
  = FeatureEngineer.history_fields
      (FeatureEngineer.feature_row cb' cs' ca' r').
Proof.
  intros Hh Hsv Hown.
  unfold FeatureEngineer.history_fields, FeatureEngineer.feature_row.
  cbn [historical_mean historical_std_sq historical_min historical_max
       historical_trend historical_count historical_spent_mean
       historical_spent_count historical_combined_mean recent_mean
       recent_trend].
  rewrite <- Hh in Hsv |- *. rewrite <- Hsv.
  destruct (FeatureEngineer.historical_budgets cb (b_period_start r))
    as [| h0 hs].
  - destruct Hown as [Hne | ->]; [contradiction | reflexivity].
  - reflexivity.
Qed.

(** C7 (as the code has it).  Take two runs in which feature
    engineering returns a frame, and a budget period of a category
    starting at the same date in both.  If the category's budget rows
    that start strictly earlier agree, its transactions dated strictly
    earlier agree, every earlier period ends before the period starts,
    and there is an earlier period (or else the period's own planned
    amount agrees), then the history fields of the two feature vectors
    of that period are identical; both vectors are rows of the
    respective feature frames. *)
Theorem history_fields_ignore_later_data :
  forall (b1 b2 : list BudgetRow) (s1 s2 : list SpendingRow)
         (a1 a2 : list AccountRow) (c : Z) (r1 r2 : BudgetRow)
         (features1 features2 : list Features),
    let start := b_period_start r1 in
    let earlier_rows b :=
      filter (fun x => (b_period_start x <? start)%Z)
             (FeatureEngineer.of_category b_category_id c b) in
    let earlier_txns s :=
      filter (fun x => (s_txn_date x <? start)%Z)
             (FeatureEngineer.of_category s_category_id c s) in
    let vector b s a r :=
      FeatureEngineer.feature_row
        (Py.sort_values b_period_start
           (FeatureEngineer.of_category b_category_id c b))
        (FeatureEngineer.of_category s_category_id c s)
        (FeatureEngineer.of_category a_category_id c a) r in
    FeatureEngineer.engineer_features b1 s1 a1 = Py.Ok features1 ->
    FeatureEngineer.engineer_features b2 s2 a2 = Py.Ok features2 ->
    In r1 (FeatureEngineer.of_category b_category_id c b1) ->
    In r2 (FeatureEngineer.of_category b_category_id c b2) ->
    b_period_start r2 = start ->
    earlier_rows b1 = earlier_rows b2 ->
    earlier_txns s1 = earlier_txns s2 ->
    Forall (fun x => (b_period_end x < start)%Z) (earlier_rows b1) ->
    (earlier_rows b1 <> [] \/ b_planned_cents r1 = b_planned_cents r2) ->
    In (vector b1 s1 a1 r1) features1 /\
    In (vector b2 s2 a2 r2) features2 /\
    FeatureEngineer.history_fields (vector b1 s1 a1 r1)
    = FeatureEngineer.history_fields (vector b2 s2 a2 r2).
Proof.
  intros b1 b2 s1 s2 a1 a2 c r1 r2 feats1 feats2
         start earlier_rows earlier_txns vector
         Hf1 Hf2 Hin1 Hin2 Hstart Hrows Htxns Hend Hown.
  apply engineer_features_ok in Hf1, Hf2. subst feats1 feats2.
  split; [now apply row_features_in |].
  split; [now apply row_features_in |].
  assert (Hhist : forall b,
    FeatureEngineer.historical_budgets
      (Py.sort_values b_period_start
         (FeatureEngineer.of_category b_category_id c b)) start
    = Py.sort_values b_period_start (earlier_rows b)).
  { intros b. unfold FeatureEngineer.historical_budgets, earlier_rows.
    apply filter_sort_values. }
  assert (Hend' : forall b, earlier_rows b = earlier_rows b1 ->
    Forall (fun x => (b_period_end x < start)%Z)
      (Py.sort_values b_period_start (earlier_rows b))).
  { intros b ->.
    exact (Permutation_Forall (sort_values_perm _ _) Hend). }
  unfold vector. apply history_fields_determined.
  - rewrite Hstart. fold start. now rewrite !Hhist, Hrows.
  - rewrite Hstart. fold start. rewrite !Hhist, <- Hrows.
    rewrite (historical_spent_values_before _ _ start (Hend' b1 eq_refl)).
    rewrite (historical_spent_values_before
               (FeatureEngineer.of_category s_category_id c s2) _ start
               (Hend' b1 eq_refl)).
    fold (earlier_txns s1). fold (earlier_txns s2). now rewrite Htxns.
  - destruct Hown as [Hne | Heq]; [left | now right].
    fold start. rewrite Hhist. intros E. apply Hne.
    now apply sort_values_nil in E.
Qed.

Lemma history_fields_ignore_later_data_witness :
  exists features_a features_b,
    FeatureEngineer.engineer_features Snapshots.lookback_budgets_a
      Snapshots.lookback_spending_a [] = Py.Ok features_a /\
    FeatureEngineer.engineer_features Snapshots.lookback_budgets_b
      Snapshots.lookback_spending_b [] = Py.Ok features_b /\
    In (Snapshots.vector_of Snapshots.lookback_budgets_a
          Snapshots.lookback_spending_a
          (Snapshots.budget 7 "Rent" 30 59 12000)) features_a /\
    In (Snapshots.vector_of Snapshots.lookback_budgets_b
          Snapshots.lookback_spending_b
          (Snapshots.budget 7 "Rent" 30 59 15000)) features_b /\
    FeatureEngineer.history_fields
      (Snapshots.vector_of Snapshots.lookback_budgets_a
         Snapshots.lookback_spending_a
         (Snapshots.budget 7 "Rent" 30 59 12000))
    = FeatureEngineer.history_fields
        (Snapshots.vector_of Snapshots.lookback_budgets_b
           Snapshots.lookback_spending_b
           (Snapshots.budget 7 "Rent" 30 59 15000)).
Proof.
  exists (FeatureEngineer.feature_rows Snapshots.lookback_budgets_a
            Snapshots.lookback_spending_a []).
  exists (FeatureEngineer.feature_rows Snapshots.lookback_budgets_b
            Snapshots.lookback_spending_b []).
  assert (Ha : FeatureEngineer.engineer_features Snapshots.lookback_budgets_a
                 Snapshots.lookback_spending_a []
               = Py.Ok (FeatureEngineer.feature_rows
                          Snapshots.lookback_budgets_a
                          Snapshots.lookback_spending_a []))
    by (vm_compute; reflexivity).
  assert (Hb : FeatureEngineer.engineer_features Snapshots.lookback_budgets_b
                 Snapshots.lookback_spending_b []
               = Py.Ok (FeatureEngineer.feature_rows
                          Snapshots.lookback_budgets_b
                          Snapshots.lookback_spending_b []))
    by (vm_compute; reflexivity).
  split; [exact Ha |]. split; [exact Hb |].
  apply (history_fields_ignore_later_data
           Snapshots.lookback_budgets_a Snapshots.lookback_budgets_b
           Snapshots.lookback_spending_a Snapshots.lookback_spending_b
           [] [] 7
           (Snapshots.budget 7 "Rent" 30 59 12000)
           (Snapshots.budget 7 "Rent" 30 59 15000) _ _ Ha Hb).
  - vm_compute. right. left. reflexivity.
  - vm_compute. right. left. reflexivity.
  - reflexivity.
  - vm_compute. reflexivity.
  - vm_compute. reflexivity.
  - repeat constructor.
  - left. vm_compute. discriminate.
Defined.

(** C7 fails as stated.  Runs A and B agree on every budget row and
    transaction dated before day 30, and feature engineering returns a
    frame in both.  A transaction of category 7 dated day 70, after the
    period [30, 59] has ended, moves that period's accuracy from 0.5 to
    0.7; and the period's own planned amount is its target amount. *)
Lemma later_data_changes_vector :
  let b := [ Snapshots.budget 7 "Rent" 0 29 10000;
             Snapshots.budget 7 "Rent" 30 59 10000 ] in
  let r := Snapshots.budget 7 "Rent" 30 59 10000 in
  let s_a := [ mkSpendingRow 8 3500 10 ] in
  let s_b := [ mkSpendingRow 8 3500 10; mkSpendingRow 7 2500 70 ] in
  let b' := [ Snapshots.budget 7 "Rent" 0 29 10000;
              Snapshots.budget 7 "Rent" 30 59 12000 ] in
  let r' := Snapshots.budget 7 "Rent" 30 59 12000 in
  (filter (fun x => (s_txn_date x <? 30)%Z) s_a
   = filter (fun x => (s_txn_date x <? 30)%Z) s_b /\
   (exists features_a features_b,
      FeatureEngineer.engineer_features b s_a [] = Py.Ok features_a /\
      FeatureEngineer.engineer_features b s_b [] = Py.Ok features_b /\
      In (Snapshots.vector_of b s_a r) features_a /\
      In (Snapshots.vector_of b s_b r) features_b) /\
   budget_accuracy (Snapshots.vector_of b s_a r) = 0.5 /\
   budget_accuracy (Snapshots.vector_of b s_b r) = 0.7 /\
   Snapshots.vector_of b s_a r <> Snapshots.vector_of b s_b r) /\
  (filter (fun x => (b_period_start x <? 30)%Z) b
   = filter (fun x => (b_period_start x <? 30)%Z) b' /\
   (exists features_a features_a',
      FeatureEngineer.engineer_features b s_a [] = Py.Ok features_a /\
      FeatureEngineer.engineer_features b' s_a [] = Py.Ok features_a' /\
      In (Snapshots.vector_of b s_a r) features_a /\
      In (Snapshots.vector_of b' s_a r') features_a') /\
   target_amount (Snapshots.vector_of b s_a r) = 10000 /\
   target_amount (Snapshots.vector_of b' s_a r') = 12000 /\
   Snapshots.vector_of b s_a r <> Snapshots.vector_of b' s_a r').
Proof.
  cbv zeta. split.
  - split; [reflexivity |].
    split.
    { eexists. eexists.
      split; [vm_compute; reflexivity |].
      split; [vm_compute; reflexivity |].
      split; vm_compute; right; left; reflexivity. }
    split; [vm_compute; reflexivity |].
    split; [vm_compute; reflexivity |].
    intros H. apply (f_equal budget_accuracy) in H.
    vm_compute in H. discriminate.
  - split; [reflexivity |].
    split.
    { eexists. eexists.
      split; [vm_compute; reflexivity |].
      split; [vm_compute; reflexivity |].
      split; vm_compute; right; left; reflexivity. }
    split; [vm_compute; reflexivity |].
    split; [vm_compute; reflexivity |].
    intros H. apply (f_equal target_amount) in H.
    vm_compute in H. discriminate.
Qed.

(* ------------------------------------------------------------------ *)
(** * Further properties of the feature frame *)

Lemma sort_values_length {A} (key : A -> Z) l :
  length (Py.sort_values key l) = length l.
Proof. symmetry. apply Permutation_length, sort_values_perm. Qed.

Lemma filter_neq_idem (c : Z) l :
  filter (fun y => negb (y =? c)%Z) (filter (fun y => negb (y =? c)%Z) l)
  = filter (fun y => negb (y =? c)%Z) l.
Proof. apply filter_filter_implied. auto. Qed.

(** A block of rows of one category contributes that category once. *)
Lemma unique_block (c : Z) (block rest : list Z) :
  block <> [] -> (forall x, In x block -> x = c) ->
  Py.unique (block ++ rest)
  = c :: filter (fun y => negb (y =? c)%Z) (Py.unique rest).
Proof.
  induction block as [| x r IH]; intros Hne Hall; [contradiction |].
  assert (x = c) by (apply Hall; now left). subst x. simpl.
  destruct r as [| y r'].
  - reflexivity.
  - rewrite IH; [| discriminate | intros z Hz; apply Hall; now right].
    simpl. rewrite Z.eqb_refl. simpl. now rewrite filter_neq_idem.
Qed.

Lemma unique_flat_map_blocks (g : Z -> list Features) cats :
  NoDup cats ->
  (forall c, In c cats -> g c <> []) ->
  (forall c f, In f (g c) -> category_id f = c) ->
  Py.unique (map category_id (flat_map g cats)) = cats.
Proof.
  induction 1 as [| c r Hc Hnd IH]; intros Hne Hcat; simpl; [reflexivity |].
  rewrite map_app, (unique_block c).
  - rewrite IH;
      [| intros; apply Hne; now right | intros; eapply Hcat; eassumption].
    f_equal. apply filter_all. intros x Hx.
    apply negb_true_iff, Z.eqb_neq. intros ->. contradiction.
  - intros E. apply map_eq_nil in E. revert E. apply Hne. now left.
  - intros x Hx. apply in_map_iff in Hx. destruct Hx as (f & <- & Hf).
    now apply Hcat.
Qed.

Lemma of_category_nonempty (c : Z) (b : list BudgetRow) :
  In c (map b_category_id b) ->
  FeatureEngineer.of_category b_category_id c b <> [].
Proof.
  intros Hin E. apply in_map_iff in Hin. destruct Hin as (r & Hr & Hin).
  assert (H : In r (FeatureEngineer.of_category b_category_id c b)).
  { apply filter_In. split; [exact Hin | now apply Z.eqb_eq]. }
  rewrite E in H. destruct H.
Qed.

Lemma category_features_nonempty b s a c :
  In c (map b_category_id b) ->
  FeatureEngineer.category_rows b s a c <> [].
Proof.
  intros Hin E. apply (f_equal (@length _)) in E.
  rewrite category_features_length, sort_values_length in E.
  apply length_zero_iff_nil in E. revert E. now apply of_category_nonempty.
Qed.

(** The categories of the feature frame are those of the budget frame,
    in the same order of first appearance. *)
Lemma feature_categories b s a :
  Py.unique (map category_id (FeatureEngineer.feature_rows b s a))
  = Py.unique (map b_category_id b).
Proof.
  unfold FeatureEngineer.feature_rows.
  apply unique_flat_map_blocks.
  - apply unique_nodup.
  - intros c Hc. apply category_features_nonempty. now apply unique_in.
  - intros c f. apply category_features_cat.
Qed.

Lemma filter_split_length {A} (p : A -> bool) l :
  (length (filter p l) + length (filter (fun x => negb (p x)) l)
   = length l)%nat.
Proof.
  induction l as [| x r IH]; simpl; [reflexivity |].
  destruct (p x); simpl; lia.
Qed.

Lemma sum_of_category_lengths {A} (cat : A -> Z) cats (l : list A) :
  NoDup cats ->
  (forall x, In x l -> In (cat x) cats) ->
  list_sum (map (fun c => length (FeatureEngineer.of_category cat c l)) cats)
  = length l.
Proof.
  intros Hnd. revert l. induction Hnd as [| c r Hc Hnd IH]; intros l Hall.
  - destruct l as [| x l']; [reflexivity |].
    destruct (Hall x (or_introl eq_refl)).
  - simpl. rewrite <- (filter_split_length (fun x => (cat x =? c)%Z) l).
    unfold FeatureEngineer.of_category at 1. f_equal.
    rewrite <- (IH (filter (fun x => negb (cat x =? c)%Z) l)).
    + f_equal. apply map_ext_in. intros c' Hc'.
      unfold FeatureEngineer.of_category. f_equal. symmetry.
      apply filter_filter_implied. intros x Hx.
      apply Z.eqb_eq in Hx. apply negb_true_iff, Z.eqb_neq.
      intros E. apply Hc. congruence.
    + intros x Hx. apply filter_In in Hx. destruct Hx as [Hx Hne].
      apply negb_true_iff, Z.eqb_neq in Hne.
      destruct (Hall x Hx) as [E | Hin]; [congruence | exact Hin].
Qed.

Lemma length_flat_map {A B} (g : A -> list B) l :
  length (flat_map g l) = list_sum (map (fun x => length (g x)) l).
Proof.
  induction l as [| x r IH]; simpl; [reflexivity |].
  now rewrite length_app, IH.
Qed.

Lemma feature_rows_length b s a :
  length (FeatureEngineer.feature_rows b s a) = length b.
Proof.
  unfold FeatureEngineer.feature_rows.
  rewrite length_flat_map.
  rewrite <- (sum_of_category_lengths b_category_id
                (Py.unique (map b_category_id b)) b).
  - f_equal. apply map_ext. intros c.
    now rewrite category_features_length, sort_values_length.
  - apply unique_nodup.
  - intros x Hx. apply unique_in. now apply in_map.
Qed.

(** X1.  Feature engineering raises, with a KeyError, exactly when the
    spending frame is empty and some budget row has an earlier period
    of its own category.  In every other case it returns exactly one
    feature row per budget row. *)
Theorem one_feature_row_per_budget_row :
  forall (budgets : list BudgetRow) (spending : list SpendingRow)
         (accounts : list AccountRow),
    match FeatureEngineer.engineer_features budgets spending accounts with
    | Py.Ok features_df =>
        length features_df = length budgets /\
        (spending <> [] \/
         forall r r', In r budgets -> In r' budgets ->
                      b_category_id r' = b_category_id r ->
                      (b_period_start r <= b_period_start r')%Z)
    | Py.Raised e =>
        e = Py.KeyError /\ spending = [] /\
        exists r r', In r budgets /\ In r' budgets /\
                     b_category_id r' = b_category_id r /\
                     (b_period_start r' < b_period_start r)%Z
    end.
Proof.
  intros b s a. rewrite engineer_features_spec.
  destruct s as [| s0 sr].
  - destruct (FeatureEngineer.has_history b) eqn:Eh.
    + split; [reflexivity |]. split; [reflexivity |].
      now apply has_history_spec.
    + split; [apply feature_rows_length |]. right.
      intros r r' Hr Hr' Hc.
      destruct (Z.le_gt_cases (b_period_start r) (b_period_start r'))
        as [Hle | Hgt]; [exact Hle |].
      exfalso.
      assert (FeatureEngineer.has_history b = true); [| congruence].
      apply has_history_spec. exists r, r'. auto.
  - split; [apply feature_rows_length |]. left. discriminate.
Qed.

(** X2.  Categories are engineered independently: whenever feature
    engineering returns a frame in two runs, the feature rows of a
    category are the same in both if the budget, spending and account
    rows of that category are the same, whatever the other categories
    hold. *)
Theorem features_depend_on_own_category_only :
  forall (b1 b2 : list BudgetRow) (s1 s2 : list SpendingRow)
         (a1 a2 : list AccountRow) (c : Z)
         (features1 features2 : list Features),
    FeatureEngineer.engineer_features b1 s1 a1 = Py.Ok features1 ->
    FeatureEngineer.engineer_features b2 s2 a2 = Py.Ok features2 ->
    FeatureEngineer.of_category b_category_id c b1
    = FeatureEngineer.of_category b_category_id c b2 ->
    FeatureEngineer.of_category s_category_id c s1
    = FeatureEngineer.of_category s_category_id c s2 ->
    FeatureEngineer.of_category a_category_id c a1
    = FeatureEngineer.of_category a_category_id c a2 ->
    filter (fun f => (category_id f =? c)%Z) features1
    = filter (fun f => (category_id f =? c)%Z) features2.
Proof.
  intros b1 b2 s1 s2 a1 a2 c f1 f2 H1 H2 Hb Hs Ha.
  apply engineer_features_ok in H1, H2. subst f1 f2.
  rewrite !category_data_eq. unfold FeatureEngineer.category_rows.
  now rewrite Hb, Hs, Ha.
Qed.

Lemma features_depend_on_own_category_only_witness :
  exists features1 features2,
    FeatureEngineer.engineer_features Snapshots.rent_and_food
      Snapshots.one_food_purchase [] = Py.Ok features1 /\
    FeatureEngineer.engineer_features
      [ Snapshots.budget 8 "Food" 0 29 4000;
        Snapshots.budget 9 "Gifts" 0 29 700;
        Snapshots.budget 8 "Food" 30 59 6000 ]
      [ mkSpendingRow 9 650 12; mkSpendingRow 8 3500 10 ]
      [ mkAccountRow 9 3 ] = Py.Ok features2 /\
    filter (fun f => (category_id f =? 8)%Z) features1
    = filter (fun f => (category_id f =? 8)%Z) features2.
Proof.
  eexists. eexists.
  split; [vm_compute; reflexivity |].
  split; [vm_compute; reflexivity |].
  eapply (features_depend_on_own_category_only
            Snapshots.rent_and_food
            [ Snapshots.budget 8 "Food" 0 29 4000;
              Snapshots.budget 9 "Gifts" 0 29 700;
              Snapshots.budget 8 "Food" 30 59 6000 ]
            Snapshots.one_food_purchase
            [ mkSpendingRow 9 650 12; mkSpendingRow 8 3500 10 ]
            [] [ mkAccountRow 9 3 ] 8);
    vm_compute; reflexivity.
Defined.

(** ** Minimum, mean and maximum *)

Lemma fold_min_le (r : list Z) (x : Z) :
  (fold_left Z.min r x <= x)%Z /\
  (forall y, In y r -> (fold_left Z.min r x <= y)%Z).
Proof.
  revert x. induction r as [| z r IH]; intros x; simpl.
  - split; [lia | intros y []].
  - destruct (IH (Z.min x z)) as [H1 H2]. split; [lia |].
    intros y [<- | Hy]; [lia | now apply H2].
Qed.

Lemma fold_max_ge (r : list Z) (x : Z) :
  (x <= fold_left Z.max r x)%Z /\
  (forall y, In y r -> (y <= fold_left Z.max r x)%Z).
Proof.
  revert x. induction r as [| z r IH]; intros x; simpl.
  - split; [lia | intros y []].
  - destruct (IH (Z.max x z)) as [H1 H2]. split; [lia |].
    intros y [<- | Hy]; [lia | now apply H2].
Qed.

Lemma zmin_le d l y : In y l -> (Py.zmin d l <= y)%Z.
Proof.
  destruct l as [| x r]; [intros [] |]. simpl.
  destruct (fold_min_le r x) as [H1 H2].
  intros [<- | Hy]; [exact H1 | now apply H2].
Qed.

Lemma zmax_ge d l y : In y l -> (y <= Py.zmax d l)%Z.
Proof.
  destruct l as [| x r]; [intros [] |]. simpl.
  destruct (fold_max_ge r x) as [H1 H2].
  intros [<- | Hy]; [exact H1 | now apply H2].
Qed.

Lemma sum_bounds (lo hi : Q) (l : list Q) :
  (forall x, In x l -> lo <= x <= hi) ->
  lo * Py.exact (Py.len l) <= Py.sum l <= hi * Py.exact (Py.len l).
Proof.
  unfold Py.exact, Py.len.
  induction l as [| x r IH]; intros H.
  - change (inject_Z (Z.of_nat (length (@nil Q)))) with 0.
    change (Py.sum []) with 0. lra.
  - destruct (H x (or_introl eq_refl)) as [Hl Hh].
    destruct IH as [IHl IHh]; [intros; apply H; now right |].
    change (length (x :: r)) with (S (length r)).
    rewrite Nat2Z.inj_succ. unfold Z.succ. rewrite inject_Z_plus.
    simpl Py.sum. change (inject_Z 1) with 1.
    set (n := inject_Z (Z.of_nat (length r))) in *.
    setoid_replace (lo * (n + 1)) with (lo * n + lo) by ring.
    setoid_replace (hi * (n + 1)) with (hi * n + hi) by ring.
    split; lra.
Qed.

Lemma len_pos {A} (l : list A) : l <> [] -> 0 < Py.exact (Py.len l).
Proof.
  intros H. unfold Py.exact, Py.len. destruct l; [contradiction |].
  rewrite <- (Zlt_Qlt 0). simpl. lia.
Qed.

Lemma mean_bounds (lo hi : Q) (l : list Q) :
  l <> [] -> (forall x, In x l -> lo <= x <= hi) ->
  lo <= Py.mean l <= hi.
Proof.
  intros Hne H. pose proof (len_pos l Hne) as Hn.
  destruct (sum_bounds lo hi l H) as [Hl Hh]. unfold Py.mean. split.
  - apply Qle_shift_div_l; assumption.
  - apply Qle_shift_div_r; assumption.
Qed.





(** ** The trend slope *)

Lemma sum_map_ext {A} (f g : A -> Q) l :
  (forall x, In x l -> f x == g x) ->
  Py.sum (map f l) == Py.sum (map g l).
Proof.
  induction l as [| x r IH]; intros H; simpl; [reflexivity |].
  rewrite (H x (or_introl eq_refl)), IH; [reflexivity |].
  intros; apply H; now right.
Qed.




Lemma square_nonneg (t : Q) : 0 <= t * t.
Proof.
  destruct (Qlt_le_dec t 0).
  - setoid_replace (t * t) with ((- t) * (- t)) by ring.
    apply Qmult_le_0_compat; lra.
  - apply Qmult_le_0_compat; lra.
Qed.







(* ------------------------------------------------------------------ *)
(** * Further properties of the decision policy *)

Ltac split_ifs :=
  repeat match goal with
  | H : context [if ?b then _ else _] |- _ =>
      let E := fresh "E" in destruct b eqn:E
  end.

(** X5.  The decision for a category can fail in one way only: the
    accurate-budgeter check divides by the historical budget average,
    so it raises ZeroDivisionError exactly when that average is zero
    while the category has at least three data points, an accuracy of at
    least 0.2, some model prediction and a positive spending average.
    In particular the variables are never left unset after the safety
    check. *)
Theorem decide_raises_only_on_zero_budget :
  forall (category_data : list Features) (latest_data : Features)
         (predictions : list Q) (in_cluster : bool)
         (peer_data : option Peer.PeerData) (target_month : Z),
    let zero_budget :=
      (3 <= Py.len category_data)%Z /\
      0.2 <= budget_accuracy latest_data /\
      predictions <> [] /\
      0 < historical_spent_mean latest_data /\
      historical_mean latest_data == 0 in
    (zero_budget ->
     Policy.decide category_data latest_data predictions in_cluster
       peer_data target_month = Py.Raised Py.ZeroDivisionError) /\
    (forall e,
        Policy.decide category_data latest_data predictions in_cluster
          peer_data target_month = Py.Raised e ->
        e = Py.ZeroDivisionError /\ zero_budget).
Proof.
  intros cd latest preds ic pd tm zero_budget. split.
  - intros (Hn & Hacc & Hp & Hs & Hb).
    unfold Policy.decide, Policy.branch_chain. cbv zeta.
    rewrite (proj2 (Z.ltb_ge _ _) Hn), (proj2 (Qltb_false _ _) Hacc).
    destruct preds; [contradiction |]. cbn [Policy.nonempty andb].
    rewrite (proj2 (Qltb_true _ _) Hs). unfold Py.div.
    now rewrite (Qeq_eq_bool _ _ Hb).
  - intros e H. unfold Policy.decide, Policy.branch_chain in H.
    cbv zeta in H. unfold Py.div, Policy.peer_branch in H.
    destruct (Py.len cd <? 3)%Z eqn:E1; [discriminate |].
    destruct (Py.Qltb (budget_accuracy latest) 0.2) eqn:E2; [discriminate |].
    destruct (Policy.nonempty preds) eqn:E3;
      destruct (Py.Qltb 0 (historical_spent_mean latest)) eqn:E4;
      cbn [andb Py.bind] in H.
    + destruct (Qeq_bool (historical_mean latest) 0) eqn:E5.
      * injection H as <-. split; [reflexivity |].
        repeat split.
        -- now apply Z.ltb_ge.
        -- now apply Qltb_false.
        -- destruct preds; discriminate.
        -- now apply Qltb_true.
        -- now apply Qeq_bool_eq.
      * exfalso. cbn [Py.bind] in H. split_ifs; try discriminate;
          destruct pd; split_ifs; discriminate.
    + exfalso. split_ifs; try discriminate;
        destruct pd; split_ifs; discriminate.
    + exfalso. split_ifs; try discriminate;
        destruct pd; split_ifs; discriminate.
    + exfalso. split_ifs; try discriminate;
        destruct pd; split_ifs; discriminate.
Qed.

Lemma decide_raises_only_on_zero_budget_witness :
  Policy.decide
    (FeatureEngineer.category_rows Snapshots.zero_plan_budgets
       Snapshots.zero_plan_spending [] 9)
    (Snapshots.vector_of Snapshots.zero_plan_budgets
       Snapshots.zero_plan_spending (Snapshots.budget 9 "Gifts" 60 89 5000))
    [12000] false None 6
  = Py.Raised Py.ZeroDivisionError.
Proof.
  apply (proj1 (decide_raises_only_on_zero_budget _ _ _ _ _ _)).
  repeat split; try (vm_compute; (reflexivity || discriminate)).
Defined.

(** ** Order and coverage of the returned list *)

Section ConfidenceOrder.

Let by_confidence (p q : Policy.MLBudgetPrediction) : Prop :=
  Policy.confidence_score q <= Policy.confidence_score p.

Lemma insert_desc_sorted p l :
  StronglySorted by_confidence l ->
  StronglySorted by_confidence (Policy.insert_desc p l).
Proof.
  induction 1 as [| q r Hr IH Hq]; simpl.
  - repeat constructor.
  - destruct (Qle_bool _ _) eqn:E.
    + apply Qle_bool_iff in E. constructor; [now constructor |].
      constructor; [exact E |].
      eapply Forall_impl; [| exact Hq]. unfold by_confidence.
      intros x Hx. lra.
    + assert (Hlt : Policy.confidence_score p < Policy.confidence_score q).
      { apply Qnot_le_lt. intros Hle. apply Qle_bool_iff in Hle.
        congruence. }
      constructor; [exact IH |].
      apply (Permutation_Forall (insert_desc_perm p r)).
      constructor; [unfold by_confidence; lra | exact Hq].
Qed.

Lemma sort_by_confidence_sorted l :
  StronglySorted by_confidence (Policy.sort_by_confidence l).
Proof.
  induction l as [| p r IH]; simpl; [constructor |].
  now apply insert_desc_sorted.
Qed.

End ConfidenceOrder.

(** X6.  The returned predictions are ordered by confidence, highest
    first: every prediction has a confidence at least as high as each
    prediction after it. *)
Theorem predictions_sorted_by_confidence :
  forall (w : Policy.World) (user_id target_month target_year : Z),
    StronglySorted
      (fun p q => Policy.confidence_score q <= Policy.confidence_score p)
      (Policy.predict_with_ml w user_id target_month target_year).
Proof.
  intros w u tm ty. unfold Policy.predict_with_ml.
  destruct (Policy.predict_all w u tm ty) as [ps | e].
  - apply sort_by_confidence_sorted.
  - constructor.
Qed.

Lemma loop_categories step cats ps :
  (forall c p, step c = Py.Ok p -> Policy.p_category_id p = c) ->
  Forall2 (fun c p => step c = Py.Ok p) cats ps ->
  map Policy.p_category_id ps = cats.
Proof.
  intros Hstep. induction 1 as [| c p cs qs Hc _ IH]; simpl;
    [reflexivity |].
  now rewrite (Hstep _ _ Hc), IH.
Qed.

Lemma predict_category_id w models feats u tm ty c p :
  Policy.predict_category w models feats u tm ty c = Py.Ok p ->
  Policy.p_category_id p = c.
Proof.
  intros H. destruct (predict_category_decision _ _ _ _ _ _ _ _ H)
    as (latest & rest & d & _ & _ & ->). reflexivity.
Qed.

(** X7.  No category is predicted twice, and unless the request is
    abandoned with an empty list, the predicted categories are exactly
    the distinct categories of the budget frame. *)
Theorem one_prediction_per_budget_category :
  forall (w : Policy.World) (user_id target_month target_year : Z),
    let predicted :=
      map Policy.p_category_id
          (Policy.predict_with_ml w user_id target_month target_year) in
    NoDup predicted /\
    (predicted = [] \/
     Permutation predicted
       (Py.unique (map b_category_id (Policy.budgets_df w)))).
Proof.
  intros w u tm ty predicted. subst predicted.
  unfold Policy.predict_with_ml, Policy.predict_all.
  destruct (FeatureEngineer.engineer_features _ _ _) as [feats | e0] eqn:Ef;
    [| split; [constructor | now left]].
  apply engineer_features_ok in Ef. subst feats. cbn [Py.bind].
  rewrite feature_categories.
  destruct (Policy.predict_loop _ _) as [ps | e] eqn:E.
  - apply predict_loop_ok in E.
    apply loop_categories in E; [| intros c p; apply predict_category_id].
    assert (Hperm : Permutation
              (map Policy.p_category_id (Policy.sort_by_confidence ps))
              (Py.unique (map b_category_id (Policy.budgets_df w)))).
    { rewrite <- E. apply Permutation_map, Permutation_sym,
        sort_by_confidence_perm. }
    split; [| now right].
    apply (Permutation_NoDup (Permutation_sym Hperm)), unique_nodup.
  - split; [constructor | now left].
Qed.

(** ** The arms that do not use the models *)

Lemma samples_float (n : Z) : (3 <= n)%Z -> 3 <= Py.float n.
Proof. intros H. apply (float_ge 3); [simpl |]; lia. Qed.

Lemma base_confidence_range (n : Z) :
  (3 <= n)%Z -> 0.54 <= Policy.base_confidence_of n <= 0.9.
Proof.
  intros H. split; [now apply base_confidence_lower |].
  apply base_confidence_upper.
Qed.

(** X9.  With at least three data points and an accuracy below 0.2 the
    very-low-accuracy arm decides, whatever the models, the peers and
    the spending average are: the amount is the historical budget
    average, and the confidence is base_confidence * 0.8 * 0.7, which
    the clamp leaves unchanged. *)
Theorem very_low_accuracy_arm :
  forall (category_data : list Features) (latest_data : Features)
         (predictions : list Q) (in_cluster : bool)
         (peer_data : option Peer.PeerData) (target_month : Z),
    (3 <= Py.len category_data)%Z ->
    budget_accuracy latest_data < 0.2 ->
    exists d,
      Policy.decide category_data latest_data predictions in_cluster
        peer_data target_month = Py.Ok d /\
      Policy.d_amount d = historical_mean latest_data /\
      Policy.d_label d = "Historical Average (very low accuracy)"%string /\
      Policy.d_confidence d
      == Policy.base_confidence_of (Py.len category_data) * 0.8 * 0.7.
Proof.
  intros cd latest preds ic pd tm Hn Hacc.
  pose proof (base_confidence_range _ Hn) as Hb.
  unfold Policy.decide, Policy.branch_chain. cbv zeta.
  rewrite (proj2 (Z.ltb_ge _ _) Hn), (proj2 (Qltb_true _ _) Hacc).
  eexists. split; [reflexivity |].
  cbn [Py.bind Policy.d_amount Policy.d_label Policy.d_confidence].
  split; [reflexivity |]. split; [reflexivity |].
  assert (Hf : Policy.accuracy_factor_of (budget_accuracy latest) = 0.8).
  { unfold Policy.accuracy_factor_of.
    rewrite (proj2 (Qltb_false 0.7 _)) by lra.
    now rewrite (proj2 (Qltb_true _ 0.3)) by lra. }
  rewrite Hf. apply clamp_id. lra.
Qed.

Lemma very_low_accuracy_arm_witness :
  exists d,
    Policy.decide
      (FeatureEngineer.category_rows
         [ Snapshots.budget 7 "Rent" 0 29 10000;
           Snapshots.budget 7 "Rent" 30 59 10000;
           Snapshots.budget 7 "Rent" 60 89 10000 ]
         [ mkSpendingRow 7 900 70 ] [] 7)
      (Snapshots.vector_of
         [ Snapshots.budget 7 "Rent" 0 29 10000;
           Snapshots.budget 7 "Rent" 30 59 10000;
           Snapshots.budget 7 "Rent" 60 89 10000 ]
         [ mkSpendingRow 7 900 70 ]
         (Snapshots.budget 7 "Rent" 60 89 10000))
      [12000] false None 6 = Py.Ok d /\
    Policy.d_amount d == 10000 /\
    Policy.d_confidence d == 0.3024.
Proof.
  destruct (very_low_accuracy_arm
      (FeatureEngineer.category_rows
         [ Snapshots.budget 7 "Rent" 0 29 10000;
           Snapshots.budget 7 "Rent" 30 59 10000;
           Snapshots.budget 7 "Rent" 60 89 10000 ]
         [ mkSpendingRow 7 900 70 ] [] 7)
      (Snapshots.vector_of
         [ Snapshots.budget 7 "Rent" 0 29 10000;
           Snapshots.budget 7 "Rent" 30 59 10000;
           Snapshots.budget 7 "Rent" 60 89 10000 ]
         [ mkSpendingRow 7 900 70 ]
         (Snapshots.budget 7 "Rent" 60 89 10000))
      [12000] false None 6) as (d & Hd & Ha & _ & Hc).
  - vm_compute. discriminate.
  - vm_compute. reflexivity.
  - exists d. split; [exact Hd |]. split.
    + rewrite Ha. vm_compute. reflexivity.
    + rewrite Hc. vm_compute. reflexivity.
Defined.

(** X10.  Without any model prediction, a category with at least three
    feature rows and an accuracy of at least 0.2 whose user is in no
    cluster (or that has five or more rows) takes the last arm: the
    amount is the plain mean of the target amounts of all the rows of
    the category, the latest included (not the historical mean of the
    latest row, which leaves the latest period out), with confidence
    base_confidence * 0.7 and label "Historical Average". *)
Theorem no_model_fallback_is_plain_mean :
  forall (category_data : list Features) (latest_data : Features)
         (in_cluster : bool) (peer_data : option Peer.PeerData)
         (target_month : Z),
    (3 <= Py.len category_data)%Z ->
    0.2 <= budget_accuracy latest_data ->
    ((5 <= Py.len category_data)%Z \/ in_cluster = false) ->
    exists d,
      Policy.decide category_data latest_data [] in_cluster peer_data
        target_month = Py.Ok d /\
      Policy.d_amount d = Py.mean (map target_amount category_data) /\
      Policy.d_confidence d
      == Policy.base_confidence_of (Py.len category_data) * 0.7 /\
      Policy.d_label d = "Historical Average"%string.
Proof.
  intros cd latest ic pd tm Hn Hacc Hpeer.
  pose proof (base_confidence_range _ Hn) as Hb.
  unfold Policy.decide, Policy.branch_chain. cbv zeta.
  rewrite (proj2 (Z.ltb_ge _ _) Hn), (proj2 (Qltb_false _ _) Hacc).
  cbn [Policy.nonempty andb Py.bind].
  assert (Hp : ((Py.len cd <? 5)%Z && ic) = false).
  { destruct Hpeer as [H5 | ->].
    - now rewrite (proj2 (Z.ltb_ge _ _) H5).
    - apply andb_false_r. }
  rewrite Hp. eexists. split; [reflexivity |].
  cbn [Policy.d_amount Policy.d_label Policy.d_confidence].
  split; [| split; [apply clamp_id; lra | reflexivity]].
  unfold Policy._statistical_fallback_prediction.
  destruct cd as [| f0 cd']; [| reflexivity].
  exfalso. revert Hn. unfold Py.len. simpl. lia.
Qed.

Lemma no_model_fallback_is_plain_mean_witness :
  let budgets := [ Snapshots.budget 7 "Rent" 0 29 9000;
                   Snapshots.budget 7 "Rent" 30 59 10000;
                   Snapshots.budget 7 "Rent" 60 89 14000 ] in
  let spending := [ mkSpendingRow 7 9500 70 ] in
  let latest :=
    Snapshots.vector_of budgets spending
      (Snapshots.budget 7 "Rent" 60 89 14000) in
  exists features_df d,
    FeatureEngineer.engineer_features budgets spending [] = Py.Ok features_df /\
    rev features_df = latest :: tl (rev features_df) /\
    Policy.decide features_df latest [] false None 6 = Py.Ok d /\
    historical_mean latest == 9500 /\
    Policy.d_amount d == 11000 /\
    Policy.d_label d = "Historical Average"%string.
Proof.
  intros budgets spending latest.
  exists (FeatureEngineer.feature_rows budgets spending []).
  destruct (no_model_fallback_is_plain_mean
              (FeatureEngineer.feature_rows budgets spending [])
              latest false None 6)
    as (d & Hd & Ha & _ & Hl).
  - vm_compute. discriminate.
  - vm_compute. discriminate.
  - now right.
  - exists d. split; [vm_compute; reflexivity |].
    split; [vm_compute; reflexivity |].
    split; [exact Hd |].
    split; [vm_compute; reflexivity |].
    split; [rewrite Ha; vm_compute; reflexivity | exact Hl].
Defined.

(** X11.  With fewer than five budget rows in the request no model is
    built, so the returned predictions do not depend on the fitting
    stage at all. *)
Theorem small_requests_ignore_the_models :
  forall (w : Policy.World) (fit' : list Features -> Policy.Models)
         (user_id target_month target_year : Z),
    (length (Policy.budgets_df w) < 5)%nat ->
    Policy.predict_with_ml w user_id target_month target_year
    = Policy.predict_with_ml
        (Policy.mkWorld (Policy.budgets_df w) (Policy.spending_df w)
           (Policy.accounts_df w) fit' (Policy.user_clusters w)
           (Policy.peer_db w))
        user_id target_month target_year.
Proof.
  intros w fit' u tm ty Hlen.
  set (b := Policy.budgets_df w) in *.
  pose proof (feature_rows_length b (Policy.spending_df w)
                (Policy.accounts_df w)) as Hfeat.
  unfold Policy.predict_with_ml, Policy.predict_all, Policy.build_ml_models.
  cbn [Policy.budgets_df Policy.spending_df Policy.accounts_df Policy.fit
       Policy.user_clusters Policy.peer_db].
  fold b.
  destruct (FeatureEngineer.engineer_features b _ _) as [feats | e] eqn:Ef;
    [| reflexivity].
  apply engineer_features_ok in Ef. subst feats. cbn [Py.bind].
  unfold Py.len. rewrite Hfeat.
  assert (E : (Z.of_nat (length b) <? 5)%Z = true)
    by (apply Z.ltb_lt; lia).
  rewrite E. reflexivity.
Qed.

Lemma small_requests_ignore_the_models_witness :
  Policy.predict_with_ml
    (Policy.mkWorld [ Snapshots.budget 7 "Rent" 0 29 10000;
                      Snapshots.budget 7 "Rent" 30 59 10000;
                      Snapshots.budget 7 "Rent" 60 89 10000 ]
       [ mkSpendingRow 7 9000 10 ] [] Snapshots.fit_linear_12000 []
       Snapshots.no_peer_rows)
    1 6 2025
  = Policy.predict_with_ml
      (Policy.mkWorld [ Snapshots.budget 7 "Rent" 0 29 10000;
                        Snapshots.budget 7 "Rent" 30 59 10000;
                        Snapshots.budget 7 "Rent" 60 89 10000 ]
         [ mkSpendingRow 7 9000 10 ] [] (fun _ => Policy.no_models) []
         Snapshots.no_peer_rows)
      1 6 2025.
Proof.
  apply (small_requests_ignore_the_models
           (Policy.mkWorld [ Snapshots.budget 7 "Rent" 0 29 10000;
                             Snapshots.budget 7 "Rent" 30 59 10000;
                             Snapshots.budget 7 "Rent" 60 89 10000 ]
              [ mkSpendingRow 7 9000 10 ] [] Snapshots.fit_linear_12000 []
              Snapshots.no_peer_rows)).
  simpl. lia.
Defined.

(** ** Predictions are never negative *)

Lemma sum_nonneg (l : list Q) : Forall (fun x => 0 <= x) l -> 0 <= Py.sum l.
Proof. induction 1; simpl; lra. Qed.

Lemma mean_nonneg (l : list Q) : Forall (fun x => 0 <= x) l -> 0 <= Py.mean l.
Proof.
  intros H. unfold Py.mean, Qdiv.
  apply Qmult_le_0_compat; [now apply sum_nonneg |].
  apply Qinv_le_0_compat. unfold Py.exact, Py.len.
  rewrite <- (Zle_Qle 0). lia.
Qed.

Lemma blend_nonneg (h pb w : Q) :
  0 <= h -> 0 <= pb -> 0 <= w <= 1 -> 0 <= h * (1 - w) + pb * w.
Proof.
  intros Hh Hp [H0 H1].
  assert (A : 0 <= h * (1 - w)) by (apply Qmult_le_0_compat; lra).
  assert (B : 0 <= pb * w) by (apply Qmult_le_0_compat; lra).
  lra.
Qed.

Lemma int_nonneg (q : Q) : 0 <= q -> (0 <= Py.int q)%Z.
Proof.
  intros H. unfold Py.int. apply Z.quot_pos; [| lia].
  unfold Qle in H. simpl in H. lia.
Qed.

Lemma ml_predicted_nonneg h preds :
  0 <= h -> Forall (fun x => 0 <= x) preds ->
  0 <= Policy.ml_predicted_amount_of h preds.
Proof.
  intros Hh Hp. unfold Policy.ml_predicted_amount_of.
  destruct preds; [exact Hh | now apply mean_nonneg].
Qed.

Lemma fallback_nonneg cd tm :
  Forall (fun f => 0 <= target_amount f) cd ->
  0 <= Policy._statistical_fallback_prediction cd tm.
Proof.
  intros H. unfold Policy._statistical_fallback_prediction.
  destruct cd as [| f r]; [lra |]. apply mean_nonneg.
  apply Forall_forall. intros x Hx. apply in_map_iff in Hx.
  destruct Hx as (g & <- & Hg). exact (proj1 (Forall_forall _ _) H g Hg).
Qed.

Ltac resolve_minmax :=
  unfold Py.max, Py.min; qcases; lra.

Lemma decide_amount_nonneg cd latest preds ic pd tm d :
  0 <= historical_mean latest ->
  0 <= historical_spent_mean latest ->
  Forall (fun x => 0 <= x) preds ->
  Forall (fun f => 0 <= target_amount f) cd ->
  (forall p, pd = Some p -> 0 <= Peer.avg_peer_budget p) ->
  Policy.decide cd latest preds ic pd tm = Py.Ok d ->
  0 <= Policy.d_amount d.
Proof.
  intros Hh Hs Hp Hcd Hpd H.
  pose proof (ml_predicted_nonneg _ _ Hh Hp) as Hml.
  pose proof (fallback_nonneg cd tm Hcd) as Hfb.
  unfold Policy.decide, Policy.branch_chain in H. cbv zeta in H.
  unfold Py.div, Policy.peer_branch in H.
  set (ml := Policy.ml_predicted_amount_of _ _) in *.
  set (fb := Policy._statistical_fallback_prediction _ _) in *.
  set (h := historical_mean latest) in *.
  set (s := historical_spent_mean latest) in *.
  destruct pd as [p |];
    [pose proof (Hpd p eq_refl) as Hpb | clear Hpd];
    split_ifs; cbn in H; split_ifs; cbn in H; try discriminate;
    injection H as <-; cbn [Policy.d_amount];
    try resolve_minmax.
  all: apply blend_nonneg; try assumption.
  all: match goal with
       | E : (3 <=? ?n)%Z = true |- _ =>
           apply Z.leb_le in E; apply samples_float in E;
           assert (0.3 <= Py.float n / 10)
             by (apply Qle_shift_div_l; lra)
       end.
  all: resolve_minmax.
Qed.

Lemma spent_total_filter (p : SpendingRow -> bool) rows :
  Forall (fun s => (0 <= s_spent_cents s)%Z) rows ->
  (0 <= fold_right Z.add 0 (map s_spent_cents (filter p rows))
   <= fold_right Z.add 0 (map s_spent_cents rows))%Z.
Proof.
  induction 1 as [| x r Hx _ IH]; simpl; [lia |].
  destruct (p x); simpl; lia.
Qed.

(** Without overflow the 64-bit sum of non-negative amounts is their
    sum, and its double is not negative. *)
Lemma spent_sum_nonneg rows :
  Forall (fun s => (0 <= s_spent_cents s)%Z) rows ->
  (fold_right Z.add 0 (map s_spent_cents rows) < 2 ^ 63)%Z ->
  0 <= FeatureEngineer.spent_sum rows.
Proof.
  intros Hpos Hlt. unfold FeatureEngineer.spent_sum.
  apply float_nonneg. rewrite int64_sum_exact.
  - apply fold_add_nonneg. apply Forall_forall. intros z Hz.
    apply in_map_iff in Hz. destruct Hz as (s & <- & Hs).
    exact (proj1 (Forall_forall _ _) Hpos s Hs).
  - apply Forall_forall. intros z Hz.
    apply in_map_iff in Hz. destruct Hz as (s & <- & Hs).
    exact (proj1 (Forall_forall _ _) Hpos s Hs).
  - exact Hlt.
Qed.

Lemma spent_values_nonneg cs hist :
  Forall (fun s => (0 <= s_spent_cents s)%Z) cs ->
  (fold_right Z.add 0 (map s_spent_cents cs) < 2 ^ 63)%Z ->
  Forall (fun x => 0 <= x) (FeatureEngineer.historical_spent_values cs hist).
Proof.
  intros Hcs Hlt. apply Forall_forall. intros x Hx.
  unfold FeatureEngineer.historical_spent_values in Hx.
  apply in_flat_map in Hx. destruct Hx as (past & _ & Hx).
  destruct (FeatureEngineer.period_spent cs _ _) as [| s0 ps] eqn:E;
    [destruct Hx |].
  destruct Hx as [<- | []]. rewrite <- E.
  unfold FeatureEngineer.period_spent.
  pose proof (spent_total_filter
                (fun s => (b_period_start past <=? s_txn_date s)%Z
                          && (s_txn_date s <=? b_period_end past)%Z)
                cs Hcs) as Hf.
  apply spent_sum_nonneg; [| lia].
  apply Forall_forall. intros y Hy. apply filter_In in Hy.
  exact (proj1 (Forall_forall _ _) Hcs y (proj1 Hy)).
Qed.

Lemma features_nonneg b s a f :
  Forall (fun r => (0 <= b_planned_cents r)%Z) b ->
  Forall (fun x => (0 <= s_spent_cents x)%Z) s ->
  (fold_right Z.add 0 (map s_spent_cents s) < 2 ^ 63)%Z ->
  In f (FeatureEngineer.feature_rows b s a) ->
  0 <= target_amount f /\ 0 <= historical_mean f /\
  0 <= historical_spent_mean f.
Proof.
  intros Hb Hs Hlt Hin.
  destruct (engineer_features_inv _ _ _ _ Hin) as (r & Hr & ->).
  pose proof (float_nonneg _ (proj1 (Forall_forall _ _) Hb r Hr)) as Hown.
  unfold FeatureEngineer.feature_row.
  cbn [target_amount historical_mean historical_spent_mean].
  set (cs := FeatureEngineer.of_category s_category_id (b_category_id r) s).
  assert (Hcs : Forall (fun x => (0 <= s_spent_cents x)%Z) cs).
  { apply Forall_forall. intros x Hx. unfold cs in Hx.
    unfold FeatureEngineer.of_category in Hx. apply filter_In in Hx.
    exact (proj1 (Forall_forall _ _) Hs x (proj1 Hx)). }
  assert (Hcl : (fold_right Z.add 0 (map s_spent_cents cs) < 2 ^ 63)%Z).
  { pose proof (spent_total_filter
                  (fun x => (s_category_id x =? b_category_id r)%Z) s Hs).
    unfold cs, FeatureEngineer.of_category. lia. }
  split; [exact Hown |].
  destruct (FeatureEngineer.historical_budgets _ _) as [| h0 hs] eqn:E.
  - split; [exact Hown | lra].
  - split.
    + apply mean_nonneg. apply Forall_forall. intros x Hx.
      unfold FeatureEngineer.planned in Hx. apply in_map_iff in Hx.
      destruct Hx as (r' & <- & Hr'). apply float_nonneg.
      apply (proj1 (Forall_forall _ _) Hb).
      rewrite <- E in Hr'. unfold FeatureEngineer.historical_budgets in Hr'.
      apply filter_In in Hr'. destruct Hr' as [Hr' _].
      apply (Permutation_in _ (Permutation_sym (sort_values_perm _ _)))
        in Hr'.
      unfold FeatureEngineer.of_category in Hr'. now apply filter_In in Hr'.
    + pose proof (spent_values_nonneg cs (h0 :: hs) Hcs Hcl) as Hv.
      destruct (FeatureEngineer.historical_spent_values cs (h0 :: hs));
        [lra | now apply mean_nonneg].
Qed.

Lemma predictions_of_nonneg models latest tm ty :
  Forall (fun x => 0 <= x) (Policy.predictions_of models latest tm ty).
Proof.
  unfold Policy.predictions_of. apply Forall_app. split.
  - destruct (Policy.linear models) as [m |]; [| constructor].
    destruct (m latest tm ty) as [q |]; [| constructor].
    destruct (Qle_bool 0 q) eqn:E; [| constructor].
    apply Qle_bool_iff in E. now repeat constructor.
  - destruct (Policy.forest models) as [m |]; [| constructor].
    destruct (m latest tm ty) as [q |]; [| constructor].
    destruct (Qle_bool 0 q) eqn:E; [| constructor].
    apply Qle_bool_iff in E. now repeat constructor.
Qed.

Lemma peer_budget_positive db u c uc hm pd :
  Peer.get_peer_recommendations db u c uc hm = Some pd ->
  0 < Peer.avg_peer_budget pd.
Proof.
  unfold Peer.get_peer_recommendations.
  destruct (Peer.lookup u uc) as [info |]; [| discriminate].
  destruct (Peer.similarity_peers info) as [| u0 us]; [discriminate |].
  destruct (Peer.execute db _ c hm) as [rows |]; [| discriminate].
  unfold Peer.select_aggregate.
  destruct (filter _ rows) as [| r0 rs] eqn:F; cbv zeta;
    cbn [Peer.r_avg_peer_budget Peer.truthy]; [discriminate |].
  destruct (Qeq_bool _ 0); cbn [negb]; [discriminate |].
  intros H. injection H as <-. cbn [Peer.avg_peer_budget Peer.or0].
  apply mean_pos; [discriminate |].
  apply Forall_forall. intros x Hx.
  apply (in_map_iff (fun r => Py.exact (Peer.planned_cents r)) (r0 :: rs))
    in Hx.
  destruct Hx as (r & <- & Hr). rewrite <- F in Hr.
  apply filter_In in Hr. destruct Hr as [_ Hr].
  apply Z.ltb_lt in Hr. unfold Py.exact. now rewrite <- (Zlt_Qlt 0).
Qed.

(** X12.  When no planned amount and no spending amount of the request
    is negative and the spending amounts together stay below 2^63 cents
    (so that no 64-bit sum wraps), no returned prediction is negative:
    the predicted amount and the two reported averages are all at least
    zero, whichever arm decided and whatever the models say. *)
Theorem predictions_are_never_negative :
  forall (w : Policy.World) (user_id target_month target_year : Z)
         (p : Policy.MLBudgetPrediction),
    Forall (fun r => (0 <= b_planned_cents r)%Z) (Policy.budgets_df w) ->
    Forall (fun s => (0 <= s_spent_cents s)%Z) (Policy.spending_df w) ->
    (fold_right Z.add 0 (map s_spent_cents (Policy.spending_df w))
     < 2 ^ 63)%Z ->
    In p (Policy.predict_with_ml w user_id target_month target_year) ->
    (0 <= Policy.predicted_amount_cents p)%Z /\
    (0 <= Policy.historical_avg_cents p)%Z /\
    (0 <= Policy.historical_spending_avg_cents p)%Z.
Proof.
  intros w u tm ty p Hb Hs Hlt Hin.
  destruct (predict_with_ml_in _ _ _ _ _ Hin) as (feats & c & Hf & _ & Hc).
  apply engineer_features_ok in Hf.
  destruct (predict_category_decision _ _ _ _ _ _ _ _ Hc)
    as (latest & rest & d & Hrev & Hd & ->).
  cbn [Policy.predicted_amount_cents Policy.historical_avg_cents
       Policy.historical_spending_avg_cents].
  assert (Hrows : forall f,
            In f (filter (fun f => (category_id f =? c)%Z) feats) ->
            0 <= target_amount f /\ 0 <= historical_mean f /\
            0 <= historical_spent_mean f).
  { intros f Hp. apply filter_In in Hp. rewrite Hf in Hp.
    exact (features_nonneg _ _ _ f Hb Hs Hlt (proj1 Hp)). }
  assert (Hlatest : In latest (filter (fun f => (category_id f =? c)%Z) feats)).
  { apply in_rev. rewrite Hrev. now left. }
  destruct (Hrows latest Hlatest) as (_ & Hh & Hsp).
  repeat split; try now apply int_nonneg.
  apply int_nonneg.
  eapply decide_amount_nonneg; [exact Hh | exact Hsp | | | | exact Hd].
  - apply predictions_of_nonneg.
  - apply Forall_forall. intros f Hp. exact (proj1 (Hrows f Hp)).
  - intros pd Hpd. apply Qlt_le_weak.
    eapply peer_budget_positive. exact Hpd.
Qed.

Lemma predictions_are_never_negative_witness :
  length (Policy.predict_with_ml Snapshots.world_accurate 1 6 2025) = 2%nat /\
  Forall (fun p => (0 <= Policy.predicted_amount_cents p)%Z)
    (Policy.predict_with_ml Snapshots.world_accurate 1 6 2025).
Proof.
  split; [reflexivity |].
  apply Forall_forall. intros p Hp.
  refine (proj1 (predictions_are_never_negative Snapshots.world_accurate
                   1 6 2025 p _ _ _ Hp)).
  - repeat constructor; vm_compute; discriminate.
  - repeat constructor; vm_compute; discriminate.
  - vm_compute. reflexivity.
Defined.

(* ------------------------------------------------------------------ *)
(** * Further properties of the peer resolver *)

Lemma fold_min_glb (bound : Z) (r : list Z) (x : Z) :
  (bound <= x)%Z -> (forall y, In y r -> (bound <= y)%Z) ->
  (bound <= fold_left Z.min r x)%Z.
Proof.
  revert x. induction r as [| z r IH]; intros x Hx Hr; simpl; [exact Hx |].
  apply IH.
  - pose proof (Hr z (or_introl eq_refl)). lia.
  - intros y Hy. apply Hr. now right.
Qed.

(** X13.  A populated peer recommendation is consistent: it counts at
    least one sample, it was computed for at least one peer, its
    smallest planned amount is positive, and its average planned amount
    lies between its smallest and its largest. *)
Theorem populated_recommendation_is_consistent :
  forall (db : Peer.PeerBudgets) (user_id : Z)
         (category : Peer.CategoryParam)
         (user_clusters : Peer.UserClusters) (historical_months : Z)
         (pd : Peer.PeerData),
    Peer.get_peer_recommendations db user_id category user_clusters
      historical_months = Some pd ->
    (1 <= Peer.peer_samples pd)%Z /\
    (1 <= Peer.peer_count pd)%Z /\
    exists lo hi,
      Peer.min_budget pd = Some lo /\ Peer.max_budget pd = Some hi /\
      (0 < lo)%Z /\
      Py.exact lo <= Peer.avg_peer_budget pd <= Py.exact hi.
Proof.
  intros db u c uc hm pd. unfold Peer.get_peer_recommendations.
  destruct (Peer.lookup u uc) as [info |]; [| discriminate].
  destruct (Peer.similarity_peers info) as [| u0 us]; [discriminate |].
  destruct (Peer.execute db _ c hm) as [rows |]; [| discriminate].
  unfold Peer.select_aggregate.
  destruct (filter _ rows) as [| r0 rs] eqn:F; cbv zeta;
    cbn [Peer.r_avg_peer_budget Peer.truthy]; [discriminate |].
  destruct (Qeq_bool _ 0); cbn [negb]; [discriminate |].
  intros H. injection H as <-.
  cbn [Peer.peer_samples Peer.peer_count Peer.min_budget Peer.max_budget
       Peer.avg_peer_budget Peer.or0 Peer.r_peer_samples Peer.r_min_budget
       Peer.r_max_budget Peer.r_avg_peer_budget].
  set (sel := r0 :: rs) in *.
  assert (Hpos : forall y, In y (map Peer.planned_cents sel) -> (1 <= y)%Z).
  { intros y Hy. apply in_map_iff in Hy. destruct Hy as (r & <- & Hr).
    rewrite <- F in Hr. apply filter_In in Hr. destruct Hr as [_ Hr].
    apply Z.ltb_lt in Hr. lia. }
  split; [unfold Py.len, sel; simpl; lia |].
  split; [unfold Py.len; simpl; lia |].
  eexists. eexists. split; [reflexivity |]. split; [reflexivity |]. split.
  - unfold sel in *. simpl map in *. unfold Py.zmin.
    assert (1 <= fold_left Z.min (map Peer.planned_cents rs)
                   (Peer.planned_cents r0))%Z; [| lia].
    apply fold_min_glb; [apply Hpos; now left |].
    intros y Hy. apply Hpos. now right.
  - apply mean_bounds.
    + discriminate.
    + intros x Hx.
      apply (in_map_iff (fun r => Py.exact (Peer.planned_cents r)) sel) in Hx.
      destruct Hx as (r & <- & Hr). unfold Py.exact.
      rewrite <- !Zle_Qle. split.
      * apply (zmin_le 0 (map Peer.planned_cents sel)). now apply in_map.
      * apply (zmax_ge 0 (map Peer.planned_cents sel)). now apply in_map.
Qed.

Lemma populated_recommendation_is_consistent_witness :
  exists pd,
    Peer.get_peer_recommendations
      (fun _ _ _ => Some [Peer.mkPeerBudgetRow 5000 4000 1000;
                          Peer.mkPeerBudgetRow 7000 7500 500;
                          Peer.mkPeerBudgetRow 0 300 300])
      1 (Peer.PyInt 7) Snapshots.clusters_single_peer 6 = Some pd /\
    (1 <= Peer.peer_samples pd)%Z /\ (1 <= Peer.peer_count pd)%Z.
Proof.
  eexists. split; [vm_compute; reflexivity |].
  match goal with
  | |- (1 <= Peer.peer_samples ?pd)%Z /\ _ =>
      destruct (populated_recommendation_is_consistent
                  (fun _ _ _ => Some [Peer.mkPeerBudgetRow 5000 4000 1000;
                                      Peer.mkPeerBudgetRow 7000 7500 500;
                                      Peer.mkPeerBudgetRow 0 300 300])
                  1 (Peer.PyInt 7) Snapshots.clusters_single_peer 6 pd)
        as (H1 & H2 & _)
  end.
  - vm_compute. reflexivity.
  - split; [exact H1 | exact H2].
Defined.

(* ------------------------------------------------------------------ *)
(** * Properties of user clustering *)

Lemma lookup_labelled (g : Z * Z -> Peer.ClusterInfo) labelled (u : Z) :
  Peer.lookup u (map (fun ul => (fst ul, g ul)) labelled)
  = option_map g (find (fun ul => (fst ul =? u)%Z) labelled).
Proof.
  induction labelled as [| [k l] r IH]; simpl; [reflexivity |].
  destruct (k =? u)%Z; [reflexivity | exact IH].
Qed.

Lemma find_first_key (labelled : list (Z * Z)) (v l : Z) :
  NoDup (map fst labelled) -> In (v, l) labelled ->
  find (fun ul => (fst ul =? v)%Z) labelled = Some (v, l).
Proof.
  induction labelled as [| [k l'] r IH]; simpl; intros Hnd Hin; [destruct Hin |].
  inversion Hnd as [| ? ? Hk Hr]; subst.
  destruct Hin as [E | Hin].
  - injection E as -> ->. now rewrite Z.eqb_refl.
  - destruct (k =? v)%Z eqn:E; [| now apply IH].
    apply Z.eqb_eq in E. subst k. exfalso. apply Hk.
    change v with (fst (v, l)). now apply in_map.
Qed.

Lemma map_fst_combine {A B} (l1 : list A) (l2 : list B) :
  length l2 = length l1 -> map fst (combine l1 l2) = l1.
Proof.
  revert l2. induction l1 as [| x r IH]; intros [| y s] H; simpl in *;
    try reflexivity; try discriminate.
  f_equal. apply IH. lia.
Qed.

Lemma firstn_in {A} (n : nat) (l : list A) x : In x (firstn n l) -> In x l.
Proof.
  intros H. rewrite <- (firstn_skipn n l). apply in_or_app. now left.
Qed.

Lemma firstn_nodup {A} (n : nat) (l : list A) : NoDup l -> NoDup (firstn n l).
Proof.
  intros H. rewrite <- (firstn_skipn n l) in H.
  now apply NoDup_app_remove_r in H.
Qed.

Lemma map_filter_nodup {A B} (f : A -> B) (p : A -> bool) l :
  NoDup (map f l) -> NoDup (map f (filter p l)).
Proof.
  induction l as [| x r IH]; simpl; intros H; [constructor |].
  inversion H as [| ? ? Hx Hr]; subst.
  destruct (p x); simpl; [| now apply IH].
  constructor; [| now apply IH].
  intros Hin. apply Hx. apply in_map_iff in Hin.
  destruct Hin as (y & Ey & Hy). apply filter_In in Hy.
  rewrite <- Ey. apply in_map. exact (proj1 Hy).
Qed.

Lemma cluster_users_shape kmeans ufs n :
  UserClusterer.cluster_users kmeans ufs n = [] \/
  exists labels,
    (2 <= Py.len ufs)%Z /\
    length labels = length ufs /\
    Forall (fun l =>
              (0 <= l < UserClusterer.effective_clusters n (Py.len ufs))%Z)
           labels /\
    UserClusterer.cluster_users kmeans ufs n
    = map (fun ul =>
             (fst ul,
              Peer.mkClusterInfo (snd ul)
                (UserClusterer.similarity_peers
                   (combine (map UserClusterer.user_id ufs) labels)
                   (fst ul) (snd ul))))
          (combine (map UserClusterer.user_id ufs) labels).
Proof.
  unfold UserClusterer.cluster_users.
  destruct (Py.len ufs <? 2)%Z eqn:En; [now left |].
  destruct (kmeans _ _) as [labels |]; [| now left].
  destruct (length labels =? length ufs)%nat eqn:El; cbn [negb];
    [| now left].
  destruct (forallb _ _) eqn:Ef; [| now left].
  right. exists labels. apply Z.ltb_ge in En. apply Nat.eqb_eq in El.
  repeat split; try assumption.
  rewrite forallb_forall in Ef. apply Forall_forall. intros l Hl.
  destruct (In_nth _ _ 0%Z Hl) as (i & Hi & Hnth).
  assert (Hin : In (nth i (map UserClusterer.user_id ufs) 0%Z, l)
                   (combine (map UserClusterer.user_id ufs) labels)).
  { rewrite <- Hnth. rewrite <- combine_nth by (rewrite length_map; lia).
    apply nth_In. rewrite length_combine, length_map. lia. }
  specialize (Ef _ Hin). cbn [snd] in Ef. apply andb_prop in Ef.
  destruct Ef as [E1 E2]. apply Z.leb_le in E1. apply Z.ltb_lt in E2. lia.
Qed.

(** X14.  Clustering assigns either nobody or everybody: the result is
    empty, or it has one entry per user of the frame, in frame order.
    With fewer than two users it is empty. *)
Theorem cluster_users_covers_all_or_none :
  forall (kmeans : UserClusterer.KMeans)
         (user_features : list UserClusterer.UserFeatures) (n_clusters : Z),
    let result :=
      UserClusterer.cluster_users kmeans user_features n_clusters in
    (result = [] \/
     map fst result = map UserClusterer.user_id user_features) /\
    ((Py.len user_features < 2)%Z -> result = []).
Proof.
  intros kmeans ufs n result. subst result. split.
  - destruct (cluster_users_shape kmeans ufs n)
      as [E | (labels & _ & Hlen & _ & ->)]; [now left |].
    right. rewrite map_map. cbn [fst].
    change (map (fun x : Z * Z => fst x)) with (@map (Z * Z) Z fst).
    apply map_fst_combine. now rewrite length_map.
  - intros H. unfold UserClusterer.cluster_users.
    now rewrite (proj2 (Z.ltb_lt _ _) H).
Qed.

(** X15.  In the result of user clustering, a user's peer list never
    contains the user, holds at most ten users without repetition, and
    every peer in it is a clustered user with the same cluster index;
    that index is a valid one, below the effective cluster count. *)
Theorem similarity_peers_are_cluster_mates :
  forall (kmeans : UserClusterer.KMeans)
         (user_features : list UserClusterer.UserFeatures)
         (n_clusters user : Z) (info : Peer.ClusterInfo),
    NoDup (map UserClusterer.user_id user_features) ->
    Peer.lookup user
      (UserClusterer.cluster_users kmeans user_features n_clusters)
    = Some info ->
    ~ In user (Peer.similarity_peers info) /\
    (length (Peer.similarity_peers info) <= 10)%nat /\
    NoDup (Peer.similarity_peers info) /\
    (0 <= Peer.cluster_id info
     < UserClusterer.effective_clusters n_clusters (Py.len user_features))%Z /\
    (forall peer,
        In peer (Peer.similarity_peers info) ->
        exists info',
          Peer.lookup peer
            (UserClusterer.cluster_users kmeans user_features n_clusters)
          = Some info' /\
          Peer.cluster_id info' = Peer.cluster_id info).
Proof.
  intros kmeans ufs n u info Hnd Hl.
  destruct (cluster_users_shape kmeans ufs n)
    as [E | (labels & _ & Hlen & Hrange & E)];
    rewrite E in *; [discriminate |].
  set (labelled := combine (map UserClusterer.user_id ufs) labels) in *.
  assert (Hkeys : map fst labelled = map UserClusterer.user_id ufs)
    by (apply map_fst_combine; now rewrite length_map).
  assert (Hnd' : NoDup (map fst labelled)) by now rewrite Hkeys.
  rewrite lookup_labelled in Hl.
  destruct (find _ labelled) as [[u' l] |] eqn:Ef; [| discriminate].
  injection Hl as <-. apply find_some in Ef. destruct Ef as [Hin Hu].
  apply Z.eqb_eq in Hu. cbn [fst snd] in *. subst u'.
  cbn [Peer.similarity_peers Peer.cluster_id].
  unfold UserClusterer.similarity_peers, UserClusterer.user_ids_of.
  split; [| split; [| split; [| split]]].
  - intros H. apply firstn_in in H. apply filter_In in H.
    destruct H as [_ H]. now rewrite Z.eqb_refl in H.
  - apply firstn_le_length.
  - apply firstn_nodup, NoDup_filter. now apply map_filter_nodup.
  - apply (proj1 (Forall_forall _ _) Hrange).
    apply (in_combine_r _ _ _ _ Hin).
  - intros v Hv. apply firstn_in in Hv. apply filter_In in Hv.
    destruct Hv as [Hv _]. apply in_map_iff in Hv.
    destruct Hv as ([v' l'] & E' & Hv). cbn [fst] in E'. subst v'.
    apply filter_In in Hv. destruct Hv as [Hv El]. cbn [snd] in El.
    apply Z.eqb_eq in El. subst l'.
    eexists. rewrite lookup_labelled, (find_first_key _ _ _ Hnd' Hv).
    split; reflexivity.
Qed.

Lemma similarity_peers_are_cluster_mates_witness :
  let users :=
    map (fun i => UserClusterer.mkUserFeatures i 0 0 0 0 0 0 0)
        [1; 2; 3; 4]%Z in
  let kmeans : UserClusterer.KMeans := fun _ _ => Some [0; 1; 0; 0]%Z in
  exists info,
    Peer.lookup 1 (UserClusterer.cluster_users kmeans users 5) = Some info /\
    Peer.similarity_peers info = [3; 4]%Z /\
    ~ In 1%Z (Peer.similarity_peers info).
Proof.
  intros users kmeans. eexists.
  split; [vm_compute; reflexivity |]. split; [reflexivity |].
  refine (proj1 (similarity_peers_are_cluster_mates kmeans users 5 1 _ _ _)).
  - vm_compute. repeat constructor; simpl; intuition discriminate.
  - vm_compute. reflexivity.
Defined.

(** X16.  For a user with a positive average budget and non-negative
    expenses, budget adherence is at most 1, equals 1 exactly when the
    expenses equal the average budget, and is negative exactly when the
    expenses exceed twice the average budget; without a positive
    average budget it is the neutral 0.5. *)
Theorem budget_adherence_range :
  forall u : UserClusterer.UserFeatures,
    0 <= UserClusterer.total_expenses u ->
    (UserClusterer.avg_budget u <= 0 ->
     UserClusterer.budget_adherence u = 0.5) /\
    (0 < UserClusterer.avg_budget u ->
     UserClusterer.budget_adherence u <= 1 /\
     (UserClusterer.budget_adherence u == 1
      <-> UserClusterer.total_expenses u == UserClusterer.avg_budget u) /\
     (UserClusterer.budget_adherence u < 0
      <-> 2 * UserClusterer.avg_budget u < UserClusterer.total_expenses u)).
Proof.
  intros u He. unfold UserClusterer.budget_adherence.
  set (e := UserClusterer.total_expenses u) in *.
  set (b := UserClusterer.avg_budget u).
  split.
  - intros Hb. now rewrite (proj2 (Qltb_false _ _) Hb).
  - intros Hb. rewrite (proj2 (Qltb_true _ _) Hb).
    set (q := Qabs (e - b) / b).
    assert (Hq : q * b == Qabs (e - b))
      by (unfold q; field; lra).
    assert (Hq0 : 0 <= q).
    { unfold q. apply Qle_shift_div_l; [exact Hb |].
      pose proof (Qabs_nonneg (e - b)). lra. }
    assert (Habs : (b <= e /\ Qabs (e - b) == e - b) \/
                   (e <= b /\ Qabs (e - b) == b - e)).
    { destruct (Qlt_le_dec e b) as [H | H].
      - right. split; [lra |]. rewrite Qabs_neg by lra. ring.
      - left. split; [exact H |]. apply Qabs_pos. lra. }
    split; [lra |]. split.
    + split; intros H.
      * assert (Hz : q == 0) by lra. rewrite Hz in Hq.
        destruct Habs as [[_ Ha] | [_ Ha]]; rewrite Ha in Hq; lra.
      * assert (Hz : Qabs (e - b) == 0).
        { assert (H0 : e - b == 0) by lra. rewrite H0. reflexivity. }
        assert (Hq' : q == 0).
        { unfold q. rewrite Hz. unfold Qdiv. ring. }
        lra.
    + split; intros H.
      * assert (H1 : 1 < q) by lra.
        assert (H2 : 1 * b < q * b)
          by (apply Qmult_lt_compat_r; assumption).
        rewrite Hq in H2.
        destruct Habs as [[_ Ha] | [_ Ha]]; rewrite Ha in H2; lra.
      * assert (H1 : 1 < q).
        { unfold q. apply Qlt_shift_div_l; [exact Hb |].
          destruct Habs as [[_ Ha] | [Hle _]]; [rewrite Ha |]; lra. }
        lra.
Qed.

Lemma budget_adherence_range_witness :
  UserClusterer.budget_adherence
    (UserClusterer.mkUserFeatures 9 0 40000 12 6 100000 300000 5) < 0.
Proof.
  destruct (budget_adherence_range
              (UserClusterer.mkUserFeatures 9 0 40000 12 6 100000 300000 5))
    as [_ H].
  - vm_compute. discriminate.
  - destruct H as (_ & _ & H); [vm_compute; reflexivity |].
    apply H. vm_compute. reflexivity.
Defined.

(* ------------------------------------------------------------------ *)
(** * Properties of the behaviour clusters *)

Lemma get_set_same {V} (k : Z) (v : V) (d : Dict.t V) :
  Dict.get k (Dict.set k v d) = Some v.
Proof.
  induction d as [| [k' v'] r IH]; simpl.
  - now rewrite Z.eqb_refl.
  - destruct (k' =? k)%Z eqn:E; simpl; rewrite E; [reflexivity | exact IH].
Qed.

Lemma get_set_other {V} (k k' : Z) (v : V) (d : Dict.t V) :
  k <> k' -> Dict.get k' (Dict.set k v d) = Dict.get k' d.
Proof.
  intros Hne. induction d as [| [k0 v0] r IH]; simpl.
  - now rewrite (proj2 (Z.eqb_neq _ _) Hne).
  - destruct (k0 =? k)%Z eqn:E; simpl.
    + apply Z.eqb_eq in E. subst k0.
      now rewrite (proj2 (Z.eqb_neq _ _) Hne).
    + destruct (k0 =? k')%Z; [reflexivity | exact IH].
Qed.

Lemma assign_rows_app clusters idx pre rest d :
  Behavior.assign_rows clusters idx (pre ++ rest) d
  = Behavior.assign_rows clusters (idx + length pre) rest
      (Behavior.assign_rows clusters idx pre d).
Proof.
  revert idx d. induction pre as [| f r IH]; intros idx d; simpl.
  - now rewrite Nat.add_0_r.
  - rewrite IH. f_equal. lia.
Qed.

Lemma assign_rows_untouched clusters idx rows d c :
  (forall g, In g rows -> category_id g <> c) ->
  Dict.get c (Behavior.assign_rows clusters idx rows d) = Dict.get c d.
Proof.
  revert idx d. induction rows as [| f r IH]; intros idx d H; simpl;
    [reflexivity |].
  rewrite IH by (intros; apply H; now right).
  apply get_set_other. apply H. now left.
Qed.

(** X17.  The behaviour label of a category is the label of the cluster
    given to the last of its rows in the feature frame; the clusters
    given to its earlier rows are overwritten. *)
Theorem behaviour_label_comes_from_last_row :
  forall (kmeans : Behavior.KMeans) (features_df : list Features)
         (clusters : list Z) (before : list Features) (row : Features)
         (after : list Features),
    features_df = before ++ row :: after ->
    (3 <= Py.len features_df)%Z ->
    kmeans (Z.min 3 (Py.len features_df)) features_df = Some clusters ->
    (forall g, In g after -> category_id g <> category_id row) ->
    Dict.get (category_id row)
      (Behavior.classify_spending_behavior kmeans features_df)
    = Some (Behavior.cluster_mapping
              (Behavior.cluster_at clusters (length before))).
Proof.
  intros kmeans feats clusters pre f post Hf Hn Hk Hpost.
  unfold Behavior.classify_spending_behavior.
  rewrite (proj2 (Z.ltb_ge _ _) Hn), Hk. rewrite Hf.
  rewrite assign_rows_app. simpl.
  rewrite assign_rows_untouched by exact Hpost.
  apply get_set_same.
Qed.

Lemma behaviour_label_comes_from_last_row_witness :
  let feats :=
    FeatureEngineer.feature_rows Snapshots.rent_and_food
      Snapshots.one_food_purchase [] in
  let kmeans : Behavior.KMeans := fun _ _ => Some [2; 2; 0; 1; 1]%Z in
  Dict.get 7 (Behavior.classify_spending_behavior kmeans feats)
  = Some "Conservative"%string.
Proof.
  intros feats kmeans.
  exact (behaviour_label_comes_from_last_row kmeans feats
           [2; 2; 0; 1; 1]%Z (firstn 2 feats) (nth 2 feats (nth 0 feats
              (Snapshots.vector_of [] [] (Snapshots.budget 0 "" 0 0 0))))
           (skipn 3 feats)
           eq_refl ltac:(vm_compute; discriminate) eq_refl
           ltac:(intros g Hg; vm_compute in Hg;
                 destruct Hg as [<- | [<- | []]]; vm_compute; discriminate)).
Defined.

Lemma assign_rows_keys clusters idx rows d c :
  (exists v, Dict.get c (Behavior.assign_rows clusters idx rows d) = Some v)
  <-> In c (map category_id rows) \/ exists v, Dict.get c d = Some v.
Proof.
  revert idx d. induction rows as [| f r IH]; intros idx d; simpl.
  - tauto.
  - rewrite IH. destruct (Z.eq_dec (category_id f) c) as [E | Hne].
    + subst c. rewrite get_set_same. split; [auto | eauto].
    + rewrite (get_set_other _ _ _ _ Hne). tauto.
Qed.

Lemma assign_rows_values clusters idx rows d c v :
  Dict.get c (Behavior.assign_rows clusters idx rows d) = Some v ->
  Dict.get c d = Some v \/
  exists i, v = Behavior.cluster_mapping (Behavior.cluster_at clusters i).
Proof.
  revert idx d. induction rows as [| f r IH]; intros idx d H; simpl in H;
    [now left |].
  destruct (IH _ _ H) as [H' | H']; [| now right].
  destruct (Z.eq_dec (category_id f) c) as [E | Hne].
  - subst c. rewrite get_set_same in H'. injection H' as <-.
    right. now exists idx.
  - rewrite (get_set_other _ _ _ _ Hne) in H'. now left.
Qed.

(** X18.  Behaviour classification labels nothing when the frame has
    fewer than three rows or clustering fails; otherwise it labels
    exactly the categories of the frame, each with "Conservative",
    "Balanced" or "Volatile", whatever indices the clustering returns. *)
Theorem behaviour_labels_cover_the_categories :
  forall (kmeans : Behavior.KMeans) (features_df : list Features),
    let result := Behavior.classify_spending_behavior kmeans features_df in
    ((Py.len features_df < 3)%Z \/
     kmeans (Z.min 3 (Py.len features_df)) features_df = None ->
     result = []) /\
    ((3 <= Py.len features_df)%Z ->
     kmeans (Z.min 3 (Py.len features_df)) features_df <> None ->
     forall c,
       (In c (map category_id features_df)
        <-> exists v, Dict.get c result = Some v)) /\
    (forall c v,
        Dict.get c result = Some v ->
        v = "Conservative"%string \/ v = "Balanced"%string \/
        v = "Volatile"%string).
Proof.
  intros kmeans feats result. subst result.
  unfold Behavior.classify_spending_behavior. split; [| split].
  - intros [H | H].
    + now rewrite (proj2 (Z.ltb_lt _ _) H).
    + rewrite H. now destruct (_ <? _)%Z.
  - intros Hn Hk c. rewrite (proj2 (Z.ltb_ge _ _) Hn).
    destruct (kmeans _ _) as [clusters |]; [| contradiction].
    rewrite assign_rows_keys. simpl. split; [auto |].
    intros [H | [v H]]; [exact H | discriminate].
  - intros c v H. destruct (_ <? _)%Z; [discriminate |].
    destruct (kmeans _ _) as [clusters |]; [| discriminate].
    apply assign_rows_values in H. destruct H as [H | [i ->]];
      [discriminate |].
    unfold Behavior.cluster_mapping.
    destruct (_ =? 0)%Z; [now left |].
    destruct (_ =? 1)%Z; [now (right; left) |].
    destruct (_ =? 2)%Z; [now (right; right) | now (right; left)].
Qed.

(* ------------------------------------------------------------------ *)
(** * Properties of the seasonal patterns *)

Lemma mean_const (v : Q) (l : list Q) :
  l <> [] -> (forall x, In x l -> x == v) -> Py.mean l == v.
Proof.
  intros Hne H.
  destruct (mean_bounds v v l Hne) as [H1 H2].
  - intros x Hx. rewrite (H x Hx). split; apply Qle_refl.
  - now apply Qle_antisym.
Qed.

Lemma sum_zeros {A} (l : list A) : Py.sum (map (fun _ => 0) l) == 0.
Proof. induction l as [| x r IH]; simpl; [reflexivity | rewrite IH; ring]. Qed.

Lemma cv_of_constant (v : Q) (l : list Q) :
  (forall x, In x l -> x == v) -> Seasonal.cv_above_threshold l = false.
Proof.
  intros H. unfold Seasonal.cv_above_threshold, Py.std_sq.
  destruct (Py.len l <? 2)%Z eqn:E; [apply andb_false_r |].
  assert (Hne : l <> []).
  { intros ->. discriminate. }
  pose proof (mean_const v l Hne H) as Hm.
  assert (Hs : Py.sum (map (fun x => (x - Py.mean l) * (x - Py.mean l)) l)
               == 0).
  { rewrite (sum_map_ext _ (fun _ => 0)); [apply sum_zeros |].
    intros x Hx. rewrite (H x Hx), Hm. ring. }
  set (m := Py.mean l) in *.
  set (var := Py.sum _ / _).
  assert (Hv : Py.Qltb (0.09 * m * m) var = false).
  { apply Qltb_false. unfold var. rewrite Hs. unfold Qdiv.
    rewrite Qmult_0_l. pose proof (square_nonneg m) as Hsq.
    setoid_replace (0.09 * m * m) with (0.09 * (m * m)) by ring.
    lra. }
  rewrite Hv. apply andb_false_r.
Qed.

Lemma monthly_amounts_of_constant (v : Q) (category_data : list Features) :
  Forall (fun f => target_amount f == v) category_data ->
  forall x, In x (map snd (Seasonal.monthly_amounts category_data)) -> x == v.
Proof.
  intros Hall x Hx. unfold Seasonal.monthly_amounts in Hx.
  rewrite map_map in Hx. cbn [snd] in Hx. apply in_map_iff in Hx.
  destruct Hx as (m & <- & Hm).
  apply (Permutation_in _ (Permutation_sym (sort_values_perm _ _))) in Hm.
  apply (proj1 (unique_in _ _)) in Hm. apply in_map_iff in Hm.
  destruct Hm as (f & Hf & Hin).
  apply mean_const.
  - intros E. apply map_eq_nil in E.
    assert (H : In f (filter (fun g => (month g =? m)%Z) category_data))
      by (apply filter_In; split; [exact Hin | now apply Z.eqb_eq]).
    rewrite E in H. destruct H.
  - intros y Hy. apply in_map_iff in Hy. destruct Hy as (g & <- & Hg).
    apply filter_In in Hg.
    exact (proj1 (Forall_forall _ _) Hall g (proj1 Hg)).
Qed.

(** X19.  A category whose planned amount is the same in every period is
    never labelled seasonal: whatever the peak finder would report, its
    pattern is "Insufficient data", "Limited data" or "Stable". *)
Theorem constant_plans_are_never_seasonal :
  forall (find_peaks : Seasonal.FindPeaks) (category_data : list Features)
         (v : Q),
    Forall (fun f => target_amount f == v) category_data ->
    Seasonal.pattern_of find_peaks category_data
    = "Insufficient data"%string \/
    Seasonal.pattern_of find_peaks category_data = "Limited data"%string \/
    Seasonal.pattern_of find_peaks category_data = "Stable"%string.
Proof.
  intros find_peaks cd v Hall. unfold Seasonal.pattern_of.
  destruct (Py.len cd <? 4)%Z; [now left |]. cbv zeta.
  destruct (3 <=? _)%Z; [| now (right; left)].
  rewrite (cv_of_constant v) by now apply monthly_amounts_of_constant.
  now (right; right).
Qed.

Lemma constant_plans_are_never_seasonal_witness :
  let rows :=
    [ mkBudgetRow 7 "Rent" 0 29 10000 1 1 2025;
      mkBudgetRow 7 "Rent" 30 59 10000 2 1 2025;
      mkBudgetRow 7 "Rent" 60 89 10000 3 1 2025;
      mkBudgetRow 7 "Rent" 90 119 10000 4 2 2025 ] in
  Seasonal.pattern_of (fun _ _ => [10%Z])
    (FeatureEngineer.feature_rows rows [ mkSpendingRow 7 9000 10 ] [])
  = "Stable"%string.
Proof.
  intros rows.
  destruct (constant_plans_are_never_seasonal (fun _ _ => [10%Z])
              (FeatureEngineer.feature_rows rows
                 [ mkSpendingRow 7 9000 10 ] []) 10000)
    as [H | [H | H]].
  - repeat constructor; vm_compute; reflexivity.
  - vm_compute in H. discriminate.
  - vm_compute in H. discriminate.
  - exact H.
Defined.

(* ------------------------------------------------------------------ *)
(** * The latest row of a category *)

Lemma last_is_greatest {A} (key : A -> Z) (l : list A) (x : A) :
  StronglySorted (fun a b => (key a <= key b)%Z) (l ++ [x]) ->
  Forall (fun y => (key y <= key x)%Z) (l ++ [x]).
Proof.
  induction l as [| y r IH]; simpl; intros H.
  - constructor; [lia | constructor].
  - inversion H as [| ? ? Hr Hy]; subst. constructor.
    + apply (proj1 (Forall_forall _ _) Hy). apply in_or_app.
      right. now left.
    + now apply IH.
Qed.

(** X21.  Whenever feature engineering returns a frame, the row the
    decision policy reads for a category is the feature row of a budget
    period of that category with the latest start date: no period of
    the category starts later. *)
Theorem latest_row_is_most_recent_period :
  forall (budgets : list BudgetRow) (spending : list SpendingRow)
         (accounts : list AccountRow) (features_df : list Features) (c : Z),
    FeatureEngineer.engineer_features budgets spending accounts
    = Py.Ok features_df ->
    In c (map b_category_id budgets) ->
    exists (latest_row : BudgetRow) (earlier : list BudgetRow)
           (rest : list Features),
      In latest_row budgets /\ b_category_id latest_row = c /\
      (forall r, In r budgets -> b_category_id r = c ->
                 (b_period_start r <= b_period_start latest_row)%Z) /\
      rev (filter (fun f => (category_id f =? c)%Z) features_df)
      = FeatureEngineer.feature_row (earlier ++ [latest_row])
          (FeatureEngineer.of_category s_category_id c spending)
          (FeatureEngineer.of_category a_category_id c accounts) latest_row
        :: rest /\
      Permutation (earlier ++ [latest_row])
        (FeatureEngineer.of_category b_category_id c budgets).
Proof.
  intros b s a feats c Hf Hc.
  apply engineer_features_ok in Hf. subst feats.
  set (rows := FeatureEngineer.of_category b_category_id c b).
  set (sorted := Py.sort_values b_period_start rows).
  pose proof (sort_values_perm b_period_start rows) as Hperm.
  fold sorted in Hperm.
  assert (Hne : sorted <> []).
  { intros E. unfold sorted in E. apply sort_values_nil in E.
    revert E. now apply of_category_nonempty. }
  destruct (exists_last Hne) as (earlier & latest_row & Hs).
  pose proof (sort_values_sorted b_period_start rows) as Hsorted.
  fold sorted in Hsorted. rewrite Hs in Hsorted.
  apply last_is_greatest in Hsorted. rewrite <- Hs in Hsorted.
  assert (Hin : In latest_row rows).
  { apply (Permutation_in _ (Permutation_sym Hperm)). rewrite Hs.
    apply in_or_app. right. now left. }
  unfold rows, FeatureEngineer.of_category in Hin. apply filter_In in Hin.
  destruct Hin as [Hin Hcat]. apply Z.eqb_eq in Hcat.
  destruct (latest_features b s a c earlier latest_row Hs) as [rest Hrev].
  exists latest_row, earlier, rest.
  split; [exact Hin |]. split; [exact Hcat |]. split; [| split].
  - intros r Hr Hrc.
    apply (proj1 (Forall_forall _ _) Hsorted).
    apply (Permutation_in _ Hperm). unfold rows.
    apply filter_In. split; [exact Hr | now apply Z.eqb_eq].
  - rewrite category_data_eq. exact Hrev.
  - rewrite <- Hs. now apply Permutation_sym.
Qed.

Lemma latest_row_is_most_recent_period_witness :
  exists features_df latest_row,
    FeatureEngineer.engineer_features Snapshots.lookback_budgets_a
      Snapshots.lookback_spending_a [] = Py.Ok features_df /\
    In latest_row Snapshots.lookback_budgets_a /\
    forall r, In r Snapshots.lookback_budgets_a -> b_category_id r = 7%Z ->
              (b_period_start r <= b_period_start latest_row)%Z.
Proof.
  exists (FeatureEngineer.feature_rows Snapshots.lookback_budgets_a
            Snapshots.lookback_spending_a []).
  assert (Hf : FeatureEngineer.engineer_features Snapshots.lookback_budgets_a
                 Snapshots.lookback_spending_a []
               = Py.Ok (FeatureEngineer.feature_rows
                          Snapshots.lookback_budgets_a
                          Snapshots.lookback_spending_a []))
    by (vm_compute; reflexivity).
  destruct (latest_row_is_most_recent_period Snapshots.lookback_budgets_a
              Snapshots.lookback_spending_a [] _ 7 Hf)
    as (latest_row & _ & _ & Hin & _ & Hmax & _).
  - vm_compute. left. reflexivity.
  - exists latest_row. split; [exact Hf |].
    split; [exact Hin | exact Hmax].
Defined.

Lemma cluster_users_covers_all_or_none_witness :
  UserClusterer.cluster_users (fun _ _ => Some [0%Z])
    [UserClusterer.mkUserFeatures 1 0 0 0 0 0 0 0] 5 = [].
Proof.
  apply (proj2 (cluster_users_covers_all_or_none (fun _ _ => Some [0%Z])
                  [UserClusterer.mkUserFeatures 1 0 0 0 0 0 0 0] 5)).
  vm_compute. reflexivity.
Defined.

Lemma behaviour_labels_cover_the_categories_witness :
  Behavior.classify_spending_behavior (fun _ _ => Some [0; 1]%Z)
    (FeatureEngineer.feature_rows
       [ Snapshots.budget 8 "Food" 0 29 4000;
         Snapshots.budget 8 "Food" 30 59 6000 ]
       Snapshots.one_food_purchase [])
  = [].
Proof.
  apply (proj1 (behaviour_labels_cover_the_categories
                  (fun _ _ => Some [0; 1]%Z)
                  (FeatureEngineer.feature_rows
                     [ Snapshots.budget 8 "Food" 0 29 4000;
                       Snapshots.budget 8 "Food" 30 59 6000 ]
                     Snapshots.one_food_purchase []))).
  left. vm_compute. reflexivity.
Defined.
